(** * A shallow embedding of the vector protocol engine

    The development follows the TypeScript sources of the channel engine:
    - [utils.ts]      : [generateSignedChannelCommitment], [reconcileDeposit],
                        [mergeAssetIds], [extractContextFromStore],
                        [getUpdatedChannelBalance];
    - [ethReader.ts]  : [retryWrapper], [getCode], [getOnchainBalance],
                        [getTotalDepositedA], [getTotalDepositedB],
                        [getChannelDispute], [getWithdrawalTransactionRecord],
                        [loadRegistry], [getRegisteredTransferByName],
                        [getRegisteredTransferByDefinition],
                        [getRegisteredTransfers];
    - [ethService.ts] : [sendTxWithRetries], [sendTxAndParseResponse];
    - [sync.ts]       : [outbound], [inbound], [syncStateAndRecreateUpdate],
                        [syncState];
    - [paramConverter.ts] : [convertWithdrawParams].

    Asynchronous functions become functions in a state monad whose
    computations either complete normally or throw (a rejected promise);
    [Result.ok]/[Result.fail] values are ordinary data. *)

From Stdlib Require Import ZArith String Ascii List Lia Bool.
From Stdlib Require Import DecimalString DecimalZ.
From stdpp Require Import base option list strings gmap.

Open Scope Z_scope.
Open Scope string_scope.

(** ** Results, exceptions and the effect monad *)

(** [Result<T, E>] of vector-types. *)
Inductive Result (T E : Type) : Type :=
| Ok (v : T)
| Fail (e : E).
Arguments Ok {T E} v.
Arguments Fail {T E} e.

Definition isError {T E} (r : Result T E) : bool :=
  match r with Ok _ => false | Fail _ => true end.

(** A thrown value that is no error object and has no [message]: [null],
    [undefined] (a promise rejected without a reason), or any other value,
    such as a string or a plain object. *)
Inductive Bare : Type := JsNull | JsUndefined | JsPlain.

(** What a JavaScript [throw], or the rejection of a promise, carries in the
    code under study. *)
Inductive Exn : Type :=
| TypeError (what : string)        (* property access on [undefined] *)
| BigNumberError (what : string)   (* [BigNumber.from] on a non-number *)
| ErrorObj (message : string) (retry : bool)
                                   (* any other error object: its [message]
                                      and its [canRetry] property, if any *)
| NotAnError (v : Bare).           (* a value without a [message] *)

(** A completed evaluation: a value, or an exception in flight. *)
Inductive Completion (A : Type) : Type :=
| Normal (a : A)
| Throw (e : Exn).
Arguments Normal {A} a.
Arguments Throw {A} e.

Definition cbind {A B} (m : Completion A) (k : A -> Completion B) : Completion B :=
  match m with
  | Normal a => k a
  | Throw e => Throw e
  end.

Declare Scope completion_scope.
Delimit Scope completion_scope with cpl.
Notation "x <- m ;; k" := (cbind m (fun x => k))
  (at level 100, m at next level, k at level 200, right associativity) : completion_scope.

(** Effectful code threads a state [S]; an exception keeps the state reached. *)
Definition Eff (S A : Type) : Type := S -> Completion A * S.

Definition eret {S A} (a : A) : Eff S A := fun s => (Normal a, s).
Definition ethrow {S A} (e : Exn) : Eff S A := fun s => (Throw e, s).
Definition ebind {S A B} (m : Eff S A) (k : A -> Eff S B) : Eff S B :=
  fun s => match m s with
           | (Normal a, s') => k a s'
           | (Throw e, s') => (Throw e, s')
           end.
(** [try { m } catch (e) { h e }] *)
Definition ecatch {S A} (m : Eff S A) (h : Exn -> Eff S A) : Eff S A :=
  fun s => match m s with
           | (Normal a, s') => (Normal a, s')
           | (Throw e, s') => h e s'
           end.
Definition elift {S A} (c : Completion A) : Eff S A := fun s => (c, s).

Declare Scope eff_scope.
Delimit Scope eff_scope with eff.
Notation "'let*' x ':=' m 'in' k" := (ebind m (fun x => k))
  (at level 10, x pattern, m at level 100, k at level 200) : eff_scope.
Notation "m ';;' k" := (ebind m (fun _ => k))
  (at level 100, k at level 200, right associativity) : eff_scope.

(** ** JavaScript values used by the code *)

(** [s.toLowerCase()] on ASCII text. *)
Definition lower_ascii (c : ascii) : ascii :=
  let n := nat_of_ascii c in
  if ((65 <=? n) && (n <=? 90))%nat then ascii_of_nat (n + 32) else c.

Fixpoint toLowerCase (s : string) : string :=
  match s with
  | EmptyString => EmptyString
  | String c r => String (lower_ascii c) (toLowerCase r)
  end.

(** [a > b] on strings: code-unit lexicographic order. *)
Definition str_gt (a b : string) : bool := String.ltb b a.

(** An optional string is truthy when it is defined and not empty. *)
Definition truthy (s : option string) : bool :=
  match s with
  | Some s => negb (String.eqb s "")
  | None => false
  end.

(** A JavaScript array that may have holes; [None] reads as [undefined]. *)
Definition JsArray (A : Type) : Type := list (option A).

(** [arr[idx] = v], extending the array with holes when [idx] is past its end. *)
Definition js_set {A} (arr : JsArray A) (idx : nat) (v : option A) : JsArray A :=
  if (idx <? length arr)%nat then <[idx := v]> arr
  else (arr ++ replicate (idx - length arr) None ++ [v])%list.

(** [arr.includes(x)] for a string [x]. *)
Definition js_includes (arr : JsArray string) (x : string) : bool :=
  existsb (fun o => match o with Some y => String.eqb y x | None => false end) arr.

(** ** BigNumber: exact integers, written as decimal strings *)

Module BigNumber.
(** [BigNumber.from(s)] for a decimal string, the form in which the channel
    keeps its amounts; anything else throws. *)
Definition parse (s : string) : option Z := Z.of_int <$> NilZero.int_of_string s.

Definition from (s : option string) : Completion Z :=
  match s with
  | None => Throw (BigNumberError "undefined")
  | Some s => match parse s with
              | Some z => Normal z
              | None => Throw (BigNumberError s)
              end
  end.

Definition toString (z : Z) : string := NilZero.string_of_int (Z.to_int z).
End BigNumber.

(** ** Data model *)

Inductive UpdateType : Type := setup | deposit | create | resolve.

#[global] Instance UpdateType_eq_dec : EqDecision UpdateType.
Proof. solve_decision. Defined.

Record Balance : Type := mkBalance {
  to : list string;
  amount : list string;
}.

Record NetworkContext : Type := mkNetworkContext {
  chainId : Z;
  channelFactoryAddress : string;
  transferRegistryAddress : string;
}.

Record ChannelUpdate : Type := mkChannelUpdate {
  u_channelAddress : string;
  fromIdentifier : string;
  toIdentifier : string;
  type : UpdateType;
  u_nonce : Z;
  u_balance : Balance;
  u_assetId : string;
  details : string;
  aliceSignature : option string;
  bobSignature : option string;
}.

Record FullChannelState : Type := mkFullChannelState {
  channelAddress : string;
  alice : string;
  bob : string;
  aliceIdentifier : string;
  bobIdentifier : string;
  assetIds : list string;
  balances : list Balance;
  processedDepositsA : list string;
  processedDepositsB : list string;
  defundNonces : list string;
  timeout : string;
  nonce : Z;
  merkleRoot : string;
  latestUpdate : ChannelUpdate;
  networkContext : NetworkContext;
  inDispute : bool;
}.

(** What is left of a channel state once [networkContext] is taken out:
    [const { networkContext, ...core } = newState]. *)
Record CoreChannelState : Type := mkCoreChannelState {
  c_channelAddress : string;
  c_alice : string;
  c_bob : string;
  c_aliceIdentifier : string;
  c_bobIdentifier : string;
  c_assetIds : list string;
  c_balances : list Balance;
  c_processedDepositsA : list string;
  c_processedDepositsB : list string;
  c_defundNonces : list string;
  c_timeout : string;
  c_nonce : Z;
  c_merkleRoot : string;
  c_latestUpdate : ChannelUpdate;
  c_inDispute : bool;
}.

Definition withoutNetworkContext (s : FullChannelState) : CoreChannelState :=
  {| c_channelAddress := channelAddress s; c_alice := alice s; c_bob := bob s;
     c_aliceIdentifier := aliceIdentifier s; c_bobIdentifier := bobIdentifier s;
     c_assetIds := assetIds s; c_balances := balances s;
     c_processedDepositsA := processedDepositsA s;
     c_processedDepositsB := processedDepositsB s;
     c_defundNonces := defundNonces s; c_timeout := timeout s;
     c_nonce := nonce s; c_merkleRoot := merkleRoot s;
     c_latestUpdate := latestUpdate s; c_inDispute := inDispute s |}.

Record FullTransferState : Type := mkFullTransferState {
  transferId : string;
  t_channelAddress : string;
  t_balance : Balance;
  t_assetId : string;
  transferDefinition : string;
  transferTimeout : string;
  initialStateHash : string;
  transferResolver : option string;
}.

(** [ChainError]: its message, whether the failure is worth a retry, and the
    per-attempt messages some errors carry in their context. *)
Record ChainError : Type := mkChainError {
  ce_message : string;
  canRetry : bool;
  ce_errors : list string;
}.

(** The message of a thrown value as it shows once it has been read; the
    [undefined] of a value without a message shows as the text a template
    literal makes of it. *)
Definition exn_message (e : Exn) : string :=
  match e with
  | TypeError w => w
  | BigNumberError w => w
  | ErrorObj m _ => m
  | NotAnError _ => "undefined"
  end.

(** [e.message] in a [catch] block: reading a property of [null] or of
    [undefined] throws a [TypeError]; any other value gives its message, or
    [undefined] when it has none. *)
Definition reads_message (e : Exn) : Completion string :=
  match e with
  | NotAnError JsNull => Throw (TypeError "Cannot read property 'message' of null")
  | NotAnError JsUndefined =>
    Throw (TypeError "Cannot read property 'message' of undefined")
  | _ => Normal (exn_message e)
  end.

(** [Result.fail(e)] for a caught [e].  The [Result] class of vector-types
    is not part of the sources read here: a result made with [Result.fail]
    is taken to be a failure whatever was caught. *)
Definition caught (e : Exn) : ChainError :=
  {| ce_message := exn_message e;
     canRetry := match e with ErrorObj _ r => r | _ => false end;
     ce_errors := [] |}.

(** The [ChainError] class of vector-types is not part of the sources read
    here: its reason strings and the rule that sets [canRetry] from the
    message are taken as given. *)
Record ChainErrorTable : Type := mkChainErrorTable {
  retryable : string -> bool;
  ProviderNotFound : string;
  NotEnoughFunds : string;
  FailedToSendTx : string;
}.

Definition newChainError (tbl : ChainErrorTable) (msg : string) (errors : list string)
  : ChainError :=
  {| ce_message := msg; canRetry := retryable tbl msg; ce_errors := errors |}.

(** ** Interfaces the engine consumes *)

(** [IChannelSigner]: signing is an effect and may throw. *)
Record IChannelSigner (S : Type) : Type := mkSigner {
  address : string;
  publicIdentifier : string;
  signMessage : string -> Eff S string;
}.
Arguments address {S} _.
Arguments publicIdentifier {S} _.
Arguments signMessage {S} _ _ _.

(** The part of [IVectorChainReader] that [reconcileDeposit] calls. *)
Record IVectorChainReader (W : Type) : Type := mkChainReader {
  getTotalDepositedA : string -> Z -> string -> Eff W (Result Z ChainError);
  getTotalDepositedB : string -> Z -> string -> Eff W (Result Z ChainError);
}.
Arguments getTotalDepositedA {W} _ _ _ _ _.
Arguments getTotalDepositedB {W} _ _ _ _ _.

(** ** utils.ts *)

Module Utils.

Local Open Scope completion_scope.

Record SignedCommitment : Type := mkSignedCommitment {
  sc_core : CoreChannelState;
  sc_aliceSignature : option string;
  sc_bobSignature : option string;
}.

Record Reconciled : Type := mkReconciled {
  r_balance : Balance;
  r_totalDepositsAlice : string;
  r_totalDepositsBob : string;
}.

(** The five arrays [mergeAssetIds] builds by index assignment. *)
Record MergedArrays : Type := mkMergedArrays {
  m_assetIds : JsArray string;
  m_processedDepositsA : JsArray string;
  m_processedDepositsB : JsArray string;
  m_balances : JsArray Balance;
  m_defundNonces : JsArray string;
}.

(** [{ ...channel, assetIds, processedDepositsA, ... }]: every other field is
    the channel's. *)
Record MergedChannel : Type := mkMergedChannel {
  m_rest : FullChannelState;
  m_arrays : MergedArrays;
}.

(** [arr.reduce((prev, curr, currIdx) => f prev curr currIdx, init)] where the
    callback may throw. *)
Fixpoint js_reduce_from {A B} (f : B -> A -> nat -> Completion B)
    (i : nat) (l : list A) (acc : B) : Completion B :=
  match l with
  | [] => Normal acc
  | x :: r => acc' <- f acc x i;; js_reduce_from f (S i) r acc'
  end.

Definition js_reduce {A B} (f : B -> A -> nat -> Completion B) (init : B)
    (l : list A) : Completion B :=
  js_reduce_from f 0 l init.

Section WithImports.
(** [hashChannelCommitment] of vector-utils and [getAddress] of ethers. *)
(** The hash is an ABI encoding of the core state and throws on a state
    that does not encode. *)
Variable hashChannelCommitment : CoreChannelState -> Completion string.
Variable getAddress : string -> Completion string.

Definition generateSignedChannelCommitment {S} (newState : FullChannelState)
    (signer : IChannelSigner S) (aliceSignature bobSignature : option string)
  : Eff S (Result SignedCommitment Exn) :=
  let core := withoutNetworkContext newState in
  (* the hash is taken before the signatures are looked at, outside the [try] *)
  (let* hash := elift (hashChannelCommitment core) in
   if truthy aliceSignature && truthy bobSignature then
     (* No need to sign, we have already signed *)
     eret (Ok (mkSignedCommitment core aliceSignature bobSignature))
   else
     (* Only counterparty has signed *)
     ecatch
       (let* sig := signMessage signer hash in
        let isAlice := String.eqb (address signer) (alice newState) in
        eret (Ok (mkSignedCommitment core
                    (if isAlice then Some sig else aliceSignature)
                    (if isAlice then bobSignature else Some sig))))
       (fun e => eret (Fail e)))%eff.

Definition reconcileDeposit {W} (channelAddress : string) (chainId : Z)
    (initialBalance : Balance) (processedDepositA processedDepositB : string)
    (assetId : string) (chainReader : IVectorChainReader W)
  : Eff W (Result Reconciled ChainError) :=
  (* First get totalDepositsAlice and totalDepositsBob *)
  (let* totalDepositedARes := getTotalDepositedA chainReader channelAddress chainId assetId in
   match totalDepositedARes with
   | Fail e => eret (Fail e)
   | Ok totalDepositsAlice =>
     let* totalDepositedBRes := getTotalDepositedB chainReader channelAddress chainId assetId in
     match totalDepositedBRes with
     | Fail e => eret (Fail e)
     | Ok totalDepositsBob =>
       (* Now calculate the amount deposited that has not yet been reconciled *)
       let* pA := elift (BigNumber.from (Some processedDepositA)) in
       let* pB := elift (BigNumber.from (Some processedDepositB)) in
       let depositsToReconcile0 := totalDepositsAlice - pA in
       let depositsToReconcile1 := totalDepositsBob - pB in
       (* Lastly, calculate the new balance *)
       let* a0 := elift (BigNumber.from (amount initialBalance !! 0%nat)) in
       let* a1 := elift (BigNumber.from (amount initialBalance !! 1%nat)) in
       let balance :=
         {| to := to initialBalance;
            amount := [BigNumber.toString (a0 + depositsToReconcile0);
                       BigNumber.toString (a1 + depositsToReconcile1)] |} in
       eret (Ok (mkReconciled balance
                   (BigNumber.toString totalDepositsAlice)
                   (BigNumber.toString totalDepositsBob)))
     end
   end)%eff.

(** [channel.assetIds.filter((a, i) => a.toLowerCase() === asset.toLowerCase() && i !== idx)] *)
Definition duplicatesOf (ids : list string) (asset : string) (idx : nat) : list string :=
  snd <$> List.filter
    (fun ia => String.eqb (toLowerCase (snd ia)) (toLowerCase asset)
               && negb (Nat.eqb (fst ia) idx))
    (imap pair ids).

(** [unprocessedAsset]: unprocessed iff the asset is not in the updated
    arrays and matches the asset in question. *)
Definition unprocessedAsset (asset checkSummed : string) (done : JsArray string)
    (a : option string) : Completion bool :=
  match a with
  | None => Throw (TypeError "toLowerCase")
  | Some a => Normal (String.eqb (toLowerCase a) (toLowerCase asset)
                      && negb (js_includes done checkSummed))
  end.

Definition processedForAsset (channel : FullChannelState) (unprocessed : option string -> Completion bool)
    (l : list string) : Completion string :=
  js_reduce (fun prev curr currIdx =>
               p <- BigNumber.from (Some prev);;
               u <- unprocessed (assetIds channel !! currIdx);;
               c <- BigNumber.from (Some (if u then curr else "0"));;
               Normal (BigNumber.toString (p + c)))
            "0" l.

Definition balanceForAsset (channel : FullChannelState) (unprocessed : option string -> Completion bool)
  : Completion Balance :=
  js_reduce (fun prev curr currIdx =>
               u <- unprocessed (assetIds channel !! currIdx);;
               if u then
                 (* make update *)
                 p0 <- BigNumber.from (amount prev !! 0%nat);;
                 c0 <- BigNumber.from (amount curr !! 0%nat);;
                 p1 <- BigNumber.from (amount prev !! 1%nat);;
                 c1 <- BigNumber.from (amount curr !! 1%nat);;
                 Normal {| to := to prev;
                         amount := List.map BigNumber.toString [p0 + c0; p1 + c1] |}
               else
                 (* dont make any updates *)
                 Normal prev)
            {| to := [alice channel; bob channel]; amount := ["0"; "0"] |}
            (balances channel).

Definition defundNonceForAsset (channel : FullChannelState) (unprocessed : option string -> Completion bool)
  : Completion string :=
  js_reduce (fun prev curr currIdx =>
               u <- unprocessed (assetIds channel !! currIdx);;
               Normal (if u && str_gt prev curr then prev else curr))
            "0" (defundNonces channel).

(** The callback of [channel.assetIds.forEach((asset, idx) => ...)]. *)
Definition mergeStep (channel : FullChannelState) (acc : MergedArrays)
    (asset : string) (idx : nat) : Completion MergedArrays :=
  let duplicates := duplicatesOf (assetIds channel) asset idx in
  checkSummed <- getAddress asset;;
  if Nat.eqb (length duplicates) 0 then
    (* there are no duplicates for this asset, update all arrays to have
       existing value at existing idx *)
    Normal {| m_assetIds := js_set (m_assetIds acc) idx (Some checkSummed);
            m_processedDepositsA :=
              js_set (m_processedDepositsA acc) idx (processedDepositsA channel !! idx);
            m_processedDepositsB :=
              js_set (m_processedDepositsB acc) idx (processedDepositsB channel !! idx);
            m_balances := js_set (m_balances acc) idx (balances channel !! idx);
            m_defundNonces := js_set (m_defundNonces acc) idx (defundNonces channel !! idx) |}
  else
    (* there *are* duplicates, reduce the arrays *)
    let unprocessed := unprocessedAsset asset checkSummed (m_assetIds acc) in
    processedA <- processedForAsset channel unprocessed (processedDepositsA channel);;
    processedB <- processedForAsset channel unprocessed (processedDepositsB channel);;
    balance <- balanceForAsset channel unprocessed;;
    defundNonce <- defundNonceForAsset channel unprocessed;;
    (* only update value once *)
    u <- unprocessed (Some asset);;
    if negb u then Normal acc
    else
      checkSummed' <- getAddress asset;;
      Normal {| m_assetIds := js_set (m_assetIds acc) idx (Some checkSummed');
              m_processedDepositsA := js_set (m_processedDepositsA acc) idx (Some processedA);
              m_processedDepositsB := js_set (m_processedDepositsB acc) idx (Some processedB);
              m_balances := js_set (m_balances acc) idx (Some balance);
              m_defundNonces := js_set (m_defundNonces acc) idx (Some defundNonce) |}.

Definition mergeAssetIds (channel : FullChannelState) : Completion MergedChannel :=
  arrays <- js_reduce (mergeStep channel) (mkMergedArrays [] [] [] [] [])
                     (assetIds channel);;
  Normal (mkMergedChannel channel arrays).

End WithImports.

End Utils.

(** ** ethReader.ts *)

Module EthReader.

Local Open Scope eff_scope.

Definition AddressZero : string := "0x0000000000000000000000000000000000000000".

(** What the code asks of a [JsonRpcProvider] and of the contracts bound to
    it; every call is an RPC and may throw. *)
Record JsonRpcProvider (W : Type) : Type := mkProvider {
  provider_getCode : string -> Eff W string;
  provider_getBalance : string -> Eff W Z;
  (* [new Contract(assetId, ERC20Abi, provider).balanceOf(holder)] *)
  erc20_balanceOf : string -> string -> Eff W Z;
  (* [new Contract(channelAddress, ChannelMastercopy.abi, provider)] *)
  channel_getTotalDepositsAlice : string -> string -> Eff W Z;
  channel_getTotalDepositsBob : string -> string -> Eff W Z;
}.
Arguments provider_getCode {W} _ _ _.
Arguments provider_getBalance {W} _ _ _.
Arguments erc20_balanceOf {W} _ _ _ _.
Arguments channel_getTotalDepositsAlice {W} _ _ _ _.
Arguments channel_getTotalDepositsBob {W} _ _ _ _.

(** The world after [n] calls of [target] in a row. *)
Fixpoint afterCalls {W A} (n : nat) (target : Eff W A) (w : W) : W :=
  match n with
  | O => w
  | S n' => afterCalls n' target (snd (target w))
  end.

Section EthereumChainReader.
Context {W : Type}.
Variable tbl : ChainErrorTable.
(** [ETH_READER_MAX_RETRIES] of vector-types. *)
Variable ETH_READER_MAX_RETRIES : Z.
Variable chainProviders : gmap Z (JsonRpcProvider W).

(** The body of [for (retries = 1; retries < ETH_READER_MAX_RETRIES; retries++)]:
    [todo] counts the iterations still allowed, [ETH_READER_MAX_RETRIES - retries]. *)
Fixpoint retryLoop {T} (todo : nat) (target : Eff W (Result T ChainError))
    (res : Result T ChainError) (errors : list string)
  : Eff W (Result T ChainError * list string) :=
  match todo with
  | O => eret (res, errors)
  | S todo' =>
    let* res' := target in
    match res' with
    | Ok _ => eret (res', errors)       (* break *)
    | Fail e => retryLoop todo' target res' (errors ++ [ce_message e])%list
    end
  end.

Definition retryWrapper {T} (chainId : Z)
    (targetMethod : JsonRpcProvider W -> Eff W (Result T ChainError))
  : Eff W (Result T ChainError) :=
  match chainProviders !! chainId with
  | None => eret (Fail (newChainError tbl (ProviderNotFound tbl) []))
  | Some provider =>
    let* res := targetMethod provider in
    match res with
    | Ok _ => eret res
    | Fail e0 =>
      let* (res, errors) :=
        retryLoop (Z.to_nat (ETH_READER_MAX_RETRIES - 1)) (targetMethod provider)
                  res [ce_message e0] in
      match res with
      | Fail _ => eret (Fail (newChainError tbl "Could not execute rpc method" errors))
      | Ok _ => eret res
      end
    end
  end.

Definition getCode (address : string) (chainId : Z) : Eff W (Result string ChainError) :=
  retryWrapper chainId (fun provider =>
    ecatch (let* code := provider_getCode provider address in eret (Ok code))
           (fun e => eret (Fail (caught e)))).

Definition getOnchainBalance (assetId balanceOf : string) (chainId : Z)
  : Eff W (Result Z ChainError) :=
  retryWrapper chainId (fun provider =>
    ecatch (let* onchainBalance :=
              if String.eqb assetId AddressZero
              then provider_getBalance provider balanceOf
              else erc20_balanceOf provider assetId balanceOf in
            eret (Ok onchainBalance))
           (fun e => eret (Fail (caught e)))).

Definition getTotalDepositedA (channelAddress : string) (chainId : Z) (assetId : string)
  : Eff W (Result Z ChainError) :=
  retryWrapper chainId (fun provider =>
    let* code := getCode channelAddress chainId in
    match code with
    | Fail e => eret (Fail e)
    | Ok code =>
      if String.eqb code "0x" then
        (* contract *must* be deployed for alice to have a balance *)
        eret (Ok 0)
      else
        ecatch (let* totalDepositsAlice :=
                  channel_getTotalDepositsAlice provider channelAddress assetId in
                eret (Ok totalDepositsAlice))
               (fun e => eret (Fail (caught e)))
    end).

Definition getTotalDepositedB (channelAddress : string) (chainId : Z) (assetId : string)
  : Eff W (Result Z ChainError) :=
  retryWrapper chainId (fun provider =>
    let* code := getCode channelAddress chainId in
    match code with
    | Fail e => eret (Fail e)
    | Ok code =>
      if String.eqb code "0x" then
        (* all balance at channel address *must* be for bob *)
        getOnchainBalance assetId channelAddress chainId
      else
        ecatch (let* totalDepositsBob :=
                  channel_getTotalDepositsBob provider channelAddress assetId in
                eret (Ok totalDepositsBob))
               (fun e => eret (Fail (caught e)))
    end).

Definition chainReader : IVectorChainReader W :=
  mkChainReader W getTotalDepositedA getTotalDepositedB.

End EthereumChainReader.

End EthReader.

(** ** ethService.ts *)

Module EthService.

Local Open Scope eff_scope.

(** A submitted transaction, as far as the retry logic looks at it. *)
Record TransactionResponse : Type := mkTransactionResponse {
  tx_hash : string;
}.

(** The store and event sink [sendTxAndParseResponse] writes to. *)
Record IChainServiceStore (W : Type) : Type := mkChainServiceStore {
  saveTransactionResponse : string -> string -> TransactionResponse -> Eff W unit;
  postTransactionSubmitted : string -> string -> TransactionResponse -> Eff W unit;
}.
Arguments saveTransactionResponse {W} _ _ _ _ _.
Arguments postTransactionSubmitted {W} _ _ _ _ _.

(** [msg.includes(part)] *)
Definition includes (msg part : string) : bool :=
  match index 0 part msg with Some _ => true | None => false end.

Section EthereumChainService.
Context {W : Type}.
Variable tbl : ChainErrorTable.
Variable store : IChainServiceStore W.
(** [private readonly defaultRetries = 1] *)
Variable defaultRetries : Z.

(** The receipt callbacks registered on [response.wait] run later, outside
    the call, and are left out. *)
Definition sendTxAndParseResponse (channelAddress : string) (chainId : Z)
    (reason : string) (txFn : Eff W (option TransactionResponse))
  : Eff W (Result (option TransactionResponse) ChainError) :=
  ecatch
    (let* response :=
       (let* response := txFn in
        match response with
        | None => eret response     (* Did not attempt tx *)
        | Some r =>
          (* save to store *)
          saveTransactionResponse store channelAddress reason r;;
          postTransactionSubmitted store channelAddress reason r;;
          eret response
        end) in
     eret (Ok response))
    (fun e =>
       (* Don't save tx if it failed to submit, only if it fails to mine *)
       let* message := elift (reads_message e) in
       match e with
       | NotAnError _ =>
         (* [e.message] is [undefined] *)
         ethrow (TypeError "Cannot read property 'includes' of undefined")
       | _ =>
         let error :=
           if includes message "sender doesn't have enough funds"
           then newChainError tbl (NotEnoughFunds tbl) []
           else caught e in
         eret (Fail error)
       end).

(** [for (let attempt = 1; attempt++; attempt < this.defaultRetries) { ... }]

    The second expression of a [for] is its condition and the third its
    update: the loop goes on while [attempt++] is truthy, that is while the
    value of [attempt] before the increment is not zero, and
    [attempt < this.defaultRetries] is evaluated after each iteration and
    dropped.  [fuel] bounds the iterations unfolded; [None] means the loop
    is still running when the fuel is spent. *)
Fixpoint sendTxLoop (fuel : nat) (attempt : Z) (errors : list ChainError)
    (channelAddress : string) (chainId : Z) (reason : string)
    (txFn : Eff W (option TransactionResponse))
  : Eff W (option (Result (option TransactionResponse) ChainError)) :=
  match fuel with
  | O => eret None
  | S fuel' =>
    let condition := negb (attempt =? 0)%Z in
    let attempt := attempt + 1 in
    if condition then
      let* response := sendTxAndParseResponse channelAddress chainId reason txFn in
      match response with
      | Ok _ => eret (Some response)
      | Fail error =>
        (* Otherwise, handle error *)
        if negb (canRetry error) then eret (Some response)
        else
          (* wait before retrying *)
          let errors := (errors ++ [error])%list in
          let _update := (attempt <? defaultRetries)%Z in
          sendTxLoop fuel' attempt errors channelAddress chainId reason txFn
      end
    else
      eret (Some (Fail (newChainError tbl (FailedToSendTx tbl)
                          (ce_message <$> errors))))
  end.

Definition sendTxWithRetries (fuel : nat) (channelAddress : string) (chainId : Z)
    (reason : string) (txFn : Eff W (option TransactionResponse))
  : Eff W (option (Result (option TransactionResponse) ChainError)) :=
  sendTxLoop fuel 1 [] channelAddress chainId reason txFn.

End EthereumChainService.

End EthService.

(** ** errors.ts: protocol errors *)

(** Modelled from the spec: the [reasons] tables and the constructors of the
    error classes of [./errors], which [sync.ts] imports and whose source is
    not at hand.  The reasons are those [sync.ts] refers to and those the
    protocol description lists for a protocol error.  A reason is kept as a
    constructor: two reasons, or a reason and any other message text, are
    taken to be different strings. *)
Module InboundChannelUpdateError.
Inductive reasons : Type :=
| StoreFailure | StaleUpdate | RestoreNeeded | StaleChannel | SyncFailure
| CannotSyncSetup | SaveChannelFailed
(* named by the protocol description, not referred to by [sync.ts] *)
| CannotSyncSingleSigned | BadSignatures | ValidationFailed.
End InboundChannelUpdateError.

Module OutboundChannelUpdateError.
Inductive reasons : Type :=
| StoreFailure | CounterpartyOffline | CounterpartyFailure | BadSignatures
| SaveChannelFailed | NoUpdateToSync | RestoreNeeded | SyncFailure
| CannotSyncSetup | RegenerateUpdateFailed | ValidationFailed.
End OutboundChannelUpdateError.

Module MessagingError.
Inductive reasons : Type := Timeout | Unknown.
End MessagingError.

(** The [message] of an error. *)
Inductive Message : Type :=
| Inbound (r : InboundChannelUpdateError.reasons)
| Outbound (r : OutboundChannelUpdateError.reasons)
| Messaging (r : MessagingError.reasons)
| Text (s : string).

#[global] Instance InboundReasons_eq_dec : EqDecision InboundChannelUpdateError.reasons.
Proof. solve_decision. Defined.
#[global] Instance OutboundReasons_eq_dec : EqDecision OutboundChannelUpdateError.reasons.
Proof. solve_decision. Defined.
#[global] Instance MessagingReasons_eq_dec : EqDecision MessagingError.reasons.
Proof. solve_decision. Defined.
#[global] Instance Message_eq_dec : EqDecision Message.
Proof. solve_decision. Defined.

Record UpdateParams : Type := mkUpdateParams {
  p_channelAddress : string;
  p_type : UpdateType;
  p_details : string;
}.

(** Entries of an error's [context] besides [update], [state] and [params]. *)
Inductive ContextValue : Type :=
| CtxMessage (m : Message)
| CtxText (s : string)
| CtxUpdate (u : option ChannelUpdate)
| CtxNonce (n : Z).

Record ProtocolError : Type := mkProtocolError {
  message : Message;
  context_update : option ChannelUpdate;
  context_state : option FullChannelState;
  context_params : option UpdateParams;
  context : list (string * ContextValue);
}.

(** Modelled from the spec: [new InboundChannelUpdateError(reason, update,
    state, context)] of [./errors]; the update and the state are kept in the
    context, where [sync.ts] reads them back ([error.context.update],
    [error.context.state]). *)
Definition newInboundChannelUpdateError (reason : Message) (update : option ChannelUpdate)
    (state : option FullChannelState) (ctx : list (string * ContextValue)) : ProtocolError :=
  mkProtocolError reason update state None ctx.

(** Modelled from the spec: [new OutboundChannelUpdateError(reason, params,
    state, context)] of [./errors]. *)
Definition newOutboundChannelUpdateError (reason : OutboundChannelUpdateError.reasons)
    (params : UpdateParams) (state : option FullChannelState)
    (ctx : list (string * ContextValue)) : ProtocolError :=
  mkProtocolError (Outbound reason) None state (Some params) ctx.

(** ** sync.ts *)

Module Sync.

Local Open Scope eff_scope.

(** What [validateParamsAndApplyUpdate] returns on success. *)
Record OutboundApplied : Type := mkOutboundApplied {
  oa_update : ChannelUpdate;
  oa_updatedChannel : FullChannelState;
  oa_updatedTransfer : option FullTransferState;
  oa_updatedActiveTransfers : list FullTransferState;
}.

(** What [validateAndApplyInboundUpdate] returns on success. *)
Record InboundApplied : Type := mkInboundApplied {
  updatedChannel : FullChannelState;
  updatedActiveTransfers : list FullTransferState;
  updatedTransfer : option FullTransferState;
}.

(** What [outbound] returns on success. *)
Record OutboundOk : Type := mkOutboundOk {
  oo_updatedChannel : FullChannelState;
  oo_updatedTransfers : list FullTransferState;
  oo_updatedTransfer : option FullTransferState;
}.

(** [OutboundSync] *)
Record OutboundSync : Type := mkOutboundSync {
  os_update : ChannelUpdate;
  syncedChannel : FullChannelState;
  os_updatedChannel : FullChannelState;
  os_updatedTransfer : option FullTransferState;
  os_updatedActiveTransfers : list FullTransferState;
}.

(** The reply to a protocol message. *)
Record ProtocolReply : Type := mkProtocolReply {
  reply_update : ChannelUpdate;
  reply_previousUpdate : option ChannelUpdate;
}.

Inductive RequiredSigners : Type := SignerAlice | SignerBob | SignerBoth.

(** The collaborators handed to [outbound] and [inbound]: the store, the
    messaging service, the two functions of [./validate] (which receive the
    chain reader, the external validation and the signer, but neither the
    store nor the messaging service) and [validateChannelSignatures]. *)
Record Services (W : Type) : Type := mkServices {
  (* IVectorStore *)
  getChannelState : string -> Eff W (option FullChannelState);
  getActiveTransfers : string -> Eff W (list FullTransferState);
  saveChannelState : FullChannelState -> option FullTransferState -> Eff W unit;
  (* IMessagingService *)
  sendProtocolMessage :
    ChannelUpdate -> option ChannelUpdate -> Eff W (Result ProtocolReply ProtocolError);
  respondWithProtocolError : string -> ProtocolError -> Eff W unit;
  respondToProtocolMessage : string -> ChannelUpdate -> option ChannelUpdate -> Eff W unit;
  (* ./validate *)
  validateParamsAndApplyUpdate :
    UpdateParams -> option FullChannelState -> list FullTransferState -> string ->
    Eff W (Result OutboundApplied ProtocolError);
  validateAndApplyInboundUpdate :
    ChannelUpdate -> option FullChannelState -> list FullTransferState ->
    Eff W (Result InboundApplied ProtocolError);
  (* ./utils *)
  validateChannelSignatures :
    FullChannelState -> option string -> option string -> RequiredSigners ->
    Eff W (Result unit string);
  (* IChannelSigner *)
  signerPublicIdentifier : string;
}.
Arguments getChannelState {W} _ _ _.
Arguments getActiveTransfers {W} _ _ _.
Arguments saveChannelState {W} _ _ _ _.
Arguments sendProtocolMessage {W} _ _ _ _.
Arguments respondWithProtocolError {W} _ _ _ _.
Arguments respondToProtocolMessage {W} _ _ _ _.
Arguments validateParamsAndApplyUpdate {W} _ _ _ _ _ _.
Arguments validateAndApplyInboundUpdate {W} _ _ _ _ _.
Arguments validateChannelSignatures {W} _ _ _ _ _ _.
Arguments signerPublicIdentifier {W} _.

(** Every call the engine makes to a collaborator is recorded, in order, once
    it has returned; a call that threw is recorded as [Threw]. *)
Inductive Event : Type :=
| GetChannelState (channelAddress : string)
| GetActiveTransfers (channelAddress : string)
| SaveChannelState (channel : FullChannelState) (transfer : option FullTransferState)
| SendProtocolMessage (update : ChannelUpdate) (previousUpdate : option ChannelUpdate)
| RespondWithProtocolError (inbox : string) (error : ProtocolError)
| RespondToProtocolMessage (inbox : string) (update : ChannelUpdate)
    (previousUpdate : option ChannelUpdate)
| ValidateParamsAndApplyUpdate (params : UpdateParams)
    (previousState : option FullChannelState) (activeTransfers : list FullTransferState)
| ValidateAndApplyInboundUpdate (update : ChannelUpdate)
    (previousState : option FullChannelState) (activeTransfers : list FullTransferState)
| ValidateChannelSignatures (state : FullChannelState)
| Threw (attempted : Event) (e : Exn).

(** The engine's state: the world of its collaborators and the record of calls. *)
Definition Sys (W : Type) : Type := (W * list Event)%type.

(** Make a call on the world and record it. *)
Definition call {W A} (ev : Event) (m : Eff W A) : Eff (Sys W) A :=
  fun s => match m (fst s) with
           | (Normal a, w') => (Normal a, (w', (snd s ++ [ev])%list))
           | (Throw e, w') => (Throw e, (w', (snd s ++ [Threw ev e])%list))
           end.

Definition getError {T E} (r : Result T E) : option E :=
  match r with Ok _ => None | Fail e => Some e end.

(** [{ ...channel, latestUpdate: update }] *)
Definition withLatestUpdate (s : FullChannelState) (u : ChannelUpdate) : FullChannelState :=
  {| channelAddress := channelAddress s; alice := alice s; bob := bob s;
     aliceIdentifier := aliceIdentifier s; bobIdentifier := bobIdentifier s;
     assetIds := assetIds s; balances := balances s;
     processedDepositsA := processedDepositsA s;
     processedDepositsB := processedDepositsB s;
     defundNonces := defundNonces s; timeout := timeout s; nonce := nonce s;
     merkleRoot := merkleRoot s; latestUpdate := u;
     networkContext := networkContext s; inDispute := inDispute s |}.

Section Engine.
Context {W : Type}.
Variable sv : Services W.

(** [extractContextFromStore] of utils.ts.  The two reads are made in one
    [try]; [storeMethod] names the read in progress, and the one [catch]
    block reads [e.message] of what was thrown. *)
Definition extractContextFromStore (channelAddress : string)
  : Eff (Sys W) (Result (list FullTransferState * option FullChannelState) string) :=
  let* attempt :=
    ecatch
      (* will always need the previous state *)
      (let* channelState := call (GetChannelState channelAddress)
                                 (getChannelState sv channelAddress) in
       ecatch
         (* will only need active transfers for create/resolve *)
         (let* activeTransfers := call (GetActiveTransfers channelAddress)
                                       (getActiveTransfers sv channelAddress) in
          eret (inl (activeTransfers, channelState)))
         (fun e => eret (inr ("getActiveTransfers", e))))
      (fun e => eret (inr ("getChannelState", e))) in
  match attempt with
  | inl context => eret (Ok context)
  | inr (storeMethod, e) =>
    let* message := elift (reads_message e) in
    eret (Fail (storeMethod ++ " failed: " ++ message))
  end.

Definition syncState {E} (toSync : ChannelUpdate) (previousState : option FullChannelState)
    (activeTransfers : list FullTransferState)
    (handleError : Message -> Result InboundApplied E)
  : Eff (Sys W) (Result InboundApplied E) :=
  (* NOTE: We do not want to sync a setup update here *)
  if decide (type toSync = setup) then
    eret (handleError (Inbound InboundChannelUpdateError.CannotSyncSetup))
  (* As you receive an update to sync, it should *always* be double signed. *)
  else if negb (truthy (aliceSignature toSync)) || negb (truthy (bobSignature toSync)) then
    eret (handleError (Text "Cannot sync single signed state"))
  else
    (* Apply the update + validate the signatures *)
    let* validateRes :=
      call (ValidateAndApplyInboundUpdate toSync previousState activeTransfers)
           (validateAndApplyInboundUpdate sv toSync previousState activeTransfers) in
    match validateRes with
    | Fail e => eret (handleError (message e))
    | Ok applied =>
      (* Save synced state *)
      ecatch
        (call (SaveChannelState (updatedChannel applied) (updatedTransfer applied))
              (saveChannelState sv (updatedChannel applied) (updatedTransfer applied));;
         (* Return synced state *)
         eret (Ok applied))
        (fun e =>
           let* message := elift (reads_message e) in
           eret (handleError (Text message)))
    end.

(** The [handleError] that [syncStateAndRecreateUpdate] hands to [syncState]. *)
Definition outboundSyncError (attemptedParams : UpdateParams)
    (previousState : option FullChannelState) (msg : Message)
  : Result InboundApplied ProtocolError :=
  Fail (newOutboundChannelUpdateError
          (if decide (msg <> Inbound InboundChannelUpdateError.CannotSyncSetup)
           then OutboundChannelUpdateError.SyncFailure
           else OutboundChannelUpdateError.CannotSyncSetup)
          attemptedParams previousState [("syncError", CtxMessage msg)]).

(** The [handleError] that [inbound] hands to [syncState]. *)
Definition inboundSyncError (previousUpdate : option ChannelUpdate)
    (previousState : option FullChannelState) (msg : Message)
  : Result InboundApplied ProtocolError :=
  Fail (newInboundChannelUpdateError
          (Inbound
             (if decide (msg <> Inbound InboundChannelUpdateError.CannotSyncSetup)
              then InboundChannelUpdateError.SyncFailure
              else InboundChannelUpdateError.CannotSyncSetup))
          previousUpdate previousState [("syncError", CtxMessage msg)]).

Definition syncStateAndRecreateUpdate (receivedError : ProtocolError)
    (attemptedParams : UpdateParams) (previousState : option FullChannelState)
    (activeTransfers : list FullTransferState)
  : Eff (Sys W) (Result OutboundSync ProtocolError) :=
  match context_update receivedError with
  | None =>
    eret (Fail (newOutboundChannelUpdateError OutboundChannelUpdateError.NoUpdateToSync
                  attemptedParams previousState
                  [("receivedError", CtxMessage (message receivedError))]))
  | Some counterpartyUpdate =>
    (* make sure you *can* sync *)
    let diff := u_nonce counterpartyUpdate - from_option nonce 0 previousState in
    if negb (diff =? 1)%Z then
      (* the context reads [previousState.nonce] *)
      match previousState with
      | None => ethrow (TypeError "Cannot read property 'nonce' of undefined")
      | Some ps =>
        eret (Fail (newOutboundChannelUpdateError OutboundChannelUpdateError.RestoreNeeded
                      attemptedParams previousState
                      [("counterpartyUpdate", CtxUpdate (Some counterpartyUpdate));
                       ("latestNonce", CtxNonce (nonce ps))]))
      end
    else
      let* syncRes :=
        syncState counterpartyUpdate previousState activeTransfers
          (outboundSyncError attemptedParams previousState) in
      match syncRes with
      | Fail e => eret (Fail e)
      | Ok synced =>
        let syncedChannel := updatedChannel synced in
        let syncedActiveTransfers := updatedActiveTransfers synced in
        (* Regenerate the proposed update; must go through validation again *)
        let* validationRes :=
          call (ValidateParamsAndApplyUpdate attemptedParams (Some syncedChannel)
                  syncedActiveTransfers)
               (validateParamsAndApplyUpdate sv attemptedParams (Some syncedChannel)
                  syncedActiveTransfers (signerPublicIdentifier sv)) in
        match validationRes with
        | Fail e =>
          eret (Fail (newOutboundChannelUpdateError
                        OutboundChannelUpdateError.RegenerateUpdateFailed
                        attemptedParams (Some syncedChannel)
                        (("regenerateUpdateError", CtxMessage (message e)) :: context e)))
        | Ok v =>
          (* Return the updated channel state and the regenerated update *)
          eret (Ok (mkOutboundSync (oa_update v) syncedChannel (oa_updatedChannel v)
                      (oa_updatedTransfer v) (oa_updatedActiveTransfers v)))
        end
      end
  end.

(** The end of [outbound], from "Error object should now be either ..." on:
    the reply is checked, the signatures verified and the state saved. *)
Definition outbound_complete (params : UpdateParams)
    (counterpartyResult : Result ProtocolReply ProtocolError)
    (previousState : option FullChannelState) (updatedChannel : FullChannelState)
    (updatedTransfer : option FullTransferState)
    (updatedActiveTransfers : list FullTransferState)
  : Eff (Sys W) (Result OutboundOk ProtocolError) :=
  match counterpartyResult with
  | Fail error =>
    (* Error is for some other reason, do not retry update. *)
    eret (Fail (newOutboundChannelUpdateError
                  (if decide (message error = Messaging MessagingError.Timeout)
                   then OutboundChannelUpdateError.CounterpartyOffline
                   else OutboundChannelUpdateError.CounterpartyFailure)
                  params previousState
                  [("counterpartyError", CtxMessage (message error))]))
  | Ok reply =>
    let counterpartyUpdate := reply_update reply in
    (* verify sigs on update *)
    let* sigRes :=
      call (ValidateChannelSignatures updatedChannel)
           (validateChannelSignatures sv updatedChannel
              (aliceSignature counterpartyUpdate) (bobSignature counterpartyUpdate)
              SignerBoth) in
    match sigRes with
    | Fail e =>
      eret (Fail (newOutboundChannelUpdateError OutboundChannelUpdateError.BadSignatures
                    params previousState [("recoveryError", CtxText e)]))
    | Ok _ =>
      let saved := withLatestUpdate updatedChannel counterpartyUpdate in
      ecatch
        (call (SaveChannelState saved updatedTransfer)
              (saveChannelState sv saved updatedTransfer);;
         eret (Ok (mkOutboundOk saved updatedActiveTransfers updatedTransfer)))
        (fun e =>
           let* message := elift (reads_message e) in
           eret (Fail (newOutboundChannelUpdateError
                         OutboundChannelUpdateError.SaveChannelFailed params (Some saved)
                         [("saveChannelError", CtxText message)])))
    end
  end.

Definition outbound (params : UpdateParams)
  : Eff (Sys W) (Result OutboundOk ProtocolError) :=
  (* First, pull all information out from the store *)
  let* storeRes := extractContextFromStore (p_channelAddress params) in
  match storeRes with
  | Fail e =>
    eret (Fail (newOutboundChannelUpdateError OutboundChannelUpdateError.StoreFailure
                  params None [("storeError", CtxText e)]))
  | Ok (activeTransfers, previousState) =>
    (* Ensure parameters are valid, and action can be taken *)
    let* updateRes :=
      call (ValidateParamsAndApplyUpdate params previousState activeTransfers)
           (validateParamsAndApplyUpdate sv params previousState activeTransfers
              (signerPublicIdentifier sv)) in
    match updateRes with
    | Fail e => eret (Fail e)
    | Ok applied =>
      (* Send and wait for response *)
      let previousUpdate := latestUpdate <$> previousState in
      let* counterpartyResult :=
        call (SendProtocolMessage (oa_update applied) previousUpdate)
             (sendProtocolMessage sv (oa_update applied) previousUpdate) in
      (* IFF the result failed because the update is stale, our channel is
         behind so we should try to sync the channel and resend the update *)
      match getError counterpartyResult with
      | Some error =>
        if decide (message error = Inbound InboundChannelUpdateError.StaleUpdate) then
          (* Get the synced state and new update *)
          let* syncedResult :=
            syncStateAndRecreateUpdate error params previousState activeTransfers in
          match syncedResult with
          | Fail e => eret (Fail e)   (* Failed to sync channel *)
          | Ok sync =>
            (* Retry sending update to counterparty *)
            let previousUpdate := Some (latestUpdate (os_updatedChannel sync)) in
            let* counterpartyResult :=
              call (SendProtocolMessage (os_update sync) previousUpdate)
                   (sendProtocolMessage sv (os_update sync) previousUpdate) in
            (* Update error values + stored channel value *)
            outbound_complete params counterpartyResult (Some (syncedChannel sync))
              (os_updatedChannel sync) (os_updatedTransfer sync)
              (os_updatedActiveTransfers sync)
          end
        else
          outbound_complete params counterpartyResult previousState
            (oa_updatedChannel applied) (oa_updatedTransfer applied)
            (oa_updatedActiveTransfers applied)
      | None =>
        outbound_complete params counterpartyResult previousState
          (oa_updatedChannel applied) (oa_updatedTransfer applied)
          (oa_updatedActiveTransfers applied)
      end
    end
  end.

(** The helper [returnError] of [inbound]: the error is sent to the
    counterparty, then returned.  [prevUpdate] defaults to [update]. *)
Definition returnError {T} (update : ChannelUpdate) (inbox : string) (reason : Message)
    (prevUpdate : option ChannelUpdate) (state : option FullChannelState)
    (ctx : list (string * ContextValue))
  : Eff (Sys W) (Result T ProtocolError) :=
  let prevUpdate := from_option id update prevUpdate in
  let error := newInboundChannelUpdateError reason (Some prevUpdate) state ctx in
  call (RespondWithProtocolError inbox error) (respondWithProtocolError sv inbox error);;
  eret (Fail error).

(** The end of [inbound], from "We now have the latest state for the
    update" on: the update is validated and applied on [previousState],
    saved and acknowledged. *)
Definition inbound_apply (update : ChannelUpdate) (inbox : string)
    (previousState : option FullChannelState) (activeTransfers : list FullTransferState)
  : Eff (Sys W) (Result InboundApplied ProtocolError) :=
  let* validateRes :=
    call (ValidateAndApplyInboundUpdate update previousState activeTransfers)
         (validateAndApplyInboundUpdate sv update previousState activeTransfers) in
  match validateRes with
  | Fail e => returnError update inbox (message e) (Some update) previousState (context e)
  | Ok applied =>
    (* Save the newly signed update to your channel *)
    let* saveError :=
      ecatch (call (SaveChannelState (updatedChannel applied) (updatedTransfer applied))
                   (saveChannelState sv (updatedChannel applied) (updatedTransfer applied));;
              eret None)
             (fun e => eret (Some e)) in
    match saveError with
    | Some e =>
      let* message := elift (reads_message e) in
      returnError update inbox (Inbound InboundChannelUpdateError.SaveChannelFailed)
        (Some update) previousState [("saveChannelError", CtxText message)]
    | None =>
      (* Send response to counterparty *)
      let reply := latestUpdate (updatedChannel applied) in
      let previousUpdate := latestUpdate <$> previousState in
      call (RespondToProtocolMessage inbox reply previousUpdate)
           (respondToProtocolMessage sv inbox reply previousUpdate);;
      (* Return the double signed state *)
      eret (Ok applied)
    end
  end.

Definition inbound (update : ChannelUpdate) (previousUpdate : option ChannelUpdate)
    (inbox : string)
  : Eff (Sys W) (Result InboundApplied ProtocolError) :=
  let* storeRes := extractContextFromStore (u_channelAddress update) in
  match storeRes with
  | Fail e =>
    returnError update inbox (Inbound InboundChannelUpdateError.StoreFailure) None None
      [("storeError", CtxText e)]
  | Ok (activeTransfers, channelFromStore) =>
    (* Get the difference between the stored and received nonces *)
    let prevNonce := from_option nonce 0 channelFromStore in
    let diff := u_nonce update - prevNonce in
    (* If we are ahead, or even, do not process update *)
    if (diff <=? 0)%Z then
      (* the argument reads [channelFromStore!.latestUpdate] *)
      match channelFromStore with
      | None => ethrow (TypeError "Cannot read property 'latestUpdate' of undefined")
      | Some stored =>
        returnError update inbox (Inbound InboundChannelUpdateError.StaleUpdate)
          (Some (latestUpdate stored)) channelFromStore []
      end
    (* If we are behind by more than 3, we cannot sync from their latest
       update, and must use restore *)
    else if (3 <=? diff)%Z then
      returnError update inbox (Inbound InboundChannelUpdateError.RestoreNeeded)
        (Some update) channelFromStore
        [("counterpartyLatestUpdate", CtxUpdate previousUpdate);
         ("ourLatestNonce", CtxNonce prevNonce)]
    else
      let previousState := channelFromStore in
      if (diff =? 2)%Z then
        (* Create the proper state to play the update on top of using the
           latest update *)
        match previousUpdate with
        | None =>
          returnError update inbox (Inbound InboundChannelUpdateError.StaleChannel)
            previousUpdate previousState []
        | Some toSync =>
          let* syncRes :=
            syncState toSync previousState activeTransfers
              (inboundSyncError previousUpdate previousState) in
          match syncRes with
          | Fail error =>
            returnError update inbox (message error) (context_update error)
              (context_state error) (context error)
          | Ok synced =>
            (* Set the previous state to the synced state *)
            inbound_apply update inbox (Some (updatedChannel synced))
              (updatedActiveTransfers synced)
          end
        end
      else
        inbound_apply update inbox previousState activeTransfers
  end.

End Engine.

End Sync.

(** ** validate.ts, as far as the protocol description fixes it *)

Module Validate.

Import Sync.
Local Open Scope eff_scope.

(** [{ ...state, nonce }] *)
Definition withNonce (s : FullChannelState) (n : Z) : FullChannelState :=
  {| channelAddress := channelAddress s; alice := alice s; bob := bob s;
     aliceIdentifier := aliceIdentifier s; bobIdentifier := bobIdentifier s;
     assetIds := assetIds s; balances := balances s;
     processedDepositsA := processedDepositsA s;
     processedDepositsB := processedDepositsB s;
     defundNonces := defundNonces s; timeout := timeout s; nonce := n;
     merkleRoot := merkleRoot s; latestUpdate := latestUpdate s;
     networkContext := networkContext s; inDispute := inDispute s |}.

(** [{ ...update, nonce }] *)
Definition updateWithNonce (u : ChannelUpdate) (n : Z) : ChannelUpdate :=
  {| u_channelAddress := u_channelAddress u; fromIdentifier := fromIdentifier u;
     toIdentifier := toIdentifier u; type := type u; u_nonce := n;
     u_balance := u_balance u; u_assetId := u_assetId u; details := details u;
     aliceSignature := aliceSignature u; bobSignature := bobSignature u |}.

(** The checks of a validator and the state they derive read the chain, the
    transfer registry and the signatures; they are left open here. *)
Record Rules (W : Type) : Type := mkRules {
  inboundRules :
    ChannelUpdate -> option FullChannelState -> list FullTransferState ->
    Eff W (Result InboundApplied ProtocolError);
  outboundRules :
    UpdateParams -> option FullChannelState -> list FullTransferState -> string ->
    Eff W (Result OutboundApplied ProtocolError);
}.
Arguments inboundRules {W} _ _ _ _ _.
Arguments outboundRules {W} _ _ _ _ _ _.

(** Modelled from the spec: [validateAndApplyInboundUpdate] of [./validate],
    which [sync.ts] imports and whose source is not at hand.  The protocol
    description gives it the previous state, the active transfers and the
    update received, and has it return the validated next state or an error;
    every per-type rule ends with "Nonce increments", and "for any
    successfully applied update, nextState.nonce == prevState.nonce + 1",
    a channel that does not exist yet counting as nonce 0 (setup yields
    nonce 1).  The outcome of the checks and every other field of the next
    state come from [rules]. *)
Definition validateAndApplyInboundUpdate {W} (rules : Rules W) (update : ChannelUpdate)
    (previousState : option FullChannelState) (activeTransfers : list FullTransferState)
  : Eff W (Result InboundApplied ProtocolError) :=
  let* checked := inboundRules rules update previousState activeTransfers in
  match checked with
  | Fail e => eret (Fail e)
  | Ok applied =>
    let next := withNonce (updatedChannel applied) (from_option nonce 0 previousState + 1) in
    eret (Ok (mkInboundApplied next (updatedActiveTransfers applied) (updatedTransfer applied)))
  end.

(** Modelled from the spec: [validateParamsAndApplyUpdate] of [./validate],
    which [sync.ts] imports and whose source is not at hand.  The protocol
    description has it produce the update, the next state, the updated
    transfer and the next active transfers, or an error; the update carries
    "the nonce the state would have after applying it", which is
    "previousState.nonce + 1".  The outcome of the checks and every other
    field come from [rules]. *)
Definition validateParamsAndApplyUpdate {W} (rules : Rules W) (params : UpdateParams)
    (previousState : option FullChannelState) (activeTransfers : list FullTransferState)
    (initiatorIdentifier : string)
  : Eff W (Result OutboundApplied ProtocolError) :=
  let* checked := outboundRules rules params previousState activeTransfers initiatorIdentifier in
  match checked with
  | Fail e => eret (Fail e)
  | Ok applied =>
    let n := from_option nonce 0 previousState + 1 in
    eret (Ok (mkOutboundApplied (updateWithNonce (oa_update applied) n)
                (withNonce (oa_updatedChannel applied) n)
                (oa_updatedTransfer applied) (oa_updatedActiveTransfers applied)))
  end.

(** The services of [sv] with the two validators above. *)
Definition withValidate {W} (sv : Services W) (rules : Rules W) : Services W :=
  {| getChannelState := getChannelState sv;
     getActiveTransfers := getActiveTransfers sv;
     saveChannelState := saveChannelState sv;
     sendProtocolMessage := sendProtocolMessage sv;
     respondWithProtocolError := respondWithProtocolError sv;
     respondToProtocolMessage := respondToProtocolMessage sv;
     Sync.validateParamsAndApplyUpdate := validateParamsAndApplyUpdate rules;
     Sync.validateAndApplyInboundUpdate := validateAndApplyInboundUpdate rules;
     validateChannelSignatures := validateChannelSignatures sv;
     signerPublicIdentifier := signerPublicIdentifier sv |}.

End Validate.

(** ** Reading the record of calls *)

Module Log.

Import Sync.

Definition isSave (ev : Event) : bool :=
  match ev with SaveChannelState _ _ => true | _ => false end.

Definition isSend (ev : Event) : bool :=
  match ev with SendProtocolMessage _ _ => true | _ => false end.

Definition isRespond (ev : Event) : bool :=
  match ev with
  | RespondWithProtocolError _ _ | RespondToProtocolMessage _ _ _ => true
  | _ => false
  end.

Definition isInboundValidation (ev : Event) : bool :=
  match ev with ValidateAndApplyInboundUpdate _ _ _ => true | _ => false end.

(** How many calls of a kind were made. *)
Definition count (kind : Event -> bool) (log : list Event) : nat :=
  length (List.filter kind log).

(** Every [saveChannelState] of the log comes right after an inbound
    validation: it is a save made by [syncState]. *)
Fixpoint savesFollowSync (previous : option Event) (log : list Event) : bool :=
  match log with
  | [] => true
  | ev :: rest =>
    (if isSave ev
     then match previous with Some p => isInboundValidation p | None => false end
     else true)
    && savesFollowSync (Some ev) rest
  end.

End Log.

(** ** In-memory collaborators, to run the engine on concrete inputs *)

Module Memory.

Import Sync.

(** A store holding one channel, and a counterparty whose replies are
    scripted. *)
Record World : Type := mkWorld {
  storedChannel : option FullChannelState;
  storedTransfers : list FullTransferState;
  replies : list (Result ProtocolReply ProtocolError);
}.

Definition emptyBalance : Balance := mkBalance [] [].

Definition context1337 : NetworkContext := mkNetworkContext 1337 "0xfactory" "0xregistry".

(** An update of the channel ["0xchannel"] from Alice to Bob. *)
Definition mkUpdate (t : UpdateType) (n : Z) (sigA sigB : option string) : ChannelUpdate :=
  mkChannelUpdate "0xchannel" "alice-id" "bob-id" t n emptyBalance EthReader.AddressZero ""
    sigA sigB.

(** The channel ["0xchannel"] at nonce [n], with [u] as latest update. *)
Definition mkChannel (n : Z) (u : ChannelUpdate) : FullChannelState :=
  mkFullChannelState "0xchannel" "0xalice" "0xbob" "alice-id" "bob-id" [] [] [] [] []
    "86400" n "0x00" u context1337 false.

(** Rules that accept everything: the next state is the previous one (or a
    fresh channel) with the update as its latest update. *)
Definition acceptAll : Validate.Rules World :=
  {| Validate.inboundRules := fun update previousState activeTransfers =>
       eret (Ok (mkInboundApplied
                   (withLatestUpdate (from_option id (mkChannel 0 update) previousState) update)
                   activeTransfers None));
     Validate.outboundRules := fun params previousState activeTransfers initiator =>
       let update := mkUpdate (p_type params) 0 (Some "sig-alice") None in
       eret (Ok (mkOutboundApplied update
                   (withLatestUpdate (from_option id (mkChannel 0 update) previousState) update)
                   None activeTransfers)) |}.

Definition timeoutError : ProtocolError :=
  mkProtocolError (Messaging MessagingError.Timeout) None None None [].

(** The store, the counterparty and the signature check; the validators of
    this record are never used, [memoryServices] replaces them. *)
Definition memoryBase : Services World :=
  {| getChannelState := fun _ w => (Normal (storedChannel w), w);
     getActiveTransfers := fun _ w => (Normal (storedTransfers w), w);
     saveChannelState := fun channel transfer w =>
       (Normal tt, mkWorld (Some channel) (storedTransfers w) (replies w));
     sendProtocolMessage := fun update previousUpdate w =>
       match replies w with
       | r :: rest => (Normal r, mkWorld (storedChannel w) (storedTransfers w) rest)
       | [] => (Normal (Fail timeoutError), w)
       end;
     respondWithProtocolError := fun _ _ w => (Normal tt, w);
     respondToProtocolMessage := fun _ _ _ w => (Normal tt, w);
     validateParamsAndApplyUpdate := fun _ _ _ _ w =>
       (Throw (ErrorObj "replaced" false), w);
     validateAndApplyInboundUpdate := fun _ _ _ w =>
       (Throw (ErrorObj "replaced" false), w);
     validateChannelSignatures := fun _ sigA sigB _ w =>
       (Normal (if truthy sigA && truthy sigB then Ok tt
                else Fail "Could not recover signers"), w);
     signerPublicIdentifier := "alice-id" |}.

Definition memoryServices : Services World := Validate.withValidate memoryBase acceptAll.

(** The channel at nonce 5, and updates of the counterparty at nonces 6 and 7. *)
Definition update5 : ChannelUpdate := mkUpdate deposit 5 (Some "sig-alice") (Some "sig-bob").
Definition channel5 : FullChannelState := mkChannel 5 update5.
Definition update6 : ChannelUpdate := mkUpdate deposit 6 (Some "sig-alice") (Some "sig-bob").
Definition update6SingleSigned : ChannelUpdate := mkUpdate deposit 6 (Some "sig-alice") None.
Definition update7 : ChannelUpdate := mkUpdate deposit 7 (Some "sig-alice") None.
Definition update0 : ChannelUpdate := mkUpdate deposit 0 (Some "sig-alice") None.

Definition depositParams : UpdateParams := mkUpdateParams "0xchannel" deposit "".

(** The counterparty's StaleUpdate error carrying its latest update. *)
Definition staleUpdate (latest : ChannelUpdate) : ProtocolError :=
  mkProtocolError (Inbound InboundChannelUpdateError.StaleUpdate) (Some latest) None None [].

(** The store holds [channel5]; the counterparty answers with [answers]. *)
Definition atNonce5 (answers : list (Result ProtocolReply ProtocolError)) : World :=
  mkWorld (Some channel5) [] answers.

(** Nothing stored. *)
Definition emptyStore : World := mkWorld None [] [].

(** The syncer of [inbound] is given an update that Bob has not signed. *)
Definition syncSingleSigned : Completion (Result InboundApplied ProtocolError) * Sys World :=
  syncState memoryServices update6SingleSigned (Some channel5) []
    (inboundSyncError (Some update6SingleSigned) (Some channel5)) (atNonce5 [], []).

(** The peer sends nonce 0 and nothing is stored. *)
Definition inboundNonceZero : Completion (Result InboundApplied ProtocolError) * Sys World :=
  inbound memoryServices update0 None "inbox" (emptyStore, []).

(** The peer sends nonce 7 with its previous update at nonce 6. *)
Definition inboundBehindByOne : Completion (Result InboundApplied ProtocolError) * Sys World :=
  inbound memoryServices update7 (Some update6) "inbox" (atNonce5 [], []).

(** The peer sends nonce 7 with a previous update that Bob has not signed. *)
Definition inboundSingleSignedSync
  : Completion (Result InboundApplied ProtocolError) * Sys World :=
  inbound memoryServices update7 (Some update6SingleSigned) "inbox" (atNonce5 [], []).

(** The counterparty is one update ahead, then does not answer the retry. *)
Definition outboundSyncThenTimeout : Completion (Result OutboundOk ProtocolError) * Sys World :=
  outbound memoryServices depositParams
    (atNonce5 [Fail (staleUpdate update6); Fail timeoutError], []).

(** The counterparty is one update ahead, then countersigns the retry. *)
Definition outboundSyncThenAck : Completion (Result OutboundOk ProtocolError) * Sys World :=
  outbound memoryServices depositParams
    (atNonce5 [Fail (staleUpdate update6);
               Ok (mkProtocolReply (mkUpdate deposit 7 (Some "sig-alice") (Some "sig-bob"))
                     (Some update6))], []).

(** The counterparty is two updates ahead. *)
Definition outboundTooFarBehind : Completion (Result OutboundOk ProtocolError) * Sys World :=
  outbound memoryServices depositParams (atNonce5 [Fail (staleUpdate update7)], []).

End Memory.


(** ** Example data *)

Module Examples.

(** One token, written in lower case and in upper case; the zero address
    stands for the native asset. *)
Definition tokenLower : string := "0xabcdefabcdefabcdefabcdefabcdefabcdefabcd".
Definition tokenUpper : string := "0xABCDEFABCDEFABCDEFABCDEFABCDEFABCDEFABCD".

(** A stand-in for [getAddress] that maps every casing of an address to one
    spelling; it is used to run examples only and is not the EIP-55
    checksum. *)
Definition sameSpelling (a : string) : Completion string := Normal (toLowerCase a).

Definition balanceOf (a b : string) : Balance := mkBalance ["0xalice"; "0xbob"] [a; b].

(** A channel whose asset ids are [ids], with the given parallel arrays. *)
Definition channelWith (ids : list string) (bals : list Balance)
    (depositsA depositsB nonces : list string) : FullChannelState :=
  mkFullChannelState "0xchannel" "0xalice" "0xbob" "alice-id" "bob-id"
    ids bals depositsA depositsB nonces "86400" 4
    "0x00" (Memory.mkUpdate deposit 4 (Some "sig-alice") (Some "sig-bob"))
    Memory.context1337 false.

(** The token twice, then the native asset. *)
Definition duplicatedThenOther : FullChannelState :=
  channelWith [tokenLower; tokenUpper; EthReader.AddressZero]
    [balanceOf "1" "2"; balanceOf "3" "4"; balanceOf "10" "20"]
    ["5"; "6"; "1"] ["7"; "8"; "1"] ["5"; "7"; "1"].

(** The token twice, with defund nonces 9 and 10. *)
Definition duplicatedNineTen : FullChannelState :=
  channelWith [tokenLower; tokenUpper]
    [balanceOf "1" "2"; balanceOf "3" "4"]
    ["5"; "6"] ["7"; "8"] ["9"; "10"].

(** A signer whose state counts the signatures it has made. *)
Definition countingSigner (addr : string) : IChannelSigner nat :=
  mkSigner nat addr "signer-id" (fun hash n => (Normal ("signed:" ++ hash), S n)).

(** Modelled from the spec: [hashChannelCommitment] of vector-utils, which is
    not part of the sources read here and which the spec gives as
    keccak(abi.encode(core state)).  This stand-in keeps what its caller can
    observe: the encoding of an address refuses what is not 20 bytes in hex,
    so a channel, alice or bob address that is not 42 characters long makes
    it throw; otherwise it gives, in place of the digest, the channel address
    and the nonce. *)
Definition addressAsHash (core : CoreChannelState) : Completion string :=
  if forallb (fun a => (String.length a =? 42)%nat)
             [c_channelAddress core; c_alice core; c_bob core]
  then Normal (c_channelAddress core ++ "#" ++ BigNumber.toString (c_nonce core))
  else Throw (ErrorObj "invalid address" false).

Definition exampleTable : ChainErrorTable :=
  mkChainErrorTable (fun _ => false) "Provider not found for chainId"
    "Not enough funds in wallet" "Failed to send transaction".

(** A chain on which the channel contract is not deployed and the channel
    address holds [held] of every asset; the state counts the RPC calls. *)
Definition undeployed (held : Z) : EthReader.JsonRpcProvider nat :=
  EthReader.mkProvider nat
    (fun _ n => (Normal "0x", S n))
    (fun _ n => (Normal held, S n))
    (fun _ _ n => (Normal held, S n))
    (fun _ _ n => (Throw (ErrorObj "call revert exception" false), S n))
    (fun _ _ n => (Throw (ErrorObj "call revert exception" false), S n)).

Definition providers1337 (held : Z) : gmap Z (EthReader.JsonRpcProvider nat) :=
  {[ 1337 := undeployed held ]}.

(** A chain reader over [undeployed], with five attempts per read. *)
Definition undeployedReader (held : Z) : IVectorChainReader nat :=
  EthReader.chainReader exampleTable 5 (providers1337 held).

(** A submission that always fails with an error marked [canRetry]; the
    state counts the submissions. *)
Definition alwaysRetryable : Eff nat (option EthService.TransactionResponse) :=
  fun n => (Throw (ErrorObj "replacement fee too low" true), S n).

Definition silentStore : EthService.IChainServiceStore nat :=
  EthService.mkChainServiceStore nat (fun _ _ _ => eret tt) (fun _ _ _ => eret tt).

End Examples.


(** ** More runs of the engine on the in-memory collaborators *)

Module Scenarios.

Import Sync Memory.

(** An update of the counterparty at nonce 8, and its predecessor. *)
Definition update8 : ChannelUpdate := mkUpdate deposit 8 (Some "sig-alice") None.
Definition update7DoubleSigned : ChannelUpdate :=
  mkUpdate deposit 7 (Some "sig-alice") (Some "sig-bob").

(** The syncer of [inbound] is given the double-signed update at nonce 6. *)
Definition syncDoubleSigned : Completion (Result InboundApplied ProtocolError) * Sys World :=
  syncState memoryServices update6 (Some channel5) []
    (inboundSyncError (Some update6) (Some channel5)) (atNonce5 [], []).

(** The counterparty does not answer at all. *)
Definition outboundNoAnswer : Completion (Result OutboundOk ProtocolError) * Sys World :=
  outbound memoryServices depositParams (atNonce5 [], []).

(** The counterparty acknowledges without Bob's signature. *)
Definition outboundHalfSigned : Completion (Result OutboundOk ProtocolError) * Sys World :=
  outbound memoryServices depositParams
    (atNonce5 [Ok (mkProtocolReply update6SingleSigned (Some update5))], []).

End Scenarios.

(** ** utils.ts: getUpdatedChannelBalance *)

Module ChannelBalance.

Local Open Scope completion_scope.

Section WithGetAddress.
(** [getAddress] of ethers. *)
Variable getAddress : string -> Completion string.

(** [ids.findIndex((a) => getAddress(a) === getAddress(assetId))], the index
    counted from [i]; [None] stands for -1. *)
Fixpoint findIndexFrom (i : nat) (ids : list string) (assetId : string)
  : Completion (option nat) :=
  match ids with
  | [] => Normal None
  | a :: rest =>
    ca <- getAddress a;;
    cs <- getAddress assetId;;
    if String.eqb ca cs then Normal (Some i) else findIndexFrom (S i) rest assetId
  end.

(** The helper [updateExistingAmount]: a create takes the transfer amount
    out of the channel balance, any other type puts it in. *)
Definition updateExistingAmount (type : UpdateType)
    (existingBalance transferBalance : option string) : Completion string :=
  e <- BigNumber.from existingBalance;;
  t <- BigNumber.from transferBalance;;
  Normal (BigNumber.toString (if decide (type = create) then e - t else e + t)).

Definition getUpdatedChannelBalance (type : UpdateType) (assetId : string)
    (balanceToReconcile : Balance) (state : FullChannelState) (initiator : string)
  : Completion Balance :=
  (* Get the existing balances to update *)
  assetIdx <- findIndexFrom 0 (assetIds state) assetId;;
  match assetIdx with
  | None => Throw (ErrorObj ("Asset id not found in channel " ++ assetId) false)
  | Some idx =>
    let existing :=
      default {| to := [alice state; bob state]; amount := ["0"; "0"] |}
              (balances state !! idx) in
    (* Get the transfer amounts that correspond to channel participants *)
    let aliceTransferAmount :=
      if String.eqb initiator (alice state)
      then amount balanceToReconcile !! 0%nat else amount balanceToReconcile !! 1%nat in
    let bobTransferAmount :=
      if String.eqb initiator (bob state)
      then amount balanceToReconcile !! 0%nat else amount balanceToReconcile !! 1%nat in
    (* Return the updated channel balance object *)
    a0 <- updateExistingAmount type (amount existing !! 0%nat) aliceTransferAmount;;
    a1 <- updateExistingAmount type (amount existing !! 1%nat) bobTransferAmount;;
    Normal {| to := to existing; amount := [a0; a1] |}
  end.

End WithGetAddress.

(** [{ ...state, balances }] *)
Definition withBalances (s : FullChannelState) (b : list Balance) : FullChannelState :=
  {| channelAddress := channelAddress s; alice := alice s; bob := bob s;
     aliceIdentifier := aliceIdentifier s; bobIdentifier := bobIdentifier s;
     assetIds := assetIds s; balances := b;
     processedDepositsA := processedDepositsA s;
     processedDepositsB := processedDepositsB s;
     defundNonces := defundNonces s; timeout := timeout s; nonce := nonce s;
     merkleRoot := merkleRoot s; latestUpdate := latestUpdate s;
     networkContext := networkContext s; inDispute := inDispute s |}.

End ChannelBalance.

(** ** ethReader.ts: reads of the channel contract *)

Module ChannelReads.

Import EthReader.
Local Open Scope eff_scope.

Definition HashZero : string :=
  "0x0000000000000000000000000000000000000000000000000000000000000000".

(** The dispute record as the channel contract returns it. *)
Record OnchainDispute : Type := mkOnchainDispute {
  d_channelStateHash : string;
  d_nonce : Z;
  d_merkleRoot : string;
  d_consensusExpiry : Z;
  d_defundExpiry : Z;
  (* the code reads [dispute.defundNonce]; a contract whose dispute record
     has no such field returns none *)
  d_defundNonce : option Z;
}.

(** [ChannelDispute]: the same record with its numbers written out. *)
Record ChannelDispute : Type := mkChannelDispute {
  channelStateHash : string;
  cd_nonce : string;
  cd_merkleRoot : string;
  consensusExpiry : string;
  defundExpiry : string;
  defundNonce : string;
}.

Record WithdrawCommitmentJson : Type := mkWithdrawCommitmentJson {
  wc_assetId : string;
  wc_recipient : string;
  wc_amount : string;
  wc_nonce : string;
  wc_callTo : string;
  wc_callData : string;
}.

(** The argument of the contract's [getWithdrawalTransactionRecord]. *)
Record WithdrawData : Type := mkWithdrawData {
  wd_channelAddress : string;
  wd_commitment : WithdrawCommitmentJson;
}.

(** [new Contract(channelAddress, VectorChannel.abi, provider)], as far as it
    is called here. *)
Record VectorChannelContract (W : Type) : Type := mkVectorChannelContract {
  contract_getChannelDispute : Eff W OnchainDispute;
  contract_getWithdrawalTransactionRecord : WithdrawData -> Eff W bool;
}.
Arguments contract_getChannelDispute {W} _ _.
Arguments contract_getWithdrawalTransactionRecord {W} _ _ _.

Section Reads.
Context {W : Type}.
Variable tbl : ChainErrorTable.
Variable ETH_READER_MAX_RETRIES : Z.
Variable chainProviders : gmap Z (JsonRpcProvider W).
Variable vectorChannel : string -> JsonRpcProvider W -> VectorChannelContract W.

Definition getChannelDispute (channelAddress : string) (chainId : Z)
  : Eff W (Result (option ChannelDispute) ChainError) :=
  retryWrapper tbl ETH_READER_MAX_RETRIES chainProviders chainId (fun provider =>
    ecatch
      (let* code := getCode tbl ETH_READER_MAX_RETRIES chainProviders channelAddress chainId in
       match code with
       | Fail e => eret (Fail e)
       | Ok code =>
         if String.eqb code "0x" then
           (* channel is not deployed *)
           eret (Ok None)
         else
           let* dispute := contract_getChannelDispute (vectorChannel channelAddress provider) in
           if String.eqb (d_channelStateHash dispute) HashZero then eret (Ok None)
           else
             match d_defundNonce dispute with
             | None => ethrow (TypeError "Cannot read property 'toString' of undefined")
             | Some nonce =>
               eret (Ok (Some {| channelStateHash := d_channelStateHash dispute;
                                 cd_nonce := BigNumber.toString (d_nonce dispute);
                                 cd_merkleRoot := d_merkleRoot dispute;
                                 consensusExpiry :=
                                   BigNumber.toString (d_consensusExpiry dispute);
                                 defundExpiry := BigNumber.toString (d_defundExpiry dispute);
                                 defundNonce := BigNumber.toString nonce |}))
             end
       end)
      (fun e => eret (Fail (caught e)))).

Definition getWithdrawalTransactionRecord (withdrawData : WithdrawCommitmentJson)
    (channelAddress : string) (chainId : Z) : Eff W (Result bool ChainError) :=
  retryWrapper tbl ETH_READER_MAX_RETRIES chainProviders chainId (fun provider =>
    (* check if it was deployed *)
    let* code := getCode tbl ETH_READER_MAX_RETRIES chainProviders channelAddress chainId in
    match code with
    | Fail e => eret (Fail e)
    | Ok code =>
      if String.eqb code "0x" then
        (* channel must always be deployed for a withdrawal to be submitted *)
        eret (Ok false)
      else
        ecatch
          (let* record :=
             contract_getWithdrawalTransactionRecord (vectorChannel channelAddress provider)
               (mkWithdrawData channelAddress withdrawData) in
           eret (Ok record))
          (fun e => eret (Fail (caught e)))
    end).

End Reads.

End ChannelReads.

(** ** More example data *)

Module Examples2.

(** A channel contract that counts its calls and knows of no dispute. *)
Definition quietChannel : ChannelReads.VectorChannelContract nat :=
  ChannelReads.mkVectorChannelContract nat
    (fun n => (Normal (ChannelReads.mkOnchainDispute ChannelReads.HashZero 0 "0x" 0 0
                         (Some 0)), S n))
    (fun _ n => (Normal false, S n)).

Definition withdrawOne : ChannelReads.WithdrawCommitmentJson :=
  ChannelReads.mkWithdrawCommitmentJson EthReader.AddressZero "0xrecipient" "1" "4"
    EthReader.AddressZero "0x".

(** A read that fails on every attempt; the state counts the attempts. *)
Definition alwaysFailing : EthReader.JsonRpcProvider nat -> Eff nat (Result Z ChainError) :=
  fun _ n => (Normal (Fail (mkChainError "header not found" false [])), S n).

(** A submission that is refused for good; the state counts the submissions. *)
Definition refusedOnce : Eff nat (option EthService.TransactionResponse) :=
  fun n => (Throw (ErrorObj "execution reverted" false), S n).

(** A submission that goes through. *)
Definition accepted : Eff nat (option EthService.TransactionResponse) :=
  fun n => (Normal (Some (EthService.mkTransactionResponse "0xhash")), S n).

(** A channel with the token and the native asset, one entry each. *)
Definition twoAssets : FullChannelState :=
  Examples.channelWith [Examples.tokenUpper; EthReader.AddressZero]
    [Examples.balanceOf "10" "5"; Examples.balanceOf "7" "0"]
    ["10"; "7"] ["5"; "0"] ["1"; "2"].

End Examples2.

(** ** ethReader.ts: the transfer registry *)

Module Registry.

Import EthReader.
Local Open Scope eff_scope.

Record RegisteredTransfer : Type := mkRegisteredTransfer {
  rt_name : string;
  rt_definition : string;
  stateEncoding : string;
  resolverEncoding : string;
  encodedCancel : string;
}.

(** [private transferRegistries: Map<string, RegisteredTransfer[]>]; its keys
    are [chainId.toString()]. *)
Definition Cache : Type := gmap Z (list RegisteredTransfer).

(** The reader: the chain it reads and the registries it has loaded. *)
Record Reader (W : Type) : Type := mkReader {
  chain : W;
  transferRegistries : Cache;
}.
Arguments mkReader {W} _ _.
Arguments chain {W} _.
Arguments transferRegistries {W} _.

(** A call that goes to the chain and cannot touch the registries. *)
Definition onChain {W A} (m : Eff W A) : Eff (Reader W) A :=
  fun s => (fst (m (chain s)), mkReader (snd (m (chain s))) (transferRegistries s)).

(** [this.transferRegistries.get(chainId.toString())] *)
Definition registryOf {W} (chainId : Z) : Eff (Reader W) (option (list RegisteredTransfer)) :=
  fun s => (Normal (transferRegistries s !! chainId), s).

(** [this.transferRegistries.set(chainId.toString(), cleaned)] *)
Definition setRegistry {W} (chainId : Z) (cleaned : list RegisteredTransfer)
  : Eff (Reader W) unit :=
  fun s => (Normal tt, mkReader (chain s) (<[chainId := cleaned]> (transferRegistries s))).

Section TransferRegistry.
Context {W : Type}.
Variable tbl : ChainErrorTable.
Variable ETH_READER_MAX_RETRIES : Z.
Variable chainProviders : gmap Z (JsonRpcProvider (Reader W)).
(** [ChainError.reasons.TransferNotRegistered] *)
Variable TransferNotRegistered : string.
(** [tidy] of vector-types. *)
Variable tidy : string -> string.
(** [tryEvm] on the call data of [getTransferDefinitions], followed by
    [decodeFunctionResult]: the definitions the bytecode yields when it is
    run locally, if it runs and its output decodes. *)
Variable evmTransferDefinitions : string -> option (list RegisteredTransfer).
(** [new Contract(transferRegistry, TransferRegistry.abi, provider).getTransferDefinitions()] *)
Variable registry_getTransferDefinitions :
  string -> JsonRpcProvider (Reader W) -> Eff W (list RegisteredTransfer).

Definition cleaned (r : RegisteredTransfer) : RegisteredTransfer :=
  {| rt_name := rt_name r;
     rt_definition := rt_definition r;
     stateEncoding := tidy (stateEncoding r);
     resolverEncoding := tidy (resolverEncoding r);
     encodedCancel := encodedCancel r |}.

Definition loadRegistry (transferRegistry : string) (chainId : Z) (bytecode : option string)
  : Eff (Reader W) (Result (list RegisteredTransfer) ChainError) :=
  retryWrapper tbl ETH_READER_MAX_RETRIES chainProviders chainId (fun provider =>
    (* Registry for chain not loaded, load into memory *)
    let registered :=
      match bytecode with
      | Some code =>
        (* Try with evm first *)
        if truthy bytecode then evmTransferDefinitions code else None
      | None => None
      end in
    let* registered :=
      match registered with
      | Some r => eret (Ok r)
      | None =>
        ecatch (let* r := onChain (registry_getTransferDefinitions transferRegistry provider) in
                eret (Ok r))
               (fun e =>
                  let* message := elift (reads_message e) in
                  eret (Fail (newChainError tbl message [])))
      end in
    match registered with
    | Fail e => eret (Fail e)
    | Ok registered =>
      let cleaned := List.map cleaned registered in
      setRegistry chainId cleaned;;
      eret (Ok cleaned)
    end).

(** The registry of the chain: the loaded one, or the one [loadRegistry]
    brings. *)
Definition registryOrLoad (transferRegistry : string) (chainId : Z) (bytecode : option string)
  : Eff (Reader W) (Result (list RegisteredTransfer) ChainError) :=
  let* registry := registryOf chainId in
  match registry with
  | Some registry => eret (Ok registry)
  | None => loadRegistry transferRegistry chainId bytecode
  end.

Definition getRegisteredTransferByDefinition (definition transferRegistry : string)
    (chainId : Z) (bytecode : option string)
  : Eff (Reader W) (Result RegisteredTransfer ChainError) :=
  retryWrapper tbl ETH_READER_MAX_RETRIES chainProviders chainId (fun provider =>
    let* registry := registryOrLoad transferRegistry chainId bytecode in
    match registry with
    | Fail e => eret (Fail e)
    | Ok registry =>
      match List.find (fun r => String.eqb (rt_definition r) definition) registry with
      | None => eret (Fail (newChainError tbl TransferNotRegistered []))
      | Some info => eret (Ok info)
      end
    end).

Definition getRegisteredTransferByName (name transferRegistry : string)
    (chainId : Z) (bytecode : option string)
  : Eff (Reader W) (Result RegisteredTransfer ChainError) :=
  retryWrapper tbl ETH_READER_MAX_RETRIES chainProviders chainId (fun provider =>
    let* registry := registryOrLoad transferRegistry chainId bytecode in
    match registry with
    | Fail e => eret (Fail e)
    | Ok registry =>
      match List.find (fun r => String.eqb (rt_name r) name) registry with
      | None => eret (Fail (newChainError tbl TransferNotRegistered []))
      | Some info => eret (Ok info)
      end
    end).

Definition getRegisteredTransfers (transferRegistry : string) (chainId : Z)
    (bytecode : option string)
  : Eff (Reader W) (Result (list RegisteredTransfer) ChainError) :=
  retryWrapper tbl ETH_READER_MAX_RETRIES chainProviders chainId (fun _ =>
    let* registry := registryOrLoad transferRegistry chainId bytecode in
    match registry with
    | Fail e => eret (Fail e)
    | Ok registry => eret (Ok registry)
    end).

End TransferRegistry.

End Registry.

(** ** paramConverter.ts *)

Module ParamConverter.

Local Open Scope eff_scope.

Module ParameterConversionError.
Inductive reasons : Type :=
  | CannotSendToSelf | CouldNotGetQuote | CouldNotSignWithdrawal
  | FailedToGetRegisteredTransfer | FeeGreaterThanAmount
  | NoOp | WithdrawToZero | BobDoesntSubmitAlice.
End ParameterConversionError.

Record WithdrawalQuote : Type := mkWithdrawalQuote {
  q_channelAddress : string;
  q_amount : string;
  q_assetId : string;
  q_fee : string;
  q_expiry : string;
  q_signature : option string;
}.

(** The values a meta object holds, as far as the conversion sets them. *)
Inductive MetaValue : Type :=
  | MetaText (s : string)
  | MetaBool (b : bool)
  | MetaQuote (q : WithdrawalQuote).

Definition Meta : Type := gmap string MetaValue.

(** [EngineParams.Withdraw] *)
Record WithdrawParams : Type := mkWithdrawParams {
  w_channelAddress : string;
  w_amount : string;
  w_assetId : string;
  w_recipient : string;
  w_callTo : option string;
  w_callData : option string;
  w_meta : option Meta;
  w_timeout : option string;
  w_initiatorSubmits : option bool;
  w_quote : option WithdrawalQuote;
}.

(** The arguments of [new WithdrawCommitment(...)]. *)
Record WithdrawCommitment : Type := mkWithdrawCommitment {
  wc_channelAddress : string;
  wc_alice : string;
  wc_bob : string;
  wc_recipient : string;
  wc_assetId : string;
  wc_amount : string;
  wc_nonce : string;
  wc_callTo : option string;
  wc_callData : option string;
}.

Record WithdrawState : Type := mkWithdrawState {
  initiatorSignature : string;
  initiator : string;
  responder : string;
  data : string;
  ws_nonce : string;
  ws_fee : string;
  ws_callTo : string;
  ws_callData : string;
}.

Record CreateTransferParams : Type := mkCreateTransferParams {
  ct_channelAddress : string;
  ct_balance : Balance;
  ct_assetId : string;
  ct_transferDefinition : string;
  transferInitialState : WithdrawState;
  ct_timeout : string;
  ct_meta : Meta;
}.

(** The request of a withdrawal quote. *)
Record WithdrawalQuoteRequest : Type := mkWithdrawalQuoteRequest {
  rq_channelAddress : string;
  rq_amount : string;
  rq_assetId : string;
}.

(** The context object given to an error. *)
Inductive ErrorContext (E : Type) : Type :=
  | WithParams (params : WithdrawParams)
  | WithQuoteError (params : WithdrawParams) (quoteError : E)
  | WithQuote (params : WithdrawParams) (quote : WithdrawalQuote)
  | WithSignatureError (signatureError : string) (params : WithdrawParams)
      (commitment : WithdrawCommitment)
  | WithRegistryError (params : WithdrawParams) (registryError : ChainError).
Arguments WithParams {E} _.
Arguments WithQuoteError {E} _ _.
Arguments WithQuote {E} _ _.
Arguments WithSignatureError {E} _ _ _.
Arguments WithRegistryError {E} _ _.

(** [new ParameterConversionError(reason, channelAddress, publicIdentifier, context)]:
    the class is declared in errors.ts; a value is kept as the arguments of
    its constructor. *)
Record ConversionError (E : Type) : Type := mkConversionError {
  pc_reason : ParameterConversionError.reasons;
  pc_channelAddress : string;
  pc_publicIdentifier : string;
  pc_context : ErrorContext E;
}.
Arguments mkConversionError {E} _ _ _ _.
Arguments pc_reason {E} _.
Arguments pc_channelAddress {E} _.
Arguments pc_publicIdentifier {E} _.
Arguments pc_context {E} _.

Record ChainAddress : Type := mkChainAddress {
  ca_channelFactoryAddress : string;
  ca_transferRegistryAddress : string;
}.

Section Conversion.
Context {W E : Type}.
(** [getAddress] of ethers and [hashToSign] of the withdraw commitment. *)
Variable getAddress : string -> Completion string.
Variable hashToSign : WithdrawCommitment -> string.
(** [DEFAULT_FEE_EXPIRY], [DEFAULT_TRANSFER_TIMEOUT] and
    [TransferNames.Withdraw] of vector-types. *)
Variable DEFAULT_FEE_EXPIRY : Z.
Variable DEFAULT_TRANSFER_TIMEOUT : Z.
Variable TransferNames_Withdraw : string.
(** [Date.now()] *)
Variable now : Eff W Z.
(** [messaging.sendWithdrawalQuoteMessage(Result.ok(request), to, from)] *)
Variable sendWithdrawalQuoteMessage :
  WithdrawalQuoteRequest -> string -> string -> Eff W (Result WithdrawalQuote E).
(** [chainReader.getRegisteredTransferByName(name, transferRegistry, chainId)] *)
Variable getRegisteredTransferByName :
  string -> string -> Z -> Eff W (Result Registry.RegisteredTransfer ChainError).

Definition convertWithdrawParams (params : WithdrawParams) (signer : IChannelSigner W)
    (channel : FullChannelState) (chainAddresses : gmap Z ChainAddress)
  : Eff W (Result CreateTransferParams (ConversionError E)) :=
  let callTo := w_callTo params in
  let callData := w_callData params in
  let fail reason context :=
    eret (Fail (mkConversionError reason (w_channelAddress params) (publicIdentifier signer)
                  context)) in
  let* assetId := elift (getAddress (w_assetId params)) in
  let* recipient := elift (getAddress (w_recipient params)) in
  let initiatorSubmits := default false (w_initiatorSubmits params) in
  if initiatorSubmits && String.eqb (address signer) (alice channel) then
    fail ParameterConversionError.BobDoesntSubmitAlice (WithParams params)
  else if String.eqb recipient EthReader.AddressZero then
    (* If recipient is AddressZero, throw *)
    fail ParameterConversionError.WithdrawToZero (WithParams params)
  else
    (* If it is a no-op, throw *)
    let noCall :=
      negb (truthy callTo)
      || match callTo with Some c => String.eqb c EthReader.AddressZero | None => false end in
    if String.eqb (w_amount params) "0" && noCall then
      fail ParameterConversionError.NoOp (WithParams params)
    else
      (* If you are not alice, request a quote *)
      let* quoteRes :=
        match w_quote params with
        | Some quote => eret (Ok quote)
        | None =>
          if negb (String.eqb (publicIdentifier signer) (aliceIdentifier channel))
             && negb initiatorSubmits
          then
            sendWithdrawalQuoteMessage
              (mkWithdrawalQuoteRequest (channelAddress channel) (w_amount params)
                 (w_assetId params))
              (aliceIdentifier channel) (publicIdentifier signer)
          else
            (* use hardcoded values *)
            let* time := now in
            eret (Ok {| q_channelAddress := channelAddress channel;
                        q_amount := w_amount params;
                        q_assetId := w_assetId params;
                        q_fee := "0";
                        q_expiry := BigNumber.toString (time + DEFAULT_FEE_EXPIRY);
                        q_signature := None |})
        end in
      match quoteRes with
      | Fail quoteError =>
        fail ParameterConversionError.CouldNotGetQuote (WithQuoteError params quoteError)
      | Ok quote =>
        let* fee := elift (BigNumber.from (Some (q_fee quote))) in
        let* whole := elift (BigNumber.from (Some (w_amount params))) in
        if (fee >? whole)%Z then
          fail ParameterConversionError.FeeGreaterThanAmount (WithQuote params quote)
        else
          (* If there is a fee being charged, recalculate the amount *)
          let amount := BigNumber.toString (whole - fee) in
          let commitment :=
            {| wc_channelAddress := channelAddress channel;
               wc_alice := alice channel;
               wc_bob := bob channel;
               wc_recipient := w_recipient params;
               wc_assetId := assetId;
               (* Important: Use amount here which doesn't include fee!! *)
               wc_amount := amount;
               (* Use channel nonce as a way to keep withdraw hashes unique *)
               wc_nonce := BigNumber.toString (nonce channel);
               wc_callTo := callTo;
               wc_callData := callData |} in
          let* signed :=
            ecatch (let* s := signMessage signer (hashToSign commitment) in eret (Ok s))
                   (fun err =>
                      let* signatureError := elift (reads_message err) in
                      eret (Fail signatureError)) in
          match signed with
          | Fail signatureError =>
            fail ParameterConversionError.CouldNotSignWithdrawal
                 (WithSignatureError signatureError params commitment)
          | Ok initiatorSignature =>
            let channelCounterparty :=
              if String.eqb (alice channel) (address signer)
              then bob channel else alice channel in
            let transferInitialState :=
              {| initiatorSignature := initiatorSignature;
                 initiator := address signer;
                 responder := channelCounterparty;
                 data := hashToSign commitment;
                 ws_nonce := BigNumber.toString (nonce channel);
                 ws_fee := BigNumber.toString fee;
                 ws_callTo := default EthReader.AddressZero callTo;
                 ws_callData := default "0x" callData |} in
            (* Get the transfer information from the chain reader *)
            match chainAddresses !! chainId (networkContext channel) with
            | None => ethrow (TypeError "transferRegistryAddress")
            | Some addresses =>
              let* registryRes :=
                getRegisteredTransferByName TransferNames_Withdraw
                  (ca_transferRegistryAddress addresses)
                  (chainId (networkContext channel)) in
              match registryRes with
              | Fail registryError =>
                fail ParameterConversionError.FailedToGetRegisteredTransfer
                     (WithRegistryError params registryError)
              | Ok registered =>
                eret (Ok {| ct_channelAddress := w_channelAddress params;
                            ct_balance := {| to := [recipient; channelCounterparty];
                                             amount := [w_amount params; "0"] |};
                            ct_assetId := assetId;
                            ct_transferDefinition := Registry.rt_definition registered;
                            transferInitialState := transferInitialState;
                            ct_timeout :=
                              default (BigNumber.toString DEFAULT_TRANSFER_TIMEOUT)
                                      (w_timeout params);
                            (* Note: we MUST include withdrawNonce in meta. *)
                            ct_meta :=
                              <["initiatorSubmits" := MetaBool initiatorSubmits]>
                              (<["withdrawNonce" := MetaText (BigNumber.toString (nonce channel))]>
                               (<["quote" :=
                                   MetaQuote {| q_channelAddress := w_channelAddress params;
                                                q_amount := amount;
                                                q_assetId := w_assetId params;
                                                q_fee := q_fee quote;
                                                q_expiry := q_expiry quote;
                                                q_signature := q_signature quote |}]>
                                (default ∅ (w_meta params)))) |})
              end
            end
          end
      end.

End Conversion.

End ParamConverter.

(** ** Example chains and parties *)

Module Examples3.

Import Registry.

(** A node that cannot be reached: every read of code throws; the state
    counts the RPC calls. *)
Definition unreachable : EthReader.JsonRpcProvider nat :=
  EthReader.mkProvider nat
    (fun _ n => (Throw (ErrorObj "missing response" false), S n))
    (fun _ n => (Throw (ErrorObj "missing response" false), S n))
    (fun _ _ n => (Throw (ErrorObj "missing response" false), S n))
    (fun _ _ n => (Throw (ErrorObj "missing response" false), S n))
    (fun _ _ n => (Throw (ErrorObj "missing response" false), S n)).

Definition unreachable1337 : gmap Z (EthReader.JsonRpcProvider nat) :=
  {[ 1337 := unreachable ]}.

Definition withdrawTransfer : RegisteredTransfer :=
  mkRegisteredTransfer "Withdraw" "0xwithdraw" "tuple(bytes sig)" "tuple(bytes sig)" "0x".

Definition hashlockTransfer : RegisteredTransfer :=
  mkRegisteredTransfer "HashlockTransfer" "0xhashlock" "tuple(bytes32 lock)"
    "tuple(bytes32 preImage)" "0x".

(** A provider of a reader; the registry functions pass it on and call
    nothing of it. *)
Definition idle : EthReader.JsonRpcProvider (Reader nat) :=
  EthReader.mkProvider (Reader nat)
    (fun _ => eret "0x") (fun _ => eret 0) (fun _ _ => eret 0)
    (fun _ _ => eret 0) (fun _ _ => eret 0).

Definition readers1337 : gmap Z (EthReader.JsonRpcProvider (Reader nat)) :=
  {[ 1337 := idle ]}.

(** A registry contract that lists two transfers; the state counts the
    calls. *)
Definition twoTransfers (transferRegistry : string)
    (provider : EthReader.JsonRpcProvider (Reader nat)) : Eff nat (list RegisteredTransfer) :=
  fun n => (Normal [withdrawTransfer; hashlockTransfer], S n).

(** No bytecode runs locally. *)
Definition noEvm (bytecode : string) : option (list RegisteredTransfer) := None.

(** A reader that has loaded nothing and has made no call. *)
Definition fresh : Reader nat := mkReader 0%nat ∅.

(** A reader that has loaded the registry of chain 1337. *)
Definition loaded : Reader nat :=
  mkReader 1%nat {[ 1337 := [withdrawTransfer; hashlockTransfer] ]}.

(** Bob withdraws 10 of the native asset and is quoted a fee of 3. *)
Definition withdrawTen : ParamConverter.WithdrawParams :=
  ParamConverter.mkWithdrawParams "0xchannel" "10" EthReader.AddressZero
    "0x00000000000000000000000000000000000000aa" None None None None None None.

Definition quoteThree (request : ParamConverter.WithdrawalQuoteRequest) (to from : string)
  : Eff nat (Result ParamConverter.WithdrawalQuote string) :=
  fun n => (Normal (Ok (ParamConverter.mkWithdrawalQuote
                          (ParamConverter.rq_channelAddress request)
                          (ParamConverter.rq_amount request)
                          (ParamConverter.rq_assetId request)
                          "3" "1700000000000" (Some "sig-router"))), S n).

(** A stand-in for [hashToSign]. *)
Definition amountAsHash (c : ParamConverter.WithdrawCommitment) : string :=
  ParamConverter.wc_amount c.

Definition bobSigner : IChannelSigner nat :=
  mkSigner nat "0xbob" "bob-id" (fun hash n => (Normal ("signed:" ++ hash), S n)).

Definition withdrawRegistered (name transferRegistry : string) (chainId : Z)
  : Eff nat (Result RegisteredTransfer ChainError) :=
  fun n => (Normal (Ok withdrawTransfer), S n).

Definition addresses1337 : gmap Z ParamConverter.ChainAddress :=
  {[ 1337 := ParamConverter.mkChainAddress "0xfactory" "0xregistry" ]}.

Definition clock : Eff nat Z := fun n => (Normal 1600000000000, n).

End Examples3.

(** ** More example chains and requests *)

Module Examples4.

(** A chain on which the channel contract is deployed; the state counts
    the RPC calls. *)
Definition deployed : EthReader.JsonRpcProvider nat :=
  EthReader.mkProvider nat
    (fun _ n => (Normal "0x6080", S n))
    (fun _ n => (Normal 0, S n))
    (fun _ _ n => (Normal 0, S n))
    (fun _ _ n => (Normal 0, S n))
    (fun _ _ n => (Normal 0, S n)).

Definition deployed1337 : gmap Z (EthReader.JsonRpcProvider nat) :=
  {[ 1337 := deployed ]}.

(** A router that does not answer requests for a quote. *)
Definition noQuote (request : ParamConverter.WithdrawalQuoteRequest) (to from : string)
  : Eff nat (Result ParamConverter.WithdrawalQuote string) :=
  fun n => (Normal (Fail "Request timed out"), S n).

(** A withdrawal of 10 to the zero address. *)
Definition withdrawToZero : ParamConverter.WithdrawParams :=
  ParamConverter.mkWithdrawParams "0xchannel" "10" EthReader.AddressZero
    EthReader.AddressZero None None None None None None.

(** A withdrawal of 10 that its initiator submits. *)
Definition withdrawSubmitted : ParamConverter.WithdrawParams :=
  ParamConverter.mkWithdrawParams "0xchannel" "10" EthReader.AddressZero
    "0x00000000000000000000000000000000000000aa" None None None None (Some true) None.

(** Bob's conversion of a withdrawal on the channel [Examples2.twoAssets],
    with a router that quotes a fee of 3. *)
Definition convertFor (messaging :
    ParamConverter.WithdrawalQuoteRequest -> string -> string ->
    Eff nat (Result ParamConverter.WithdrawalQuote string))
    (params : ParamConverter.WithdrawParams)
  : Completion (Result ParamConverter.CreateTransferParams
                  (ParamConverter.ConversionError string)) * nat :=
  ParamConverter.convertWithdrawParams Examples.sameSpelling Examples3.amountAsHash
    86400000 8640 "Withdraw" Examples3.clock messaging Examples3.withdrawRegistered
    params Examples3.bobSigner Examples2.twoAssets Examples3.addresses1337 0%nat.

(** A lookup of the withdraw transfer by a reader that has loaded nothing. *)
Definition firstLookup
  : Completion (Result Registry.RegisteredTransfer ChainError) * Registry.Reader nat :=
  Registry.getRegisteredTransferByName Examples.exampleTable 5 Examples3.readers1337
    "Transfer not registered" (fun s => s) Examples3.noEvm Examples3.twoTransfers
    "Withdraw" "0xregistry" 1337 None Examples3.fresh.

End Examples4.

(** ** What a log says was saved *)

Module Trace.

Import Sync.

(** The channel states, with their transfers, that the calls of a log have
    saved, in order. *)
Definition saves (log : list Event) : list (FullChannelState * option FullTransferState) :=
  flat_map (fun ev => match ev with
                      | SaveChannelState channel transfer => [(channel, transfer)]
                      | _ => []
                      end) log.

End Trace.

(** ** Well-formed examples *)

Module Examples5.

Import Sync Memory.

Definition aliceAddress : string := "0x2222222222222222222222222222222222222222".
Definition bobAddress : string := "0x3333333333333333333333333333333333333333".

(** A channel state whose addresses, amounts and root have the form the
    commitment encoding asks for. *)
Definition encodable : FullChannelState :=
  mkFullChannelState "0x1111111111111111111111111111111111111111"
    aliceAddress bobAddress "alice-id" "bob-id"
    [EthReader.AddressZero] [mkBalance [aliceAddress; bobAddress] ["10"; "5"]]
    ["10"] ["5"] ["1"] "86400" 4 ChannelReads.HashZero
    (mkChannelUpdate "0x1111111111111111111111111111111111111111" "alice-id" "bob-id"
       deposit 4 (mkBalance [aliceAddress; bobAddress] ["10"; "5"]) EthReader.AddressZero ""
       (Some "sig-alice") (Some "sig-bob"))
    context1337 false.

(** Nothing is stored, and the counterparty answers the first message with
    StaleUpdate and its update at nonce 7. *)
Definition setupParams : UpdateParams := mkUpdateParams "0xchannel" setup "".

Definition outboundSetupStale : Completion (Result OutboundOk ProtocolError) * Sys World :=
  outbound memoryServices setupParams
    (mkWorld None [] [Fail (staleUpdate update7)], []).

(** A channel contract with a dispute on record; the state counts the calls. *)
Definition disputed : ChannelReads.VectorChannelContract nat :=
  ChannelReads.mkVectorChannelContract nat
    (fun n => (Normal (ChannelReads.mkOnchainDispute
                         "0x00000000000000000000000000000000000000000000000000000000000000aa"
                         7 ChannelReads.HashZero 1700 1800 (Some 2)), S n))
    (fun _ n => (Normal true, S n)).

(** The same dispute from a contract whose record has no defund nonce. *)
Definition disputedFiveFields : ChannelReads.VectorChannelContract nat :=
  ChannelReads.mkVectorChannelContract nat
    (fun n => (Normal (ChannelReads.mkOnchainDispute
                         "0x00000000000000000000000000000000000000000000000000000000000000aa"
                         7 ChannelReads.HashZero 1700 1800 None), S n))
    (fun _ n => (Normal true, S n)).

End Examples5.

(** * Properties *)

(** ** The effect monad *)

Lemma ebind_normal {S A B} (m : Eff S A) (k : A -> Eff S B) s a s' :
  m s = (Normal a, s') -> ebind m k s = k a s'.
Proof. intros H. unfold ebind. now rewrite H. Qed.

Lemma ebind_throw {S A B} (m : Eff S A) (k : A -> Eff S B) s e s' :
  m s = (Throw e, s') -> ebind m k s = (Throw e, s').
Proof. intros H. unfold ebind. now rewrite H. Qed.

(** ** BigNumber *)

(** A number written out and read back is the same number. *)
Lemma parse_toString (z : Z) : BigNumber.parse (BigNumber.toString z) = Some z.
Proof.
  unfold BigNumber.parse, BigNumber.toString.
  rewrite NilZero.isi.
  - simpl. now rewrite DecimalZ.of_to.
  - destruct z; simpl; try discriminate.
    intros H. injection H as H. now apply DecimalPos.Unsigned.to_uint_nonnil in H.
  - destruct z; simpl; try discriminate.
    intros H. injection H as H. now apply DecimalPos.Unsigned.to_uint_nonnil in H.
Qed.

Lemma from_parsed (s : string) (z : Z) :
  BigNumber.parse s = Some z -> BigNumber.from (Some s) = Normal z.
Proof. intros H. unfold BigNumber.from. now rewrite H. Qed.

(** ** utils.ts: generateSignedChannelCommitment *)

Section SignedCommitment.
Context {S : Type}.
Variable hashChannelCommitment : CoreChannelState -> Completion string.
Variable newState : FullChannelState.
Variable signer : IChannelSigner S.
Variables aliceSignature bobSignature : option string.

(** The core state of [newState]: each of its fields but the network
    context. *)
Local Abbreviation core :=
  {| c_channelAddress := channelAddress newState;
     c_alice := alice newState;
     c_bob := bob newState;
     c_aliceIdentifier := aliceIdentifier newState;
     c_bobIdentifier := bobIdentifier newState;
     c_assetIds := assetIds newState;
     c_balances := balances newState;
     c_processedDepositsA := processedDepositsA newState;
     c_processedDepositsB := processedDepositsB newState;
     c_defundNonces := defundNonces newState;
     c_timeout := timeout newState;
     c_nonce := nonce newState;
     c_merkleRoot := merkleRoot newState;
     c_latestUpdate := latestUpdate newState;
     c_inDispute := inDispute newState |}.

Local Abbreviation run :=
  (Utils.generateSignedChannelCommitment hashChannelCommitment newState signer
     aliceSignature bobSignature).

Lemma generateSignedChannelCommitment_hash_throws (s : S) (e : Exn) :
  hashChannelCommitment core = Throw e ->
  run s = (Throw e, s).
Proof.
  intros Hhash. unfold Utils.generateSignedChannelCommitment, withoutNetworkContext,
    ebind, elift.
  now rewrite Hhash.
Qed.

Lemma generateSignedChannelCommitment_double_signed (s : S) (hash : string) :
  hashChannelCommitment core = Normal hash ->
  truthy aliceSignature = true -> truthy bobSignature = true ->
  run s = (Normal (Ok (Utils.mkSignedCommitment core aliceSignature bobSignature)), s).
Proof.
  intros Hhash Ha Hb. unfold Utils.generateSignedChannelCommitment, withoutNetworkContext,
    ebind, elift.
  now rewrite Hhash, Ha, Hb.
Qed.

Lemma generateSignedChannelCommitment_signs (s s' : S) (hash sig : string) :
  hashChannelCommitment core = Normal hash ->
  truthy aliceSignature && truthy bobSignature = false ->
  signMessage signer hash s = (Normal sig, s') ->
  run s
  = (Normal (Ok (Utils.mkSignedCommitment core
                   (if String.eqb (address signer) (alice newState)
                    then Some sig else aliceSignature)
                   (if String.eqb (address signer) (alice newState)
                    then bobSignature else Some sig))), s').
Proof.
  intros Hhash Hone Hsig.
  unfold Utils.generateSignedChannelCommitment, withoutNetworkContext, elift.
  unfold ebind at 1. rewrite Hhash, Hone. unfold ecatch.
  now rewrite (ebind_normal _ _ _ _ _ Hsig).
Qed.

(** C10, as the code has it.  The hash of the core state is taken first,
    before the signatures are looked at and outside the [try]: when hashing
    throws, the call throws that error, whatever signatures were passed, and
    the signer is not called.  When the core state hashes and both signatures
    are present, the result is the core state (every field of the input but
    its network context) and the two signatures as given, and the signer is
    not called: whatever state the signer has is left as it was.  When it
    hashes and at most one signature is present, the signer signs the hash;
    its signature goes to the alice slot exactly when its address is the
    state's alice address, and to the bob slot otherwise, the other slot
    keeping the signature that was passed in. *)
Theorem generateSignedChannelCommitment_slots (s : S) :
  (forall e, hashChannelCommitment core = Throw e -> run s = (Throw e, s))
  /\
  (forall hash, hashChannelCommitment core = Normal hash ->
     (truthy aliceSignature = true -> truthy bobSignature = true ->
      run s
      = (Normal (Ok (Utils.mkSignedCommitment core aliceSignature bobSignature)), s))
     /\
     (truthy aliceSignature && truthy bobSignature = false ->
      forall sig s', signMessage signer hash s = (Normal sig, s') ->
      exists signed,
        run s = (Normal (Ok signed), s')
        /\ Utils.sc_core signed = core
        /\ (address signer = alice newState ->
            Utils.sc_aliceSignature signed = Some sig
            /\ Utils.sc_bobSignature signed = bobSignature)
        /\ (address signer <> alice newState ->
            Utils.sc_aliceSignature signed = aliceSignature
            /\ Utils.sc_bobSignature signed = Some sig))).
Proof.
  split; [ | intros hash Hhash; split ].
  - intros e. apply generateSignedChannelCommitment_hash_throws.
  - now apply (generateSignedChannelCommitment_double_signed s hash).
  - intros Hone sig s' Hsig.
    eexists. split; [ eapply generateSignedChannelCommitment_signs; eassumption | ].
    simpl. split; [ reflexivity | ].
    split; intros Haddr.
    + apply String.eqb_eq in Haddr. now rewrite Haddr.
    + apply String.eqb_neq in Haddr. now rewrite Haddr.
Qed.

End SignedCommitment.

(** ** utils.ts: reconcileDeposit *)

Section ReconcileDeposit.
Context {W : Type}.
Variable chainReader : IVectorChainReader W.
Variables channelAddress assetId : string.
Variable chainId : Z.

(** C3.  When both chain reads succeed, with totals [totalA] and [totalB],
    the balance returned holds, for each side, the integer
    [existing + (total - processed)], computed without rounding or wrapping
    and written in decimal; the recipients are kept; and the totals returned
    are the totals read. *)
Theorem reconcileDeposit_credits_pending (initialBalance : Balance)
    (processedDepositA processedDepositB existing0 existing1 : string)
    (processedA processedB amount0 amount1 totalA totalB : Z) (w w1 w2 : W) :
  getTotalDepositedA chainReader channelAddress chainId assetId w = (Normal (Ok totalA), w1) ->
  getTotalDepositedB chainReader channelAddress chainId assetId w1 = (Normal (Ok totalB), w2) ->
  BigNumber.parse processedDepositA = Some processedA ->
  BigNumber.parse processedDepositB = Some processedB ->
  amount initialBalance !! 0%nat = Some existing0 ->
  amount initialBalance !! 1%nat = Some existing1 ->
  BigNumber.parse existing0 = Some amount0 ->
  BigNumber.parse existing1 = Some amount1 ->
  exists r,
    Utils.reconcileDeposit channelAddress chainId initialBalance processedDepositA
      processedDepositB assetId chainReader w = (Normal (Ok r), w2)
    /\ BigNumber.parse <$> amount (Utils.r_balance r)
       = [Some (amount0 + (totalA - processedA)); Some (amount1 + (totalB - processedB))]
    /\ to (Utils.r_balance r) = to initialBalance
    /\ BigNumber.parse (Utils.r_totalDepositsAlice r) = Some totalA
    /\ BigNumber.parse (Utils.r_totalDepositsBob r) = Some totalB.
Proof.
  intros HA HB HpA HpB H0 H1 Ha0 Ha1.
  unfold Utils.reconcileDeposit.
  rewrite (ebind_normal _ _ _ _ _ HA), (ebind_normal _ _ _ _ _ HB).
  unfold elift, ebind.
  rewrite (from_parsed _ _ HpA), (from_parsed _ _ HpB), H0, H1.
  rewrite (from_parsed _ _ Ha0), (from_parsed _ _ Ha1).
  eexists. split; [ reflexivity | ].
  simpl. rewrite !parse_toString. auto.
Qed.

(** A failed read of either total is returned as it is. *)
Lemma reconcileDeposit_read_fails (initialBalance : Balance)
    (processedDepositA processedDepositB : string) (e : ChainError) (w w1 : W) :
  getTotalDepositedA chainReader channelAddress chainId assetId w = (Normal (Fail e), w1) ->
  Utils.reconcileDeposit channelAddress chainId initialBalance processedDepositA
    processedDepositB assetId chainReader w = (Normal (Fail e), w1).
Proof.
  intros HA. unfold Utils.reconcileDeposit.
  now rewrite (ebind_normal _ _ _ _ _ HA).
Qed.

End ReconcileDeposit.

(** C10 as stated does not hold of a state that does not hash: both
    signatures are present and nothing needs signing, yet the call throws. *)
Lemma generateSignedChannelCommitment_throws_without_hash :
  Utils.generateSignedChannelCommitment Examples.addressAsHash Examples.duplicatedNineTen
    (Examples.countingSigner "0xbob") (Some "sig-alice") (Some "sig-bob") 0%nat
  = (Throw (ErrorObj "invalid address" false), 0%nat).
Proof. reflexivity. Qed.

Lemma generateSignedChannelCommitment_slots_witness :
  Utils.generateSignedChannelCommitment Examples.addressAsHash Examples5.encodable
    (Examples.countingSigner Examples5.bobAddress) (Some "sig-alice") (Some "sig-bob")
    0%nat
  = (Normal (Ok (Utils.mkSignedCommitment
                   (withoutNetworkContext Examples5.encodable)
                   (Some "sig-alice") (Some "sig-bob"))), 0%nat)
  /\ (exists signed,
       Utils.generateSignedChannelCommitment Examples.addressAsHash
         Examples5.encodable (Examples.countingSigner Examples5.aliceAddress)
         None (Some "sig-bob") 0%nat = (Normal (Ok signed), 1%nat)
       /\ c_nonce (Utils.sc_core signed) = 4
       /\ Utils.sc_aliceSignature signed
          = Some "signed:0x1111111111111111111111111111111111111111#4"
       /\ Utils.sc_bobSignature signed = Some "sig-bob")
  /\ Utils.generateSignedChannelCommitment Examples.addressAsHash
       Examples.duplicatedNineTen (Examples.countingSigner "0xbob")
       None (Some "sig-bob") 0%nat
     = (Throw (ErrorObj "invalid address" false), 0%nat).
Proof.
  split; [ | split ].
  - apply (proj1 (proj2 (generateSignedChannelCommitment_slots Examples.addressAsHash
                           Examples5.encodable
                           (Examples.countingSigner Examples5.bobAddress)
                           (Some "sig-alice") (Some "sig-bob") 0%nat)
                    "0x1111111111111111111111111111111111111111#4" eq_refl));
      reflexivity.
  - destruct (proj2 (proj2 (generateSignedChannelCommitment_slots Examples.addressAsHash
                              Examples5.encodable
                              (Examples.countingSigner Examples5.aliceAddress)
                              None (Some "sig-bob") 0%nat)
                       "0x1111111111111111111111111111111111111111#4" eq_refl)
                eq_refl "signed:0x1111111111111111111111111111111111111111#4" 1%nat
                eq_refl)
      as (signed & Hrun & Hcore & Halice & _).
    exists signed. split; [ exact Hrun | ].
    split; [ now rewrite Hcore | exact (Halice eq_refl) ].
  - exact (proj1 (generateSignedChannelCommitment_slots Examples.addressAsHash
                    Examples.duplicatedNineTen (Examples.countingSigner "0xbob")
                    None (Some "sig-bob") 0%nat)
             (ErrorObj "invalid address" false) eq_refl).
Defined.

Lemma reconcileDeposit_credits_pending_witness :
  exists r,
    Utils.reconcileDeposit "0xchannel" 1337 (Examples.balanceOf "3" "4") "0" "2"
      EthReader.AddressZero (Examples.undeployedReader 10) 0%nat = (Normal (Ok r), 3%nat)
    /\ BigNumber.parse <$> amount (Utils.r_balance r) = [Some 3; Some 12].
Proof.
  destruct (reconcileDeposit_credits_pending (Examples.undeployedReader 10)
              "0xchannel" EthReader.AddressZero 1337 (Examples.balanceOf "3" "4")
              "0" "2" "3" "4" 0 2 3 4 0 10 0%nat 1%nat 3%nat
              eq_refl eq_refl eq_refl eq_refl eq_refl eq_refl eq_refl eq_refl)
    as (r & Hrun & Hamount & _).
  exists r. split; [ exact Hrun | exact Hamount ].
Defined.

(** ** utils.ts: mergeAssetIds *)

Lemma includes_self (x : string) : js_includes [Some x] x = true.
Proof. unfold js_includes. cbn. now rewrite String.eqb_refl. Qed.

Section MergeAssetIds.
Variable getAddress : string -> Completion string.

Import Examples.

(** C8, where the code departs from it.  A channel holds the same token
    twice, with defund nonces 5 and 7, followed by another asset with defund
    nonce 1.  The merged entry of the token has the summed balance [4, 6] and
    the summed processed deposits 11 and 15, but its defund nonce is 1, the
    nonce of the other asset, and not the maximum 7 of the two duplicates:
    the reduction over [defundNonces] takes the current element whenever it
    belongs to another asset.  The slot of the second duplicate is left as a
    hole. *)
Theorem mergeAssetIds_defundNonce_of_other_asset (token native : string) :
  getAddress tokenLower = Normal token ->
  getAddress tokenUpper = Normal token ->
  getAddress EthReader.AddressZero = Normal native ->
  Utils.mergeAssetIds getAddress duplicatedThenOther
  = Normal (Utils.mkMergedChannel duplicatedThenOther
      {| Utils.m_assetIds := [Some token; None; Some native];
         Utils.m_processedDepositsA := [Some "11"; None; Some "1"];
         Utils.m_processedDepositsB := [Some "15"; None; Some "1"];
         Utils.m_balances :=
           [Some (balanceOf "4" "6"); None; Some (balanceOf "10" "20")];
         Utils.m_defundNonces := [Some "1"; None; Some "1"] |}).
Proof.
  intros Hl Hu Hz.
  set (first := Utils.mkMergedArrays [Some token] [Some "11"] [Some "15"]
                  [Some (balanceOf "4" "6")] [Some "1"]).
  assert (Utils.mergeStep getAddress duplicatedThenOther
            (Utils.mkMergedArrays [] [] [] [] []) tokenLower 0 = Normal first) as S0.
  { unfold Utils.mergeStep. rewrite Hl. vm_compute. reflexivity. }
  assert (Utils.mergeStep getAddress duplicatedThenOther first tokenUpper 1
          = Normal first) as S1.
  { unfold Utils.mergeStep. rewrite Hu.
    unfold Utils.processedForAsset, Utils.balanceForAsset, Utils.defundNonceForAsset,
      Utils.unprocessedAsset.
    cbn [Utils.m_assetIds first cbind]. rewrite includes_self.
    vm_compute. reflexivity. }
  assert (Utils.mergeStep getAddress duplicatedThenOther first EthReader.AddressZero 2
          = Normal (Utils.mkMergedArrays
                      [Some token; None; Some native] [Some "11"; None; Some "1"]
                      [Some "15"; None; Some "1"]
                      [Some (balanceOf "4" "6"); None; Some (balanceOf "10" "20")]
                      [Some "1"; None; Some "1"])) as S2.
  { unfold Utils.mergeStep. rewrite Hz. vm_compute. reflexivity. }
  unfold Utils.mergeAssetIds, Utils.js_reduce.
  change (assetIds duplicatedThenOther)
    with [tokenLower; tokenUpper; EthReader.AddressZero].
  cbn [Utils.js_reduce_from].
  rewrite S0. cbn [cbind]. rewrite S1. cbn [cbind]. rewrite S2. reflexivity.
Qed.

(** The same reduction compares the nonces as strings: of the defund nonces
    "9" and "10" of two duplicates it keeps "9".  The balance [1, 2] and
    [3, 4] of the duplicates is merged to [4, 6] under one asset id. *)
Lemma mergeAssetIds_defundNonce_string_order (token : string) :
  getAddress tokenLower = Normal token ->
  getAddress tokenUpper = Normal token ->
  Utils.mergeAssetIds getAddress duplicatedNineTen
  = Normal (Utils.mkMergedChannel duplicatedNineTen
      {| Utils.m_assetIds := [Some token];
         Utils.m_processedDepositsA := [Some "11"];
         Utils.m_processedDepositsB := [Some "15"];
         Utils.m_balances := [Some (balanceOf "4" "6")];
         Utils.m_defundNonces := [Some "9"] |}).
Proof.
  intros Hl Hu.
  set (first := Utils.mkMergedArrays [Some token] [Some "11"] [Some "15"]
                  [Some (balanceOf "4" "6")] [Some "9"]).
  assert (Utils.mergeStep getAddress duplicatedNineTen
            (Utils.mkMergedArrays [] [] [] [] []) tokenLower 0 = Normal first) as S0.
  { unfold Utils.mergeStep. rewrite Hl. vm_compute. reflexivity. }
  assert (Utils.mergeStep getAddress duplicatedNineTen first tokenUpper 1
          = Normal first) as S1.
  { unfold Utils.mergeStep. rewrite Hu.
    unfold Utils.processedForAsset, Utils.balanceForAsset, Utils.defundNonceForAsset,
      Utils.unprocessedAsset.
    cbn [Utils.m_assetIds first cbind]. rewrite includes_self.
    vm_compute. reflexivity. }
  unfold Utils.mergeAssetIds, Utils.js_reduce.
  change (assetIds duplicatedNineTen) with [tokenLower; tokenUpper].
  cbn [Utils.js_reduce_from].
  rewrite S0. cbn [cbind]. rewrite S1. reflexivity.
Qed.

End MergeAssetIds.

Lemma mergeAssetIds_defundNonce_of_other_asset_witness :
  (fun merged => Utils.m_defundNonces (Utils.m_arrays merged)) <$>
    (match Utils.mergeAssetIds Examples.sameSpelling Examples.duplicatedThenOther with
     | Normal merged => Some merged
     | Throw _ => None
     end)
  = Some [Some "1"; None; Some "1"].
Proof.
  rewrite (mergeAssetIds_defundNonce_of_other_asset Examples.sameSpelling
             Examples.tokenLower EthReader.AddressZero eq_refl eq_refl eq_refl).
  reflexivity.
Defined.

(** ** ethReader.ts *)

Section ChainReaderFacts.
Context {W : Type}.
Variable tbl : ChainErrorTable.
Variable ETH_READER_MAX_RETRIES : Z.
Variable chainProviders : gmap Z (EthReader.JsonRpcProvider W).

Local Abbreviation retryWrapper := (EthReader.retryWrapper tbl ETH_READER_MAX_RETRIES chainProviders).
Local Abbreviation getCode := (EthReader.getCode tbl ETH_READER_MAX_RETRIES chainProviders).
Local Abbreviation getOnchainBalance :=
  (EthReader.getOnchainBalance tbl ETH_READER_MAX_RETRIES chainProviders).
Local Abbreviation getTotalDepositedA :=
  (EthReader.getTotalDepositedA tbl ETH_READER_MAX_RETRIES chainProviders).
Local Abbreviation getTotalDepositedB :=
  (EthReader.getTotalDepositedB tbl ETH_READER_MAX_RETRIES chainProviders).

(** A wrapped call can only succeed on a chain that has a provider. *)
Lemma retryWrapper_ok_provider {T} (chainId : Z)
    (targetMethod : EthReader.JsonRpcProvider W -> Eff W (Result T ChainError))
    (v : T) (w w' : W) :
  retryWrapper chainId targetMethod w = (Normal (Ok v), w') ->
  exists provider, chainProviders !! chainId = Some provider.
Proof.
  unfold EthReader.retryWrapper.
  destruct (chainProviders !! chainId) as [provider|]; [ eauto | ].
  unfold eret. intros H. discriminate H.
Qed.

(** A wrapped call whose first attempt succeeds returns that result. *)
Lemma retryWrapper_first_try {T} (chainId : Z) (provider : EthReader.JsonRpcProvider W)
    (targetMethod : EthReader.JsonRpcProvider W -> Eff W (Result T ChainError))
    (v : T) (w w' : W) :
  chainProviders !! chainId = Some provider ->
  targetMethod provider w = (Normal (Ok v), w') ->
  retryWrapper chainId targetMethod w = (Normal (Ok v), w').
Proof.
  intros Hp Hfirst. unfold EthReader.retryWrapper. rewrite Hp.
  now rewrite (ebind_normal _ _ _ _ _ Hfirst).
Qed.

(** C6.  When the code read at the channel address is empty, the total
    deposited by Alice is 0, and the total deposited by Bob is whatever
    balance the chain reports for the asset at the channel address. *)
Theorem undeployed_channel_deposits (channelAddress assetId : string) (chainId : Z)
    (w w1 : W) :
  getCode channelAddress chainId w = (Normal (Ok "0x"), w1) ->
  getTotalDepositedA channelAddress chainId assetId w = (Normal (Ok 0), w1)
  /\ forall (held : Z) (w2 : W),
       getOnchainBalance assetId channelAddress chainId w1 = (Normal (Ok held), w2) ->
       getTotalDepositedB channelAddress chainId assetId w = (Normal (Ok held), w2).
Proof.
  intros Hcode.
  destruct (retryWrapper_ok_provider _ _ _ _ _ Hcode) as [provider Hp].
  split.
  - unfold EthReader.getTotalDepositedA.
    apply (retryWrapper_first_try _ provider); [ exact Hp | ].
    now rewrite (ebind_normal _ _ _ _ _ Hcode).
  - intros held w2 Hheld.
    unfold EthReader.getTotalDepositedB.
    apply (retryWrapper_first_try _ provider); [ exact Hp | ].
    rewrite (ebind_normal _ _ _ _ _ Hcode). exact Hheld.
Qed.

(** The retry loop calls its target at most [todo] times. *)
Lemma retryLoop_attempts {T} (target : Eff W (Result T ChainError)) (todo : nat) :
  forall (res : Result T ChainError) (errors : list string) (w : W),
  exists n, (n <= todo)%nat
    /\ snd (EthReader.retryLoop todo target res errors w) = EthReader.afterCalls n target w.
Proof.
  induction todo as [|todo IH]; intros res errors w.
  - exists 0%nat. split; [ lia | reflexivity ].
  - cbn [EthReader.retryLoop]. unfold ebind.
    destruct (target w) as [[[v|e]|e] w'] eqn:Hcall.
    + exists 1%nat. split; [ lia | ]. cbn. now rewrite Hcall.
    + destruct (IH (Fail e) (errors ++ [ce_message e])%list w') as (n & Hn & Hrun).
      exists (S n). split; [ lia | ]. cbn [EthReader.afterCalls]. now rewrite Hcall.
    + exists 1%nat. split; [ lia | ]. cbn. now rewrite Hcall.
Qed.

(** X24.  Every chain read makes at least one and at most
    [max 1 ETH_READER_MAX_RETRIES] attempts: the first call and the retries. *)
Lemma retryWrapper_attempts {T} (chainId : Z) (provider : EthReader.JsonRpcProvider W)
    (targetMethod : EthReader.JsonRpcProvider W -> Eff W (Result T ChainError)) (w : W) :
  chainProviders !! chainId = Some provider ->
  exists n, (1 <= n <= Z.to_nat (Z.max 1 ETH_READER_MAX_RETRIES))%nat
    /\ snd (retryWrapper chainId targetMethod w)
       = EthReader.afterCalls n (targetMethod provider) w.
Proof.
  intros Hp. unfold EthReader.retryWrapper. rewrite Hp. unfold ebind at 1.
  destruct (targetMethod provider w) as [[[v|e]|e] w'] eqn:Hcall.
  - exists 1%nat. split; [ lia | ]. cbn. now rewrite Hcall.
  - destruct (retryLoop_attempts (targetMethod provider)
                (Z.to_nat (ETH_READER_MAX_RETRIES - 1)) (Fail e) [ce_message e] w')
      as (n & Hn & Hrun).
    exists (S n). split; [ lia | ].
    cbn [EthReader.afterCalls]. rewrite Hcall. cbn [snd]. rewrite <- Hrun.
    unfold ebind.
    destruct (EthReader.retryLoop _ _ _ _ w') as [[[r errs]|ex] w''];
      [ destruct r | ]; reflexivity.
  - exists 1%nat. split; [ lia | ]. cbn. now rewrite Hcall.
Qed.

End ChainReaderFacts.

Lemma undeployed_channel_deposits_witness :
  EthReader.getTotalDepositedA Examples.exampleTable 5 (Examples.providers1337 10)
    "0xchannel" 1337 EthReader.AddressZero 0%nat = (Normal (Ok 0), 1%nat)
  /\ EthReader.getTotalDepositedB Examples.exampleTable 5 (Examples.providers1337 10)
       "0xchannel" 1337 EthReader.AddressZero 0%nat = (Normal (Ok 10), 2%nat).
Proof.
  destruct (undeployed_channel_deposits Examples.exampleTable 5
              (Examples.providers1337 10) "0xchannel" EthReader.AddressZero 1337
              0%nat 1%nat eq_refl) as [HA HB].
  split; [ exact HA | exact (HB 10 2%nat eq_refl) ].
Defined.

(** ** ethService.ts *)

Section ChainServiceFacts.
Variable tbl : ChainErrorTable.
Variable defaultRetries : Z.

Import Examples.

Lemma sendTxLoop_keeps_retrying (fuel : nat) :
  forall (attempt : Z) (errors : list ChainError) (submitted : nat),
  0 < attempt ->
  EthService.sendTxLoop tbl silentStore defaultRetries fuel attempt errors
    "0xchannel" 1337 "deposit" alwaysRetryable submitted
  = (Normal None, (submitted + fuel)%nat).
Proof.
  induction fuel as [|fuel IH]; intros attempt errors submitted Hpos.
  - cbn. unfold eret. f_equal. lia.
  - cbn [EthService.sendTxLoop].
    replace (attempt =? 0)%Z with false by (symmetry; apply Z.eqb_neq; lia).
    cbn [negb]. unfold ebind at 1.
    change (EthService.sendTxAndParseResponse tbl silentStore "0xchannel" 1337 "deposit"
              alwaysRetryable submitted)
      with (Normal (Fail (caught (ErrorObj "replacement fee too low" true))
              : Result (option EthService.TransactionResponse) ChainError),
            S submitted).
    cbn [canRetry caught negb].
    rewrite IH by lia. f_equal. lia.
Qed.

(** C9, where the code departs from it.  A submission that keeps failing
    with an error marked [canRetry] is submitted again and again: however
    many iterations are unfolded, [sendTxWithRetries] has made that many
    submissions and has not returned, whatever [defaultRetries] is. *)
Theorem sendTxWithRetries_keeps_retrying (fuel : nat) :
  EthService.sendTxWithRetries tbl silentStore defaultRetries fuel
    "0xchannel" 1337 "deposit" alwaysRetryable 0%nat
  = (Normal None, fuel).
Proof.
  unfold EthService.sendTxWithRetries.
  now rewrite sendTxLoop_keeps_retrying by lia.
Qed.

End ChainServiceFacts.

(** ** sync.ts *)

(** Unfolding one execution: every call to a collaborator is split into its
    outcome and the world it leaves. *)
Ltac unfold_engine :=
  unfold Sync.outbound, Sync.inbound, Sync.inbound_apply, Sync.outbound_complete,
    Sync.syncStateAndRecreateUpdate, Sync.syncState, Sync.returnError,
    Sync.extractContextFromStore, Sync.call, ebind, ecatch, eret, ethrow, elift in *;
  cbn [fst snd] in *.

Ltac innermost x :=
  lazymatch x with
  | context [match ?y with _ => _ end] => innermost y
  | _ => x
  end.

Ltac split_call :=
  match goal with
  | H : context [match ?x with _ => _ end] |- _ =>
    let y := innermost x in destruct y eqn:?; cbn [fst snd] in *
  | |- context [match ?x with _ => _ end] =>
    let y := innermost x in destruct y eqn:?; cbn [fst snd] in *
  end.

Ltac close_run :=
  repeat match goal with
         | H : (_, _) = (_, _) |- _ => injection H as ? ?; subst
         | H : Normal _ = Normal _ |- _ => injection H as ?; subst
         | H : Ok _ = Ok _ |- _ => injection H as ?; subst
         | H : Fail _ = Fail _ |- _ => injection H as ?; subst
         | H : Some _ = Some _ |- _ => injection H as ?; subst
         end;
  try discriminate.

Section SyncerFacts.
Context {W : Type}.
Variable sv : Sync.Services W.

(** C7, as the code has it.  An update of type setup is refused with
    CannotSyncSetup.  Any other update that lacks the signature of Alice or
    of Bob is refused with the message "Cannot sync single signed state";
    the error handlers of both callers report it under the reason
    SyncFailure, with that message as [syncError].  Either way the syncer
    returns before calling any collaborator: nothing is validated and
    nothing is saved. *)
Theorem syncState_refuses_setup_and_single_signed {E} (toSync : ChannelUpdate)
    (previousState : option FullChannelState) (activeTransfers : list FullTransferState)
    (handleError : Message -> Result Sync.InboundApplied E) (s : Sync.Sys W) :
  (type toSync = setup ->
   Sync.syncState sv toSync previousState activeTransfers handleError s
   = (Normal (handleError (Inbound InboundChannelUpdateError.CannotSyncSetup)), s))
  /\
  (type toSync <> setup ->
   truthy (aliceSignature toSync) = false \/ truthy (bobSignature toSync) = false ->
   Sync.syncState sv toSync previousState activeTransfers handleError s
   = (Normal (handleError (Text "Cannot sync single signed state")), s)
   /\ (forall previousUpdate,
         Sync.inboundSyncError previousUpdate previousState
           (Text "Cannot sync single signed state")
         = Fail (newInboundChannelUpdateError
                   (Inbound InboundChannelUpdateError.SyncFailure)
                   previousUpdate previousState
                   [("syncError", CtxMessage (Text "Cannot sync single signed state"))]))
   /\ (forall attemptedParams,
         Sync.outboundSyncError attemptedParams previousState
           (Text "Cannot sync single signed state")
         = Fail (newOutboundChannelUpdateError OutboundChannelUpdateError.SyncFailure
                   attemptedParams previousState
                   [("syncError", CtxMessage (Text "Cannot sync single signed state"))]))).
Proof.
  split.
  - intros Hsetup. unfold Sync.syncState.
    destruct (decide (type toSync = setup)); [ reflexivity | contradiction ].
  - intros Hother Hsingle. split; [ | split; reflexivity ].
    unfold Sync.syncState.
    destruct (decide (type toSync = setup)); [ contradiction | ].
    destruct Hsingle as [-> | ->]; cbn; [ reflexivity | ].
    now rewrite orb_true_r.
Qed.

(** C2, where the code departs from it.  With no channel in the store and
    an update whose nonce is not positive, the difference of nonces is not
    positive either, and the engine reads the latest update of a channel it
    does not have: the call throws after the two store reads, and no reply,
    StaleUpdate or other, is sent to the peer. *)
Theorem inbound_stale_without_channel_throws (update : ChannelUpdate)
    (previousUpdate : option ChannelUpdate) (inbox : string)
    (activeTransfers : list FullTransferState) (w w1 w2 : W) :
  Sync.getChannelState sv (u_channelAddress update) w = (Normal None, w1) ->
  Sync.getActiveTransfers sv (u_channelAddress update) w1 = (Normal activeTransfers, w2) ->
  u_nonce update <= 0 ->
  Sync.inbound sv update previousUpdate inbox (w, [])
  = (Throw (TypeError "Cannot read property 'latestUpdate' of undefined"),
     (w2, [Sync.GetChannelState (u_channelAddress update);
           Sync.GetActiveTransfers (u_channelAddress update)])).
Proof.
  intros Hstate Htransfers Hnonce.
  unfold_engine. rewrite Hstate. cbn [fst snd]. rewrite Htransfers.
  cbn [from_option].
  replace (u_nonce update - 0 <=? 0)%Z with true by (symmetry; apply Z.leb_le; lia).
  reflexivity.
Qed.

(** X1.  With a channel in the store and a nonce that is not ahead of it, the
    peer is sent StaleUpdate with the stored latest update, and nothing is
    validated or saved. *)
Lemma inbound_stale_update (update : ChannelUpdate) (previousUpdate : option ChannelUpdate)
    (inbox : string) (stored : FullChannelState)
    (activeTransfers : list FullTransferState) (w w1 w2 w3 : W) :
  let error := newInboundChannelUpdateError
                 (Inbound InboundChannelUpdateError.StaleUpdate)
                 (Some (latestUpdate stored)) (Some stored) [] in
  Sync.getChannelState sv (u_channelAddress update) w = (Normal (Some stored), w1) ->
  Sync.getActiveTransfers sv (u_channelAddress update) w1 = (Normal activeTransfers, w2) ->
  Sync.respondWithProtocolError sv inbox error w2 = (Normal tt, w3) ->
  u_nonce update - nonce stored <= 0 ->
  Sync.inbound sv update previousUpdate inbox (w, [])
  = (Normal (Fail error),
     (w3, [Sync.GetChannelState (u_channelAddress update);
           Sync.GetActiveTransfers (u_channelAddress update);
           Sync.RespondWithProtocolError inbox error])).
Proof.
  intros error Hstate Htransfers Hrespond Hdiff.
  unfold_engine. rewrite Hstate. cbn [fst snd]. rewrite Htransfers.
  cbn [from_option].
  replace (u_nonce update - nonce stored <=? 0)%Z with true
    by (symmetry; apply Z.leb_le; lia).
  cbn [fst snd app from_option id]. fold error. now rewrite Hrespond.
Qed.

(** X2.  A nonce three or more ahead is answered with RestoreNeeded, and nothing
    is validated or saved. *)
Lemma inbound_restore_needed (update : ChannelUpdate) (previousUpdate : option ChannelUpdate)
    (inbox : string) (stored : option FullChannelState)
    (activeTransfers : list FullTransferState) (w w1 w2 w3 : W) :
  let error := newInboundChannelUpdateError
                 (Inbound InboundChannelUpdateError.RestoreNeeded)
                 (Some update) stored
                 [("counterpartyLatestUpdate", CtxUpdate previousUpdate);
                  ("ourLatestNonce", CtxNonce (from_option nonce 0 stored))] in
  Sync.getChannelState sv (u_channelAddress update) w = (Normal stored, w1) ->
  Sync.getActiveTransfers sv (u_channelAddress update) w1 = (Normal activeTransfers, w2) ->
  Sync.respondWithProtocolError sv inbox error w2 = (Normal tt, w3) ->
  3 <= u_nonce update - from_option nonce 0 stored ->
  Sync.inbound sv update previousUpdate inbox (w, [])
  = (Normal (Fail error),
     (w3, [Sync.GetChannelState (u_channelAddress update);
           Sync.GetActiveTransfers (u_channelAddress update);
           Sync.RespondWithProtocolError inbox error])).
Proof.
  intros error Hstate Htransfers Hrespond Hdiff.
  unfold_engine. rewrite Hstate. cbn [fst snd]. rewrite Htransfers.
  replace (u_nonce update - from_option nonce 0 stored <=? 0)%Z with false
    by (symmetry; apply Z.leb_gt; lia).
  replace (3 <=? u_nonce update - from_option nonce 0 stored)%Z with true
    by (symmetry; apply Z.leb_le; lia).
  cbn [fst snd app from_option id]. fold error. now rewrite Hrespond.
Qed.

(** X25.  A nonce two ahead: the update the peer supplied as its previous one is
    synced first, and on success the update is processed on the synced
    state exactly as an update one ahead is processed on the stored state. *)
Lemma inbound_behind_by_one (update toSync : ChannelUpdate) (inbox : string)
    (stored : option FullChannelState) (activeTransfers : list FullTransferState)
    (synced : Sync.InboundApplied) (w w1 w2 : W) (s : Sync.Sys W) :
  let loaded := [Sync.GetChannelState (u_channelAddress update);
                 Sync.GetActiveTransfers (u_channelAddress update)] in
  Sync.getChannelState sv (u_channelAddress update) w = (Normal stored, w1) ->
  Sync.getActiveTransfers sv (u_channelAddress update) w1 = (Normal activeTransfers, w2) ->
  u_nonce update - from_option nonce 0 stored = 2 ->
  Sync.syncState sv toSync stored activeTransfers
    (Sync.inboundSyncError (Some toSync) stored) (w2, loaded) = (Normal (Ok synced), s) ->
  Sync.inbound sv update (Some toSync) inbox (w, [])
  = Sync.inbound_apply sv update inbox (Some (Sync.updatedChannel synced))
      (Sync.updatedActiveTransfers synced) s.
Proof.
  intros loaded Hstate Htransfers Hdiff Hsync.
  unfold Sync.inbound, Sync.extractContextFromStore, Sync.call, ebind, ecatch, eret.
  cbn [fst snd]. rewrite Hstate. cbn [fst snd]. rewrite Htransfers.
  rewrite Hdiff. cbn [Z.leb Z.eqb Z.compare Pos.compare Pos.compare_cont Pos.eqb].
  cbn [app]. subst loaded. now rewrite Hsync.
Qed.

(** A nonce one ahead: the update is validated and applied on the stored
    state directly. *)
Lemma inbound_next (update : ChannelUpdate) (previousUpdate : option ChannelUpdate)
    (inbox : string) (stored : option FullChannelState)
    (activeTransfers : list FullTransferState) (w w1 w2 : W) :
  Sync.getChannelState sv (u_channelAddress update) w = (Normal stored, w1) ->
  Sync.getActiveTransfers sv (u_channelAddress update) w1 = (Normal activeTransfers, w2) ->
  u_nonce update - from_option nonce 0 stored = 1 ->
  Sync.inbound sv update previousUpdate inbox (w, [])
  = Sync.inbound_apply sv update inbox stored activeTransfers
      (w2, [Sync.GetChannelState (u_channelAddress update);
            Sync.GetActiveTransfers (u_channelAddress update)]).
Proof.
  intros Hstate Htransfers Hdiff.
  unfold Sync.inbound, Sync.extractContextFromStore, Sync.call, ebind, ecatch, eret.
  cbn [fst snd]. rewrite Hstate. cbn [fst snd]. rewrite Htransfers.
  rewrite Hdiff. reflexivity.
Qed.

End SyncerFacts.

(** *** The nonce of an applied update *)

Ltac z_tests :=
  repeat match goal with
         | H : (_ <=? _)%Z = true |- _ => apply Z.leb_le in H
         | H : (_ <=? _)%Z = false |- _ => apply Z.leb_gt in H
         | H : (_ =? _)%Z = true |- _ => apply Z.eqb_eq in H
         | H : (_ =? _)%Z = false |- _ => apply Z.eqb_neq in H
         | H : negb _ = true |- _ => apply negb_true_iff in H
         | H : negb _ = false |- _ => apply negb_false_iff in H
         end.

(** A record of calls ends with the given calls. *)
Ltac same_list := solve [ cbn [app]; repeat (f_equal; try reflexivity) ].

Ltac with_prefix tac :=
  cbn [app];
  first [ exists []; tac
        | eexists [_]; tac
        | eexists [_; _]; tac
        | eexists [_; _; _]; tac
        | eexists [_; _; _; _]; tac
        | eexists [_; _; _; _; _]; tac
        | eexists [_; _; _; _; _; _]; tac
        | eexists [_; _; _; _; _; _; _]; tac
        | eexists [_; _; _; _; _; _; _; _]; tac
        | eexists [_; _; _; _; _; _; _; _; _]; tac
        | eexists [_; _; _; _; _; _; _; _; _; _]; tac ].

Ltac find_prefix := with_prefix same_list.

Section NonceFacts.
Context {W : Type}.
Variable rules : Validate.Rules W.

Lemma validateAndApplyInboundUpdate_nonce (update : ChannelUpdate)
    (previousState : option FullChannelState) (activeTransfers : list FullTransferState)
    (applied : Sync.InboundApplied) (w w' : W) :
  Validate.validateAndApplyInboundUpdate rules update previousState activeTransfers w
  = (Normal (Ok applied), w') ->
  nonce (Sync.updatedChannel applied) = from_option nonce 0 previousState + 1.
Proof.
  unfold Validate.validateAndApplyInboundUpdate, ebind, eret. intros H.
  repeat split_call; close_run. reflexivity.
Qed.

Lemma validateParamsAndApplyUpdate_nonce (params : UpdateParams)
    (previousState : option FullChannelState) (activeTransfers : list FullTransferState)
    (initiator : string) (applied : Sync.OutboundApplied) (w w' : W) :
  Validate.validateParamsAndApplyUpdate rules params previousState activeTransfers
    initiator w = (Normal (Ok applied), w') ->
  nonce (Sync.oa_updatedChannel applied) = from_option nonce 0 previousState + 1
  /\ u_nonce (Sync.oa_update applied) = from_option nonce 0 previousState + 1.
Proof.
  unfold Validate.validateParamsAndApplyUpdate, ebind, eret. intros H.
  repeat split_call; close_run. split; reflexivity.
Qed.

End NonceFacts.

Section EngineNonce.
Context {W : Type}.
Variable sv : Sync.Services W.

(** What the protocol description asks of the inbound validator. *)
Hypothesis inbound_increments :
  forall update previousState activeTransfers applied w w',
    Sync.validateAndApplyInboundUpdate sv update previousState activeTransfers w
    = (Normal (Ok applied), w') ->
    nonce (Sync.updatedChannel applied) = from_option nonce 0 previousState + 1.

(** A state synced by [syncState] is one nonce above the state it was
    synced from. *)
Lemma syncState_increments {E} (toSync : ChannelUpdate)
    (previousState : option FullChannelState) (activeTransfers : list FullTransferState)
    (handleError : Message -> Result Sync.InboundApplied E)
    (synced : Sync.InboundApplied) (s s' : Sync.Sys W) :
  (forall msg, isError (handleError msg) = true) ->
  Sync.syncState sv toSync previousState activeTransfers handleError s
  = (Normal (Ok synced), s') ->
  nonce (Sync.updatedChannel synced) = from_option nonce 0 previousState + 1.
Proof.
  intros Hfail H. unfold_engine.
  repeat split_call; close_run;
    try (match goal with
         | H : handleError ?m = Ok _ |- _ =>
           specialize (Hfail m); rewrite H in Hfail; discriminate Hfail
         end).
  eapply inbound_increments; eassumption.
Qed.

(** An update that [inbound] applies is validated on a state one nonce
    below it, then saved and acknowledged; the state returned carries the
    nonce of the update. *)
Lemma inbound_applies_next_nonce (update : ChannelUpdate)
    (previousUpdate : option ChannelUpdate) (inbox : string)
    (r : Sync.InboundApplied) (w w' : W) (log : list Sync.Event) :
  Sync.inbound sv update previousUpdate inbox (w, []) = (Normal (Ok r), (w', log)) ->
  exists previousState activeTransfers,
    (exists before,
       log = (before ++
              [Sync.ValidateAndApplyInboundUpdate update previousState activeTransfers;
               Sync.SaveChannelState (Sync.updatedChannel r) (Sync.updatedTransfer r);
               Sync.RespondToProtocolMessage inbox (latestUpdate (Sync.updatedChannel r))
                 (latestUpdate <$> previousState)])%list)
    /\ u_nonce update = from_option nonce 0 previousState + 1
    /\ nonce (Sync.updatedChannel r) = from_option nonce 0 previousState + 1.
Proof.
  intros H. unfold_engine. unfold Sync.inboundSyncError in *.
  repeat split_call; close_run; z_tests.
  - (* behind by one: synced first *)
    do 2 eexists. split; [ find_prefix | ].
    match goal with
    | Hs : Sync.validateAndApplyInboundUpdate sv ?u ?ps _ _ = (Normal (Ok ?a), _),
      Hu : Sync.validateAndApplyInboundUpdate sv update (Some (Sync.updatedChannel ?a)) _ _
           = (Normal (Ok _), _) |- _ =>
      pose proof (inbound_increments _ _ _ _ _ _ Hs) as Hsynced;
      pose proof (inbound_increments _ _ _ _ _ _ Hu) as Happlied
    end.
    cbn [from_option] in *. split; [ lia | exact Happlied ].
  - (* one ahead *)
    do 2 eexists. split; [ find_prefix | ].
    match goal with
    | Hu : Sync.validateAndApplyInboundUpdate sv update _ _ _ = (Normal (Ok _), _) |- _ =>
      pose proof (inbound_increments _ _ _ _ _ _ Hu) as Happlied
    end.
    split; [ lia | exact Happlied ].
Qed.

End EngineNonce.

Section OutboundNonce.
Context {W : Type}.
Variable sv : Sync.Services W.

Hypothesis outbound_increments :
  forall params previousState activeTransfers initiator applied w w',
    Sync.validateParamsAndApplyUpdate sv params previousState activeTransfers initiator w
    = (Normal (Ok applied), w') ->
    nonce (Sync.oa_updatedChannel applied) = from_option nonce 0 previousState + 1.

(** The state that a successful [outbound] saves and returns is one nonce
    above the state the parameters were applied on: the stored state, or the
    synced one after a StaleUpdate reply. *)
Lemma outbound_applies_next_nonce (params : UpdateParams) (r : Sync.OutboundOk)
    (w w' : W) (log : list Sync.Event) :
  Sync.outbound sv params (w, []) = (Normal (Ok r), (w', log)) ->
  exists previousState activeTransfers update previousUpdate checked,
    (exists before,
       log = (before ++
              [Sync.ValidateParamsAndApplyUpdate params previousState activeTransfers;
               Sync.SendProtocolMessage update previousUpdate;
               Sync.ValidateChannelSignatures checked;
               Sync.SaveChannelState (Sync.oo_updatedChannel r)
                 (Sync.oo_updatedTransfer r)])%list)
    /\ nonce (Sync.oo_updatedChannel r) = from_option nonce 0 previousState + 1.
Proof.
  intros H. unfold_engine. unfold Sync.outboundSyncError, Sync.getError in *.
  repeat split_call; close_run; z_tests;
    do 5 eexists; (split; [ find_prefix | ]);
    cbn [Sync.oo_updatedChannel Sync.withLatestUpdate nonce];
    match goal with
    | Hv : Sync.validateParamsAndApplyUpdate sv _ ?ps _ _ _ = (Normal (Ok ?a), _)
      |- nonce (Sync.oa_updatedChannel ?a) = _ =>
      exact (outbound_increments _ _ _ _ _ _ _ Hv)
    end.
Qed.

End OutboundNonce.

(** C1.  With validators that set the nonce as the protocol description
    says, every update the engine applies raises the nonce by one.  An
    inbound update is validated, saved and acknowledged only on a state
    whose nonce is one below the nonce of the update, after the sync if there
    was one; the state returned has the nonce of the update.  A state synced
    by the syncer, and the state a successful outbound update saves, are one
    nonce above the state they were applied on. *)
Theorem applied_update_increments_nonce {W} (sv : Sync.Services W) (rules : Validate.Rules W) :
  (forall update previousUpdate inbox r w w' log,
     Sync.inbound (Validate.withValidate sv rules) update previousUpdate inbox (w, [])
     = (Normal (Ok r), (w', log)) ->
     exists previousState activeTransfers,
       (exists before,
          log = (before ++
                 [Sync.ValidateAndApplyInboundUpdate update previousState activeTransfers;
                  Sync.SaveChannelState (Sync.updatedChannel r) (Sync.updatedTransfer r);
                  Sync.RespondToProtocolMessage inbox
                    (latestUpdate (Sync.updatedChannel r))
                    (latestUpdate <$> previousState)])%list)
       /\ u_nonce update = from_option nonce 0 previousState + 1
       /\ nonce (Sync.updatedChannel r) = from_option nonce 0 previousState + 1)
  /\
  (forall toSync previousState activeTransfers previousUpdate synced s s',
     Sync.syncState (Validate.withValidate sv rules) toSync previousState activeTransfers
       (Sync.inboundSyncError previousUpdate previousState) s = (Normal (Ok synced), s') ->
     nonce (Sync.updatedChannel synced) = from_option nonce 0 previousState + 1)
  /\
  (forall params r w w' log,
     Sync.outbound (Validate.withValidate sv rules) params (w, [])
     = (Normal (Ok r), (w', log)) ->
     exists previousState activeTransfers update previousUpdate checked,
       (exists before,
          log = (before ++
                 [Sync.ValidateParamsAndApplyUpdate params previousState activeTransfers;
                  Sync.SendProtocolMessage update previousUpdate;
                  Sync.ValidateChannelSignatures checked;
                  Sync.SaveChannelState (Sync.oo_updatedChannel r)
                    (Sync.oo_updatedTransfer r)])%list)
       /\ nonce (Sync.oo_updatedChannel r) = from_option nonce 0 previousState + 1).
Proof.
  assert (forall update previousState activeTransfers applied w w',
            Sync.validateAndApplyInboundUpdate (Validate.withValidate sv rules)
              update previousState activeTransfers w = (Normal (Ok applied), w') ->
            nonce (Sync.updatedChannel applied) = from_option nonce 0 previousState + 1)
    as Hin by (intros *; apply validateAndApplyInboundUpdate_nonce).
  assert (forall params previousState activeTransfers initiator applied w w',
            Sync.validateParamsAndApplyUpdate (Validate.withValidate sv rules)
              params previousState activeTransfers initiator w = (Normal (Ok applied), w') ->
            nonce (Sync.oa_updatedChannel applied) = from_option nonce 0 previousState + 1)
    as Hout by (intros * Hv; now apply validateParamsAndApplyUpdate_nonce in Hv).
  split; [ | split ].
  - intros *. now apply inbound_applies_next_nonce.
  - intros * Hsync. eapply syncState_increments; [ exact Hin | | exact Hsync ].
    reflexivity.
  - intros *. now apply outbound_applies_next_nonce.
Qed.

Lemma applied_update_increments_nonce_witness :
  match Memory.inboundBehindByOne with
  | (Normal (Ok r), (_, log)) =>
    exists previousState activeTransfers,
      (exists before,
         log = (before ++
                [Sync.ValidateAndApplyInboundUpdate Memory.update7 previousState
                   activeTransfers;
                 Sync.SaveChannelState (Sync.updatedChannel r) (Sync.updatedTransfer r);
                 Sync.RespondToProtocolMessage "inbox"
                   (latestUpdate (Sync.updatedChannel r))
                   (latestUpdate <$> previousState)])%list)
      /\ 7 = from_option nonce 0 previousState + 1
      /\ nonce (Sync.updatedChannel r) = from_option nonce 0 previousState + 1
  | _ => False
  end.
Proof.
  destruct Memory.inboundBehindByOne as [[[r|e]|e] [w' log]] eqn:Hrun;
    try (vm_compute in Hrun; discriminate Hrun).
  exact (proj1 (applied_update_increments_nonce Memory.memoryBase Memory.acceptAll)
           Memory.update7 (Some Memory.update6) "inbox" r _ w' log Hrun).
Defined.

(** *** What outbound saves and sends *)

Section OutboundFacts.
Context {W : Type}.
Variable sv : Sync.Services W.

(** When the proposed parameters do not validate, the error of the
    validator is returned after the two store reads and the validation:
    nothing is sent and nothing is saved. *)
Lemma outbound_validation_fails (params : UpdateParams)
    (previousState : option FullChannelState) (activeTransfers : list FullTransferState)
    (e : ProtocolError) (w w1 w2 w3 : W) :
  Sync.getChannelState sv (p_channelAddress params) w = (Normal previousState, w1) ->
  Sync.getActiveTransfers sv (p_channelAddress params) w1 = (Normal activeTransfers, w2) ->
  Sync.validateParamsAndApplyUpdate sv params previousState activeTransfers
    (Sync.signerPublicIdentifier sv) w2 = (Normal (Fail e), w3) ->
  Sync.outbound sv params (w, [])
  = (Normal (Fail e),
     (w3, [Sync.GetChannelState (p_channelAddress params);
           Sync.GetActiveTransfers (p_channelAddress params);
           Sync.ValidateParamsAndApplyUpdate params previousState activeTransfers])).
Proof.
  intros Hstate Htransfers Hvalidate.
  unfold_engine. rewrite Hstate. cbn [fst snd]. rewrite Htransfers.
  cbn [fst snd]. now rewrite Hvalidate.
Qed.

(** Whatever happens, [outbound] sends at most two protocol messages and
    syncs at most once. *)
Lemma outbound_sends_at_most_twice (params : UpdateParams)
    (res : Completion (Result Sync.OutboundOk ProtocolError)) (w w' : W)
    (log : list Sync.Event) :
  Sync.outbound sv params (w, []) = (res, (w', log)) ->
  (Log.count Log.isSend log <= 2)%nat
  /\ (Log.count Log.isInboundValidation log <= 1)%nat
  /\ (Log.count Log.isInboundValidation log = 0 -> Log.count Log.isSend log <= 1)%nat.
Proof.
  intros H. unfold_engine. unfold Sync.outboundSyncError, Sync.getError in *.
  repeat split_call; close_run; cbn; repeat split; lia.
Qed.

(** C4, as the code has it.  Whatever [outbound] does, the channel states
    its calls have saved are these, in order: after a StaleUpdate reply to
    the first message, the state that the inbound validation made of the
    counterparty's latest update (the save of the syncer); and, when the run
    succeeds, the state of the proposed update with the countersigned update
    as its latest update, saved by the last call.  So a run that fails has
    not saved the state of the proposed update: it has saved nothing, or the
    synced state alone, and it has saved nothing unless the first message
    was answered with StaleUpdate.  When the first validation of the proposed
    parameters fails, no protocol message is sent and nothing is saved. *)
Theorem outbound_saves_proposed_state_last (params : UpdateParams)
    (res : Completion (Result Sync.OutboundOk ProtocolError)) (w w' : W)
    (log : list Sync.Event) :
  Sync.outbound sv params (w, []) = (res, (w', log)) ->
  (exists syncSaves,
     Trace.saves log
     = (syncSaves ++ match res with
                     | Normal (Ok r) =>
                       [(Sync.oo_updatedChannel r, Sync.oo_updatedTransfer r)]
                     | _ => []
                     end)%list
     /\ (syncSaves = []
         \/ exists previousState activeTransfers applied error counterpartyUpdate synced
                   w0 w1 w2 w3 w4,
              syncSaves = [(Sync.updatedChannel synced, Sync.updatedTransfer synced)]
              /\ Sync.getChannelState sv (p_channelAddress params) w
                 = (Normal previousState, w0)
              /\ Sync.getActiveTransfers sv (p_channelAddress params) w0
                 = (Normal activeTransfers, w1)
              /\ Sync.validateParamsAndApplyUpdate sv params previousState activeTransfers
                   (Sync.signerPublicIdentifier sv) w1 = (Normal (Ok applied), w2)
              /\ Sync.sendProtocolMessage sv (Sync.oa_update applied)
                   (latestUpdate <$> previousState) w2 = (Normal (Fail error), w3)
              /\ message error = Inbound InboundChannelUpdateError.StaleUpdate
              /\ context_update error = Some counterpartyUpdate
              /\ Sync.validateAndApplyInboundUpdate sv counterpartyUpdate previousState
                   activeTransfers w3 = (Normal (Ok synced), w4)))
  /\ match res with
     | Normal (Ok r) =>
       last log = Some (Sync.SaveChannelState (Sync.oo_updatedChannel r)
                          (Sync.oo_updatedTransfer r))
       /\ exists previousState activeTransfers applied previousUpdate reply w1 w2 w3,
            Sync.validateParamsAndApplyUpdate sv params previousState activeTransfers
              (Sync.signerPublicIdentifier sv) w1 = (Normal (Ok applied), w2)
            /\ Sync.sendProtocolMessage sv (Sync.oa_update applied) previousUpdate w2
               = (Normal (Ok reply), w3)
            /\ Sync.oo_updatedChannel r
               = Sync.withLatestUpdate (Sync.oa_updatedChannel applied)
                   (Sync.reply_update reply)
            /\ Sync.oo_updatedTransfer r = Sync.oa_updatedTransfer applied
     | _ => True
     end
  /\ (forall previousState activeTransfers e w1 w2 w3,
        Sync.getChannelState sv (p_channelAddress params) w = (Normal previousState, w1) ->
        Sync.getActiveTransfers sv (p_channelAddress params) w1
        = (Normal activeTransfers, w2) ->
        Sync.validateParamsAndApplyUpdate sv params previousState activeTransfers
          (Sync.signerPublicIdentifier sv) w2 = (Normal (Fail e), w3) ->
        res = Normal (Fail e)
        /\ Log.count Log.isSend log = 0%nat /\ Trace.saves log = []).
Proof.
  intros H. split; [ | split ].
  - unfold_engine. unfold Sync.outboundSyncError, Sync.getError in *.
    repeat split_call; close_run; cbn [Trace.saves flat_map app];
      first
        [ exists []; split; [ reflexivity | left; reflexivity ]
        | match goal with
          | Hg : Sync.getChannelState sv _ _ = (Normal ?ps, ?w0),
            Hv : Sync.validateParamsAndApplyUpdate sv params ?ps ?ts _ ?w1
                 = (Normal (Ok ?ap), ?w2),
            Hs : Sync.sendProtocolMessage sv _ _ ?w2 = (Normal (Fail ?er), ?w3),
            Hc : context_update ?er = Some ?cu,
            Hi : Sync.validateAndApplyInboundUpdate sv ?cu ?ps ?ts ?w3
                 = (Normal (Ok ?sy), ?w4) |- _ =>
            exists [(Sync.updatedChannel sy, Sync.updatedTransfer sy)];
            split;
            [ reflexivity
            | right; exists ps, ts, ap, er, cu, sy, w0, w1, w2, w3, w4;
              repeat apply conj; first [ assumption | reflexivity ] ]
          end ].
  - unfold_engine. unfold Sync.outboundSyncError, Sync.getError in *.
    repeat split_call; close_run; try exact I;
      (split; [ reflexivity | ]);
      match goal with
      | Hv : Sync.validateParamsAndApplyUpdate sv params ?ps ?ts _ ?w1
             = (Normal (Ok ?ap), ?w2),
        Hs : Sync.sendProtocolMessage sv _ ?pu ?w2 = (Normal (Ok ?rp), ?w3) |- _ =>
        exists ps, ts, ap, pu, rp, w1, w2, w3;
        repeat apply conj; first [ assumption | reflexivity ]
      end.
  - intros previousState activeTransfers e w1 w2 w3 Hstate Htransfers Hvalidate.
    rewrite (outbound_validation_fails _ _ _ _ _ _ _ _ Hstate Htransfers Hvalidate) in H.
    injection H as <- _ <-. repeat split.
Qed.

End OutboundFacts.

Section OutboundSync.
Context {W : Type}.
Variable sv : Sync.Services W.

(** C5.  The counterparty answers the proposed update with StaleUpdate and
    its latest update.  The nonce of that update is compared with the nonce
    of the stored state, 0 when no channel is stored.  If it is not exactly
    one ahead and a channel is stored, outbound fails with RestoreNeeded
    right away: nothing is validated, saved or sent again.  If it is not
    exactly one ahead and no channel is stored (the proposed update is a
    setup), outbound does not fail with RestoreNeeded: building the context
    of that error reads the nonce of the missing state, and the call throws
    a TypeError.  If it is exactly one ahead (and is a double-signed update
    other than setup that validates and is saved), the engine applies it
    through the inbound validation, saves the synced state, derives the
    proposed update again on the synced state and sends it a second time;
    the reply to that second message is handled like any reply, with no
    further sync.  No run of outbound sends more than two protocol messages
    or syncs more than once. *)
Theorem outbound_stale_syncs_once (params : UpdateParams)
    (previousState : option FullChannelState)
    (activeTransfers : list FullTransferState) (applied : Sync.OutboundApplied)
    (error : ProtocolError) (latest : ChannelUpdate) (w w1 w2 w3 w4 : W) :
  let started :=
    [Sync.GetChannelState (p_channelAddress params);
     Sync.GetActiveTransfers (p_channelAddress params);
     Sync.ValidateParamsAndApplyUpdate params previousState activeTransfers;
     Sync.SendProtocolMessage (Sync.oa_update applied) (latestUpdate <$> previousState)] in
  Sync.getChannelState sv (p_channelAddress params) w = (Normal previousState, w1) ->
  Sync.getActiveTransfers sv (p_channelAddress params) w1 = (Normal activeTransfers, w2) ->
  Sync.validateParamsAndApplyUpdate sv params previousState activeTransfers
    (Sync.signerPublicIdentifier sv) w2 = (Normal (Ok applied), w3) ->
  Sync.sendProtocolMessage sv (Sync.oa_update applied) (latestUpdate <$> previousState) w3
  = (Normal (Fail error), w4) ->
  message error = Inbound InboundChannelUpdateError.StaleUpdate ->
  context_update error = Some latest ->
  (u_nonce latest - from_option nonce 0 previousState <> 1 ->
   Sync.outbound sv params (w, [])
   = (match previousState with
      | Some stored =>
        Normal (Fail (newOutboundChannelUpdateError
                        OutboundChannelUpdateError.RestoreNeeded
                        params (Some stored)
                        [("counterpartyUpdate", CtxUpdate (Some latest));
                         ("latestNonce", CtxNonce (nonce stored))]))
      | None => Throw (TypeError "Cannot read property 'nonce' of undefined")
      end,
      (w4, started)))
  /\
  (u_nonce latest - from_option nonce 0 previousState = 1 ->
   forall synced again reply w5 w6 w7 w8,
     type latest <> setup ->
     truthy (aliceSignature latest) = true ->
     truthy (bobSignature latest) = true ->
     Sync.validateAndApplyInboundUpdate sv latest previousState activeTransfers w4
     = (Normal (Ok synced), w5) ->
     Sync.saveChannelState sv (Sync.updatedChannel synced) (Sync.updatedTransfer synced) w5
     = (Normal tt, w6) ->
     Sync.validateParamsAndApplyUpdate sv params (Some (Sync.updatedChannel synced))
       (Sync.updatedActiveTransfers synced) (Sync.signerPublicIdentifier sv) w6
     = (Normal (Ok again), w7) ->
     Sync.sendProtocolMessage sv (Sync.oa_update again)
       (Some (latestUpdate (Sync.oa_updatedChannel again))) w7 = (Normal reply, w8) ->
     Sync.outbound sv params (w, [])
     = Sync.outbound_complete sv params reply (Some (Sync.updatedChannel synced))
         (Sync.oa_updatedChannel again) (Sync.oa_updatedTransfer again)
         (Sync.oa_updatedActiveTransfers again)
         (w8, (started ++
               [Sync.ValidateAndApplyInboundUpdate latest previousState activeTransfers;
                Sync.SaveChannelState (Sync.updatedChannel synced)
                  (Sync.updatedTransfer synced);
                Sync.ValidateParamsAndApplyUpdate params (Some (Sync.updatedChannel synced))
                  (Sync.updatedActiveTransfers synced);
                Sync.SendProtocolMessage (Sync.oa_update again)
                  (Some (latestUpdate (Sync.oa_updatedChannel again)))])%list))
  /\
  (forall res w' log,
     Sync.outbound sv params (w, []) = (res, (w', log)) ->
     (Log.count Log.isSend log <= 2)%nat
     /\ (Log.count Log.isInboundValidation log <= 1)%nat).
Proof.
  intros started Hstate Htransfers Hvalidate Hsend Hstale Hlatest.
  split; [ | split ].
  - intros Hdiff.
    unfold Sync.outbound, Sync.extractContextFromStore, Sync.call, ebind, ecatch, eret.
    cbn [fst snd]. rewrite Hstate. cbn [fst snd]. rewrite Htransfers.
    cbn [fst snd]. rewrite Hvalidate. cbn [fst snd].
    rewrite Hsend. cbn [Sync.getError]. rewrite Hstale.
    destruct (decide _) as [_|Hne]; [ | contradiction ].
    unfold Sync.syncStateAndRecreateUpdate. rewrite Hlatest.
    replace (u_nonce latest - from_option nonce 0 previousState =? 1)%Z with false
      by (symmetry; now apply Z.eqb_neq).
    destruct previousState; reflexivity.
  - intros Hdiff synced again reply w5 w6 w7 w8 Htype Halice Hbob Hsync Hsave Hagain Hretry.
    unfold Sync.outbound, Sync.extractContextFromStore, Sync.call, ebind, ecatch, eret.
    cbn [fst snd]. rewrite Hstate. cbn [fst snd]. rewrite Htransfers.
    cbn [fst snd]. rewrite Hvalidate. cbn [fst snd].
    rewrite Hsend. cbn [Sync.getError]. rewrite Hstale.
    destruct (decide _) as [_|Hne]; [ | contradiction ].
    unfold Sync.syncStateAndRecreateUpdate, Sync.syncState, Sync.call, ebind, ecatch, eret.
    rewrite Hlatest. rewrite Hdiff. cbn [Z.eqb Pos.eqb negb].
    destruct (decide (type latest = setup)) as [|_]; [ contradiction | ].
    rewrite Halice, Hbob. cbn [negb orb fst snd].
    rewrite Hsync. cbn [fst snd]. rewrite Hsave. cbn [fst snd].
    rewrite Hagain. cbn [fst snd Sync.os_update Sync.os_updatedChannel
                           Sync.syncedChannel Sync.os_updatedTransfer
                           Sync.os_updatedActiveTransfers].
    rewrite Hretry. reflexivity.
  - intros res w' log Hrun.
    destruct (outbound_sends_at_most_twice sv _ _ _ _ _ Hrun) as (Hsends & Hsyncs & _).
    split; assumption.
Qed.

(** X26.  Without a stored channel (the proposed update is a setup) the same
    check reads the nonce of a state that is not there, and throws. *)
Lemma syncStateAndRecreateUpdate_without_state (params : UpdateParams)
    (activeTransfers : list FullTransferState) (error : ProtocolError)
    (latest : ChannelUpdate) (s : Sync.Sys W) :
  context_update error = Some latest ->
  u_nonce latest <> 1 ->
  Sync.syncStateAndRecreateUpdate sv error params None activeTransfers s
  = (Throw (TypeError "Cannot read property 'nonce' of undefined"), s).
Proof.
  intros Hlatest Hdiff. unfold Sync.syncStateAndRecreateUpdate.
  rewrite Hlatest. cbn [from_option].
  replace (u_nonce latest - 0 =? 1)%Z with false
    by (symmetry; apply Z.eqb_neq; lia).
  reflexivity.
Qed.

End OutboundSync.

(** *** The engine on concrete runs *)

(** C7 as stated does not hold: an update that Bob has not signed makes the
    syncer of [inbound] fail with the reason SyncFailure, not with a reason
    CannotSyncSingleSigned. *)
Lemma syncState_single_signed_is_SyncFailure :
  exists e,
    fst Memory.syncSingleSigned = Normal (Fail e)
    /\ message e = Inbound InboundChannelUpdateError.SyncFailure
    /\ message e <> Inbound InboundChannelUpdateError.CannotSyncSingleSigned
    /\ snd Memory.syncSingleSigned = (Memory.atNonce5 [], []).
Proof.
  eexists. split; [ vm_compute; reflexivity | ].
  split; [ reflexivity | ]. split; [ discriminate | reflexivity ].
Qed.

Lemma syncState_refuses_setup_and_single_signed_witness :
  Sync.syncState Memory.memoryServices (Memory.mkUpdate setup 1 (Some "sig-alice") None)
    None [] (Sync.inboundSyncError None None) (Memory.emptyStore, [])
  = (Normal (Sync.inboundSyncError None None
               (Inbound InboundChannelUpdateError.CannotSyncSetup)),
     (Memory.emptyStore, []))
  /\ Memory.syncSingleSigned
     = (Normal (Sync.inboundSyncError (Some Memory.update6SingleSigned)
                  (Some Memory.channel5) (Text "Cannot sync single signed state")),
        (Memory.atNonce5 [], [])).
Proof.
  split.
  - apply (proj1 (syncState_refuses_setup_and_single_signed Memory.memoryServices
                    (Memory.mkUpdate setup 1 (Some "sig-alice") None) None []
                    (Sync.inboundSyncError None None) (Memory.emptyStore, []))).
    reflexivity.
  - apply (proj2 (syncState_refuses_setup_and_single_signed Memory.memoryServices
                    Memory.update6SingleSigned (Some Memory.channel5) []
                    (Sync.inboundSyncError (Some Memory.update6SingleSigned)
                       (Some Memory.channel5))
                    (Memory.atNonce5 [], []))).
    + discriminate.
    + right. reflexivity.
Defined.

Lemma inbound_stale_without_channel_throws_witness :
  Memory.inboundNonceZero
  = (Throw (TypeError "Cannot read property 'latestUpdate' of undefined"),
     (Memory.emptyStore,
      [Sync.GetChannelState "0xchannel"; Sync.GetActiveTransfers "0xchannel"])).
Proof.
  apply (inbound_stale_without_channel_throws Memory.memoryServices Memory.update0 None
           "inbox" [] Memory.emptyStore Memory.emptyStore Memory.emptyStore
           eq_refl eq_refl).
  cbn. lia.
Defined.

(** C4 as stated does not hold: the counterparty is one update ahead and
    then does not answer the retry.  Outbound fails with CounterpartyOffline,
    yet the syncer has saved a channel state: the store, which held nonce 5,
    now holds nonce 6. *)
Lemma outbound_fails_after_saving_synced_state :
  match Memory.outboundSyncThenTimeout with
  | (Normal (Fail e), (w', log)) =>
    message e = Outbound OutboundChannelUpdateError.CounterpartyOffline
    /\ Log.count Log.isSave log = 1%nat
    /\ nonce <$> Memory.storedChannel w' = Some 6
  | _ => False
  end.
Proof. vm_compute. repeat split. Qed.

Lemma outbound_saves_proposed_state_last_witness :
  match Memory.outboundSyncThenAck with
  | (Normal (Ok r), (_, log)) =>
    last log = Some (Sync.SaveChannelState (Sync.oo_updatedChannel r)
                       (Sync.oo_updatedTransfer r))
    /\ exists syncSaves,
         Trace.saves log
         = (syncSaves ++ [(Sync.oo_updatedChannel r, Sync.oo_updatedTransfer r)])%list
  | _ => False
  end.
Proof.
  destruct Memory.outboundSyncThenAck as [[[r|e]|e] [w' log]] eqn:Hrun;
    try (vm_compute in Hrun; discriminate Hrun).
  pose proof (outbound_saves_proposed_state_last Memory.memoryServices
                Memory.depositParams _ _ _ _ Hrun) as (Hsaves & Hlast & _).
  split; [ exact (proj1 Hlast) | ].
  destruct Hsaves as (syncSaves & Hsaved & _). exists syncSaves. exact Hsaved.
Defined.

Lemma outbound_stale_syncs_once_witness :
  fst Examples5.outboundSetupStale
  = Throw (TypeError "Cannot read property 'nonce' of undefined")
  /\ Log.count Log.isSend (snd (snd Examples5.outboundSetupStale)) = 1%nat
  /\ fst Memory.outboundTooFarBehind
     = Normal (Fail (newOutboundChannelUpdateError OutboundChannelUpdateError.RestoreNeeded
                       Memory.depositParams (Some Memory.channel5)
                       [("counterpartyUpdate", CtxUpdate (Some Memory.update7));
                        ("latestNonce", CtxNonce 5)])).
Proof.
  pose proof (outbound_stale_syncs_once Memory.memoryServices Examples5.setupParams
                None [] _ (Memory.staleUpdate Memory.update7) Memory.update7
                (Memory.mkWorld None [] [Fail (Memory.staleUpdate Memory.update7)])
                _ _ _ _ eq_refl eq_refl eq_refl eq_refl eq_refl eq_refl) as [Hthrows _].
  pose proof (outbound_stale_syncs_once Memory.memoryServices Memory.depositParams
                (Some Memory.channel5) [] _ (Memory.staleUpdate Memory.update7)
                Memory.update7
                (Memory.atNonce5 [Fail (Memory.staleUpdate Memory.update7)])
                _ _ _ _ eq_refl eq_refl eq_refl eq_refl eq_refl eq_refl) as [Hrestore _].
  unfold Examples5.outboundSetupStale, Memory.outboundTooFarBehind.
  rewrite Hthrows by (cbn; lia). rewrite Hrestore by (cbn; lia).
  repeat split.
Defined.

(** ** Further properties of sync.ts *)

Section InboundDiscipline.
Context {W : Type}.
Variable sv : Sync.Services W.

(** X3.  [inbound] answers the counterparty exactly once whenever it
    returns: a failure is returned only after that very error has been sent
    with [respondWithProtocolError], a success only after the latest update
    of the returned channel has been sent with [respondToProtocolMessage];
    in both cases the answer is the last call made.  A run that throws has
    answered nothing. *)
Theorem inbound_answers_once (update : ChannelUpdate)
    (previousUpdate : option ChannelUpdate) (inbox : string)
    (res : Completion (Result Sync.InboundApplied ProtocolError)) (w w' : W)
    (log : list Sync.Event) :
  Sync.inbound sv update previousUpdate inbox (w, []) = (res, (w', log)) ->
  match res with
  | Normal (Ok r) =>
    (exists previous,
       last log = Some (Sync.RespondToProtocolMessage inbox
                          (latestUpdate (Sync.updatedChannel r)) previous))
    /\ Log.count Log.isRespond log = 1%nat
  | Normal (Fail e) =>
    last log = Some (Sync.RespondWithProtocolError inbox e)
    /\ Log.count Log.isRespond log = 1%nat
  | Throw _ => Log.count Log.isRespond log = 0%nat
  end.
Proof.
  intros H. unfold_engine. unfold Sync.inboundSyncError in *.
  repeat split_call; close_run; cbn;
    first [ reflexivity | split; [ eexists | ]; reflexivity | split; reflexivity ].
Qed.

(** X4.  [inbound] saves a channel only right after an inbound validation,
    and never more channels than it validated updates (at most two).  When it
    returns an error, the update received has not been saved: at most one
    channel was saved, the one the syncer applied, and a run with a single
    validation saved nothing. *)
Theorem inbound_saves_validated_states (update : ChannelUpdate)
    (previousUpdate : option ChannelUpdate) (inbox : string)
    (res : Completion (Result Sync.InboundApplied ProtocolError)) (w w' : W)
    (log : list Sync.Event) :
  Sync.inbound sv update previousUpdate inbox (w, []) = (res, (w', log)) ->
  Log.savesFollowSync None log = true
  /\ (Log.count Log.isSave log <= Log.count Log.isInboundValidation log <= 2)%nat
  /\ match res with
     | Normal (Fail _) =>
       (Log.count Log.isSave log <= 1)%nat
       /\ ((Log.count Log.isInboundValidation log <= 1)%nat ->
           Log.count Log.isSave log = 0%nat)
     | _ => True
     end.
Proof.
  intros H. unfold_engine. unfold Sync.inboundSyncError in *.
  repeat split_call; close_run; cbn;
    repeat split; try reflexivity; try lia; intros; try lia.
Qed.

(** X5.  An update two nonces ahead that comes without the counterparty's
    previous update cannot be synced: the peer is answered StaleChannel,
    and nothing is validated or saved. *)
Theorem inbound_stale_channel (update : ChannelUpdate) (inbox : string)
    (stored : option FullChannelState) (activeTransfers : list FullTransferState)
    (w w1 w2 w3 : W) :
  let error := newInboundChannelUpdateError
                 (Inbound InboundChannelUpdateError.StaleChannel)
                 (Some update) stored [] in
  Sync.getChannelState sv (u_channelAddress update) w = (Normal stored, w1) ->
  Sync.getActiveTransfers sv (u_channelAddress update) w1 = (Normal activeTransfers, w2) ->
  Sync.respondWithProtocolError sv inbox error w2 = (Normal tt, w3) ->
  u_nonce update - from_option nonce 0 stored = 2 ->
  Sync.inbound sv update None inbox (w, [])
  = (Normal (Fail error),
     (w3, [Sync.GetChannelState (u_channelAddress update);
           Sync.GetActiveTransfers (u_channelAddress update);
           Sync.RespondWithProtocolError inbox error])).
Proof.
  intros error Hstate Htransfers Hrespond Hdiff.
  unfold_engine. rewrite Hstate. cbn [fst snd]. rewrite Htransfers.
  rewrite Hdiff. cbn [Z.leb Z.eqb Z.compare Pos.compare Pos.compare_cont Pos.eqb].
  cbn [fst snd app from_option id]. fold error. now rewrite Hrespond.
Qed.

(** X6.  [extractContextFromStore] returns the active transfers and the
    channel after both reads, or an error message naming the read that
    threw, followed by the message of what was thrown; when reading the
    channel throws, the active transfers are not read.  The call itself
    throws in one case only: a read rejects with null or undefined, whose
    message the catch block cannot read. *)
Theorem extractContextFromStore_names_failed_read (channelAddress : string)
    (s : Sync.Sys W) :
  match Sync.extractContextFromStore sv channelAddress s with
  | (Normal (Ok _), s') =>
    snd s' = (snd s ++ [Sync.GetChannelState channelAddress;
                        Sync.GetActiveTransfers channelAddress])%list
  | (Normal (Fail msg), s') =>
    (exists e, msg = "getChannelState failed: " ++ exn_message e
               /\ reads_message e = Normal (exn_message e)
               /\ snd s' = (snd s ++ [Sync.Threw (Sync.GetChannelState channelAddress) e])%list)
    \/ (exists e, msg = "getActiveTransfers failed: " ++ exn_message e
                  /\ reads_message e = Normal (exn_message e)
                  /\ snd s' = (snd s ++
                               [Sync.GetChannelState channelAddress;
                                Sync.Threw (Sync.GetActiveTransfers channelAddress) e])%list)
  | (Throw t, s') =>
    exists v,
      (v = JsNull \/ v = JsUndefined)
      /\ reads_message (NotAnError v) = Throw t
      /\ (snd s' = (snd s ++ [Sync.Threw (Sync.GetChannelState channelAddress)
                                (NotAnError v)])%list
          \/ snd s' = (snd s ++
                       [Sync.GetChannelState channelAddress;
                        Sync.Threw (Sync.GetActiveTransfers channelAddress)
                          (NotAnError v)])%list)
  end.
Proof.
  unfold Sync.extractContextFromStore, Sync.call, ebind, ecatch, eret, elift.
  destruct s as [w log]. cbn [fst snd].
  destruct (Sync.getChannelState sv channelAddress w) as [[stored|e] w1].
  - cbn [fst snd].
    destruct (Sync.getActiveTransfers sv channelAddress w1) as [[transfers|e] w2].
    + cbn. now rewrite <- app_assoc.
    + cbn [fst snd]. destruct e as [what|what|msg retry|[ | | ]]; cbn [reads_message snd].
      1-3, 6: right; eexists; split; [ reflexivity | ];
        split; [ reflexivity | ]; cbn; now rewrite <- app_assoc.
      * exists JsNull. split; [ now left | ]. split; [ reflexivity | ].
        right. cbn. now rewrite <- app_assoc.
      * exists JsUndefined. split; [ now right | ]. split; [ reflexivity | ].
        right. cbn. now rewrite <- app_assoc.
  - cbn [fst snd]. destruct e as [what|what|msg retry|[ | | ]]; cbn [reads_message snd].
    1-3, 6: left; eexists; split; [ reflexivity | ]; split; reflexivity.
    + exists JsNull. split; [ now left | ]. split; [ reflexivity | ]. now left.
    + exists JsUndefined. split; [ now right | ]. split; [ reflexivity | ]. now left.
Qed.

(** X7.  A sync that succeeds has applied a double-signed update that is
    not a setup: it made exactly two calls, the inbound validation of that
    update on the previous state and the save of the state it produced. *)
Theorem syncState_applies_double_signed_only {E} (toSync : ChannelUpdate)
    (previousState : option FullChannelState) (activeTransfers : list FullTransferState)
    (handleError : Message -> Result Sync.InboundApplied E)
    (synced : Sync.InboundApplied) (s s' : Sync.Sys W) :
  (forall msg, isError (handleError msg) = true) ->
  Sync.syncState sv toSync previousState activeTransfers handleError s
  = (Normal (Ok synced), s') ->
  type toSync <> setup
  /\ truthy (aliceSignature toSync) = true
  /\ truthy (bobSignature toSync) = true
  /\ snd s' = (snd s ++
               [Sync.ValidateAndApplyInboundUpdate toSync previousState activeTransfers;
                Sync.SaveChannelState (Sync.updatedChannel synced)
                  (Sync.updatedTransfer synced)])%list.
Proof.
  intros Hfail H. unfold_engine.
  repeat split_call; close_run;
    try (match goal with
         | H : handleError ?m = Ok _ |- _ =>
           specialize (Hfail m); rewrite H in Hfail; discriminate Hfail
         end).
  apply orb_false_iff in Heqb as [Ha Hb].
  apply negb_false_iff in Ha, Hb.
  repeat split; try assumption. now rewrite <- app_assoc.
Qed.

End InboundDiscipline.

Section OutboundReplies.
Context {W : Type}.
Variable sv : Sync.Services W.

(** X8.  How [outbound] treats the counterparty's answer to a validated
    proposal.  An error other than StaleUpdate is not retried: a messaging
    timeout is returned as CounterpartyOffline, any other error as
    CounterpartyFailure.  An acknowledgement whose signatures do not verify
    is returned as BadSignatures.  In all three cases one message was sent
    and nothing was saved. *)
Theorem outbound_reply_errors (params : UpdateParams)
    (previousState : option FullChannelState) (activeTransfers : list FullTransferState)
    (applied : Sync.OutboundApplied) (w w1 w2 w3 w4 : W) :
  let started :=
    [Sync.GetChannelState (p_channelAddress params);
     Sync.GetActiveTransfers (p_channelAddress params);
     Sync.ValidateParamsAndApplyUpdate params previousState activeTransfers;
     Sync.SendProtocolMessage (Sync.oa_update applied) (latestUpdate <$> previousState)] in
  Sync.getChannelState sv (p_channelAddress params) w = (Normal previousState, w1) ->
  Sync.getActiveTransfers sv (p_channelAddress params) w1 = (Normal activeTransfers, w2) ->
  Sync.validateParamsAndApplyUpdate sv params previousState activeTransfers
    (Sync.signerPublicIdentifier sv) w2 = (Normal (Ok applied), w3) ->
  (forall error,
     Sync.sendProtocolMessage sv (Sync.oa_update applied) (latestUpdate <$> previousState) w3
     = (Normal (Fail error), w4) ->
     message error <> Inbound InboundChannelUpdateError.StaleUpdate ->
     Sync.outbound sv params (w, [])
     = (Normal (Fail (newOutboundChannelUpdateError
                        (if decide (message error = Messaging MessagingError.Timeout)
                         then OutboundChannelUpdateError.CounterpartyOffline
                         else OutboundChannelUpdateError.CounterpartyFailure)
                        params previousState
                        [("counterpartyError", CtxMessage (message error))])),
        (w4, started)))
  /\
  (forall reply recoveryError w5,
     Sync.sendProtocolMessage sv (Sync.oa_update applied) (latestUpdate <$> previousState) w3
     = (Normal (Ok reply), w4) ->
     Sync.validateChannelSignatures sv (Sync.oa_updatedChannel applied)
       (aliceSignature (Sync.reply_update reply)) (bobSignature (Sync.reply_update reply))
       Sync.SignerBoth w4 = (Normal (Fail recoveryError), w5) ->
     Sync.outbound sv params (w, [])
     = (Normal (Fail (newOutboundChannelUpdateError OutboundChannelUpdateError.BadSignatures
                        params previousState [("recoveryError", CtxText recoveryError)])),
        (w5, (started ++
              [Sync.ValidateChannelSignatures (Sync.oa_updatedChannel applied)])%list))).
Proof.
  intros started Hstate Htransfers Hvalidate. split.
  - intros error Hsend Hother.
    unfold Sync.outbound, Sync.extractContextFromStore, Sync.call, ebind, ecatch, eret.
    cbn [fst snd]. rewrite Hstate. cbn [fst snd]. rewrite Htransfers.
    cbn [fst snd]. rewrite Hvalidate. cbn [fst snd].
    rewrite Hsend. cbn [Sync.getError].
    destruct (decide (message error = _)) as [Hstale|_]; [ contradiction | ].
    reflexivity.
  - intros reply recoveryError w5 Hsend Hsigs.
    unfold Sync.outbound, Sync.outbound_complete, Sync.extractContextFromStore,
      Sync.call, ebind, ecatch, eret.
    cbn [fst snd]. rewrite Hstate. cbn [fst snd]. rewrite Htransfers.
    cbn [fst snd]. rewrite Hvalidate. cbn [fst snd].
    rewrite Hsend. cbn [Sync.getError fst snd]. now rewrite Hsigs.
Qed.

End OutboundReplies.

(** ** ethReader.ts: what a chain read returns *)

Section RetryFacts.
Context {W : Type}.
Variable tbl : ChainErrorTable.
Variable ETH_READER_MAX_RETRIES : Z.
Variable chainProviders : gmap Z (EthReader.JsonRpcProvider W).
Variable vectorChannel : string -> EthReader.JsonRpcProvider W -> ChannelReads.VectorChannelContract W.

Local Abbreviation retryWrapper := (EthReader.retryWrapper tbl ETH_READER_MAX_RETRIES chainProviders).
Local Abbreviation getCode := (EthReader.getCode tbl ETH_READER_MAX_RETRIES chainProviders).
Local Abbreviation getChannelDispute :=
  (ChannelReads.getChannelDispute tbl ETH_READER_MAX_RETRIES chainProviders vectorChannel).
Local Abbreviation getWithdrawalTransactionRecord :=
  (ChannelReads.getWithdrawalTransactionRecord tbl ETH_READER_MAX_RETRIES chainProviders
     vectorChannel).

(** A retry loop that ends on a failure has used every iteration and has
    recorded one message per iteration. *)
Lemma retryLoop_fails {T} (target : Eff W (Result T ChainError)) (todo : nat) :
  forall (res : Result T ChainError) (errors errors' : list string) (e : ChainError)
         (w w' : W),
  EthReader.retryLoop todo target res errors w = (Normal (Fail e, errors'), w') ->
  length errors' = (length errors + todo)%nat
  /\ w' = EthReader.afterCalls todo target w.
Proof.
  induction todo as [|todo IH]; intros res errors errors' e w w' Hrun.
  - cbn in Hrun. unfold eret in Hrun. injection Hrun as _ <- <-.
    split; [ lia | reflexivity ].
  - cbn [EthReader.retryLoop] in Hrun. unfold ebind in Hrun.
    cbn [EthReader.afterCalls].
    destruct (target w) as [[[v|e1]|e1] w1] eqn:Hcall; cbn [snd].
    + unfold eret in Hrun. discriminate Hrun.
    + destruct (IH _ _ _ _ _ _ Hrun) as [Hlen Hw].
      rewrite length_app in Hlen. cbn in Hlen. split; [ lia | exact Hw ].
    + discriminate Hrun.
Qed.

(** X9.  The error of a failed chain read is never the error of the call it
    wraps.  Without a provider for the chain it is ProviderNotFound and
    nothing was called; with one, the call was made
    [max 1 ETH_READER_MAX_RETRIES] times, every attempt failed, and the error
    is the one with the message of the wrapper and one recorded message per
    attempt. *)
Theorem retryWrapper_wraps_failures {T} (chainId : Z)
    (targetMethod : EthReader.JsonRpcProvider W -> Eff W (Result T ChainError))
    (e : ChainError) (w w' : W) :
  retryWrapper chainId targetMethod w = (Normal (Fail e), w') ->
  match chainProviders !! chainId with
  | None => e = newChainError tbl (ProviderNotFound tbl) [] /\ w' = w
  | Some provider =>
    let attempts := Z.to_nat (Z.max 1 ETH_READER_MAX_RETRIES) in
    ce_message e = "Could not execute rpc method"
    /\ canRetry e = retryable tbl "Could not execute rpc method"
    /\ length (ce_errors e) = attempts
    /\ w' = EthReader.afterCalls attempts (targetMethod provider) w
  end.
Proof.
  unfold EthReader.retryWrapper.
  destruct (chainProviders !! chainId) as [provider|].
  - unfold ebind at 1.
    destruct (targetMethod provider w) as [[[v|e0]|e0] w1] eqn:Hcall.
    + unfold eret. intros H. discriminate H.
    + unfold ebind.
      destruct (EthReader.retryLoop _ _ _ _ w1) as [[[[v|e1] errors]|ex] w2] eqn:Hloop;
        unfold eret; intros H; try discriminate H.
      injection H as <- <-.
      destruct (retryLoop_fails _ _ _ _ _ _ _ _ Hloop) as [Hlen ->].
      cbn [newChainError ce_message canRetry ce_errors length] in *.
      repeat split.
      * rewrite Hlen. lia.
      * replace (Z.to_nat (Z.max 1 ETH_READER_MAX_RETRIES))
          with (S (Z.to_nat (ETH_READER_MAX_RETRIES - 1))) by lia.
        cbn [EthReader.afterCalls]. now rewrite Hcall.
    + intros H. discriminate H.
  - unfold eret. intros H. injection H as <- <-. split; reflexivity.
Qed.

(** X10.  For a channel whose address holds no code, a read of its dispute
    answers that there is none and a read of a withdrawal record answers
    that the withdrawal was not submitted; neither calls the channel
    contract (the world is the one the code read left). *)
Theorem undeployed_channel_reads (channelAddress : string) (chainId : Z)
    (withdrawData : ChannelReads.WithdrawCommitmentJson) (w w1 : W) :
  getCode channelAddress chainId w = (Normal (Ok "0x"), w1) ->
  getChannelDispute channelAddress chainId w = (Normal (Ok None), w1)
  /\ getWithdrawalTransactionRecord withdrawData channelAddress chainId w
     = (Normal (Ok false), w1).
Proof.
  intros Hcode.
  assert (exists provider, chainProviders !! chainId = Some provider) as [provider Hp].
  { revert Hcode. unfold EthReader.getCode, EthReader.retryWrapper.
    destruct (chainProviders !! chainId) as [provider|]; [ eauto | ].
    unfold eret. intros H. discriminate H. }
  split.
  - unfold ChannelReads.getChannelDispute, EthReader.retryWrapper. rewrite Hp.
    unfold ebind at 1. unfold ecatch. rewrite (ebind_normal _ _ _ _ _ Hcode).
    reflexivity.
  - unfold ChannelReads.getWithdrawalTransactionRecord, EthReader.retryWrapper. rewrite Hp.
    unfold ebind at 1. rewrite (ebind_normal _ _ _ _ _ Hcode). reflexivity.
Qed.

(** X11.  For a deployed channel whose contract answers, the dispute read
    succeeds on the first attempt in two cases.  A record with the zero
    state hash is reported as no dispute.  A record with another state hash
    that carries a defund nonce is reported with the hash and root of the
    contract and with numbers that read back as the contract's. *)
Theorem getChannelDispute_reports (channelAddress : string) (chainId : Z)
    (provider : EthReader.JsonRpcProvider W) (code : string)
    (dispute : ChannelReads.OnchainDispute) (w w1 w2 : W) :
  chainProviders !! chainId = Some provider ->
  getCode channelAddress chainId w = (Normal (Ok code), w1) ->
  code <> "0x" ->
  ChannelReads.contract_getChannelDispute (vectorChannel channelAddress provider) w1
  = (Normal dispute, w2) ->
  (ChannelReads.d_channelStateHash dispute = ChannelReads.HashZero ->
   getChannelDispute channelAddress chainId w = (Normal (Ok None), w2))
  /\ (ChannelReads.d_channelStateHash dispute <> ChannelReads.HashZero ->
      forall defundNonce : Z,
      ChannelReads.d_defundNonce dispute = Some defundNonce ->
      exists d,
        getChannelDispute channelAddress chainId w = (Normal (Ok (Some d)), w2)
        /\ ChannelReads.channelStateHash d = ChannelReads.d_channelStateHash dispute
        /\ ChannelReads.cd_merkleRoot d = ChannelReads.d_merkleRoot dispute
        /\ BigNumber.parse (ChannelReads.cd_nonce d) = Some (ChannelReads.d_nonce dispute)
        /\ BigNumber.parse (ChannelReads.consensusExpiry d)
           = Some (ChannelReads.d_consensusExpiry dispute)
        /\ BigNumber.parse (ChannelReads.defundExpiry d)
           = Some (ChannelReads.d_defundExpiry dispute)
        /\ BigNumber.parse (ChannelReads.defundNonce d) = Some defundNonce).
Proof.
  intros Hp Hcode Hdeployed Hdispute. apply String.eqb_neq in Hdeployed.
  split; [ intros Hzero | intros Hzero defundNonce Hnonce; eexists; split ].
  1, 2: unfold ChannelReads.getChannelDispute, EthReader.retryWrapper; rewrite Hp;
    unfold ebind at 1; unfold ecatch; rewrite (ebind_normal _ _ _ _ _ Hcode);
    rewrite Hdeployed; rewrite (ebind_normal _ _ _ _ _ Hdispute); cbv beta.
  - apply String.eqb_eq in Hzero. rewrite Hzero. reflexivity.
  - apply String.eqb_neq in Hzero. rewrite Hzero, Hnonce. reflexivity.
  - cbn [ChannelReads.channelStateHash ChannelReads.cd_merkleRoot ChannelReads.cd_nonce
         ChannelReads.consensusExpiry ChannelReads.defundExpiry ChannelReads.defundNonce].
    rewrite !parse_toString. repeat split.
Qed.

End RetryFacts.

(** ** ethService.ts: submissions *)

Section SubmissionFacts.
Context {W : Type}.
Variable tbl : ChainErrorTable.
Variable store : EthService.IChainServiceStore W.
Variable defaultRetries : Z.

Local Abbreviation sendTxAndParseResponse := (EthService.sendTxAndParseResponse tbl store).
Local Abbreviation sendTxWithRetries := (EthService.sendTxWithRetries tbl store defaultRetries).

(** X12.  When the transaction function attempts nothing, the result of a
    submission is a success without a response and the store is not
    written.  When it returns a response, a success carries that response.
    When it throws an error, the store is not written and the result is the
    NotEnoughFunds error if the message of the error says that the sender
    lacks funds, and the thrown error otherwise.  When it throws a value
    that has no message, the catch block itself throws: a TypeError from
    reading the message of null or of undefined, or from calling [includes]
    on a message that is undefined.  A submission throws nothing but such a
    TypeError, whatever the transaction function and the store do. *)
Theorem sendTxAndParseResponse_outcomes (channelAddress : string) (chainId : Z)
    (reason : string) (txFn : Eff W (option EthService.TransactionResponse)) (w : W) :
  match txFn w with
  | (Normal None, w1) =>
    sendTxAndParseResponse channelAddress chainId reason txFn w = (Normal (Ok None), w1)
  | (Normal (Some tx), _) =>
    forall response w',
      sendTxAndParseResponse channelAddress chainId reason txFn w
      = (Normal (Ok response), w') ->
      response = Some tx
  | (Throw e, w1) =>
    sendTxAndParseResponse channelAddress chainId reason txFn w
    = (match e with
       | NotAnError JsNull =>
         Throw (TypeError "Cannot read property 'message' of null")
       | NotAnError JsUndefined =>
         Throw (TypeError "Cannot read property 'message' of undefined")
       | NotAnError JsPlain =>
         Throw (TypeError "Cannot read property 'includes' of undefined")
       | _ =>
         Normal (Fail (if EthService.includes (exn_message e)
                            "sender doesn't have enough funds"
                       then newChainError tbl (NotEnoughFunds tbl) []
                       else caught e))
       end, w1)
  end
  /\ (forall t w',
        sendTxAndParseResponse channelAddress chainId reason txFn w = (Throw t, w') ->
        exists what v, t = TypeError what /\ reads_message (NotAnError v) = Throw t
                       \/ t = TypeError "Cannot read property 'includes' of undefined").
Proof.
  unfold EthService.sendTxAndParseResponse, ecatch, ebind, eret, elift, ethrow.
  destruct (txFn w) as [[[tx|]|e] w1].
  - destruct (EthService.saveTransactionResponse store channelAddress reason tx w1)
      as [[[]|e] w2].
    + destruct (EthService.postTransactionSubmitted store channelAddress reason tx w2)
        as [[[]|e] w3].
      * split; [ intros response w' H; now injection H as <- _ | ].
        intros t w' H. discriminate H.
      * split; [ destruct e as [?|?|? ?|[ | | ]]; intros response w' H; discriminate H | ].
        destruct e as [?|?|? ?|[ | | ]]; cbn [reads_message]; intros t w' H;
          try discriminate H; injection H as <- _.
        -- exists "Cannot read property 'message' of null", JsNull. now left.
        -- exists "Cannot read property 'message' of undefined", JsUndefined. now left.
        -- exists "", JsPlain. now right.
    + split; [ destruct e as [?|?|? ?|[ | | ]]; intros response w' H; discriminate H | ].
      destruct e as [?|?|? ?|[ | | ]]; cbn [reads_message]; intros t w' H;
        try discriminate H; injection H as <- _.
      * exists "Cannot read property 'message' of null", JsNull. now left.
      * exists "Cannot read property 'message' of undefined", JsUndefined. now left.
      * exists "", JsPlain. now right.
  - split; [ reflexivity | intros t w' H; discriminate H ].
  - split; [ destruct e as [?|?|? ?|[ | | ]]; reflexivity | ].
    destruct e as [?|?|? ?|[ | | ]]; cbn [reads_message]; intros t w' H;
      try discriminate H; injection H as <- _.
    + exists "Cannot read property 'message' of null", JsNull. now left.
    + exists "Cannot read property 'message' of undefined", JsUndefined. now left.
    + exists "", JsPlain. now right.
Qed.

Lemma sendTxLoop_returns_submission
    (channelAddress : string) (chainId : Z) (reason : string)
    (txFn : Eff W (option EthService.TransactionResponse)) (fuel : nat) :
  forall (attempt : Z) (errors : list ChainError)
         (r : Result (option EthService.TransactionResponse) ChainError) (w w' : W),
  0 < attempt ->
  EthService.sendTxLoop tbl store defaultRetries fuel attempt errors
    channelAddress chainId reason txFn w = (Normal (Some r), w') ->
  (exists w0, sendTxAndParseResponse channelAddress chainId reason txFn w0 = (Normal r, w'))
  /\ match r with Ok _ => True | Fail error => canRetry error = false end.
Proof.
  induction fuel as [|fuel IH]; intros attempt errors r w w' Hpos Hrun.
  - cbn in Hrun. unfold eret in Hrun. discriminate Hrun.
  - cbn [EthService.sendTxLoop] in Hrun.
    replace (attempt =? 0)%Z with false in Hrun by (symmetry; apply Z.eqb_neq; lia).
    cbn [negb] in Hrun. unfold ebind at 1 in Hrun.
    destruct (EthService.sendTxAndParseResponse tbl store channelAddress chainId reason
                txFn w) as [[[response|error]|e] w1] eqn:Hsend.
    + unfold eret in Hrun. injection Hrun as <- <-. split; [ eauto | exact I ].
    + destruct (canRetry error) eqn:Hretry; cbn [negb] in Hrun.
      * apply (IH (attempt + 1) _ _ _ _ ltac:(lia) Hrun).
      * unfold eret in Hrun. injection Hrun as <- <-. split; [ eauto | exact Hretry ].
    + discriminate Hrun.
Qed.

(** X13.  Whatever [sendTxWithRetries] returns is the result of its last
    submission: a success, or an error that is not worth a retry.  The
    FailedToSendTx error that follows the loop is never returned, whatever
    [defaultRetries] is. *)
Theorem sendTxWithRetries_returns_submission (fuel : nat)
    (channelAddress : string) (chainId : Z) (reason : string)
    (txFn : Eff W (option EthService.TransactionResponse))
    (r : Result (option EthService.TransactionResponse) ChainError) (w w' : W) :
  sendTxWithRetries fuel channelAddress chainId reason txFn w = (Normal (Some r), w') ->
  (exists w0, sendTxAndParseResponse channelAddress chainId reason txFn w0 = (Normal r, w'))
  /\ match r with Ok _ => True | Fail error => canRetry error = false end.
Proof.
  unfold EthService.sendTxWithRetries. intros Hrun.
  apply (sendTxLoop_returns_submission _ _ _ _ fuel 1 [] r w w'); [ lia | exact Hrun ].
Qed.

End SubmissionFacts.

(** ** utils.ts: getUpdatedChannelBalance *)

Section ChannelBalanceFacts.
Variable getAddress : string -> Completion string.

Local Abbreviation findIndexFrom := (ChannelBalance.findIndexFrom getAddress).
Local Abbreviation getUpdatedChannelBalance := (ChannelBalance.getUpdatedChannelBalance getAddress).

Lemma findIndexFrom_absent (assetId cs : string) (ids : list string) :
  forall i : nat,
  getAddress assetId = Normal cs ->
  (forall a, a ∈ ids -> exists ca, getAddress a = Normal ca /\ ca <> cs) ->
  findIndexFrom i ids assetId = Normal None.
Proof.
  induction ids as [|a ids IH]; intros i Hasset Hothers; [ reflexivity | ].
  cbn [ChannelBalance.findIndexFrom].
  destruct (Hothers a ltac:(left)) as (ca & Ha & Hne).
  rewrite Ha, Hasset. cbn [cbind].
  apply String.eqb_neq in Hne. rewrite Hne.
  apply IH; [ exact Hasset | ].
  intros b Hb. apply Hothers. now right.
Qed.

Lemma findIndexFrom_found (assetId cs a : string) (pre post : list string) :
  forall i : nat,
  getAddress assetId = Normal cs ->
  getAddress a = Normal cs ->
  (forall b, b ∈ pre -> exists cb, getAddress b = Normal cb /\ cb <> cs) ->
  findIndexFrom i (pre ++ a :: post) assetId = Normal (Some (i + length pre)%nat).
Proof.
  induction pre as [|b pre IH]; intros i Hasset Ha Hothers.
  - cbn [app ChannelBalance.findIndexFrom length]. rewrite Ha, Hasset. cbn [cbind].
    rewrite String.eqb_refl. do 2 f_equal. lia.
  - cbn [app ChannelBalance.findIndexFrom length].
    destruct (Hothers b ltac:(left)) as (cb & Hb & Hne).
    rewrite Hb, Hasset. cbn [cbind].
    apply String.eqb_neq in Hne. rewrite Hne.
    rewrite IH; [ do 2 f_equal; lia | exact Hasset | exact Ha | ].
    intros c Hc. apply Hothers. now right.
Qed.

(** X14.  An asset whose checksummed address differs from that of every
    asset of the channel is refused: the call throws and names the asset. *)
Theorem getUpdatedChannelBalance_unknown_asset (type : UpdateType) (assetId cs : string)
    (balanceToReconcile : Balance) (state : FullChannelState) (initiator : string) :
  getAddress assetId = Normal cs ->
  (forall a, a ∈ assetIds state -> exists ca, getAddress a = Normal ca /\ ca <> cs) ->
  getUpdatedChannelBalance type assetId balanceToReconcile state initiator
  = Throw (ErrorObj ("Asset id not found in channel " ++ assetId) false).
Proof.
  intros Hasset Hothers. unfold ChannelBalance.getUpdatedChannelBalance.
  now rewrite (findIndexFrom_absent assetId cs _ 0 Hasset Hothers).
Qed.

(** The amount of the transfer balance that goes with a participant: the
    first when the participant initiated the transfer, the second otherwise. *)
Local Abbreviation share initiator who t0 t1 :=
  (if String.eqb initiator who then t0 else t1).

Lemma getUpdatedChannelBalance_amounts (type : UpdateType) (assetId : string)
    (balanceToReconcile existing : Balance) (state : FullChannelState) (initiator : string)
    (idx : nat) (x0 x1 y0 y1 : string) (e0 e1 t0 t1 : Z) :
  findIndexFrom 0 (assetIds state) assetId = Normal (Some idx) ->
  balances state !! idx = Some existing ->
  amount existing = [x0; x1] ->
  amount balanceToReconcile = [y0; y1] ->
  BigNumber.parse x0 = Some e0 -> BigNumber.parse x1 = Some e1 ->
  BigNumber.parse y0 = Some t0 -> BigNumber.parse y1 = Some t1 ->
  getUpdatedChannelBalance type assetId balanceToReconcile state initiator
  = Normal {| to := to existing;
              amount :=
                [BigNumber.toString
                   (if decide (type = create)
                    then e0 - share initiator (alice state) t0 t1
                    else e0 + share initiator (alice state) t0 t1);
                 BigNumber.toString
                   (if decide (type = create)
                    then e1 - share initiator (bob state) t0 t1
                    else e1 + share initiator (bob state) t0 t1)] |}.
Proof.
  intros Hidx Hexisting Hx Hy Hx0 Hx1 Hy0 Hy1.
  unfold ChannelBalance.getUpdatedChannelBalance. rewrite Hidx. cbn [cbind].
  rewrite Hexisting. cbn [default from_option id]. rewrite Hx, Hy.
  unfold ChannelBalance.updateExistingAmount.
  change ([x0; x1] !! 0%nat) with (Some x0). change ([x0; x1] !! 1%nat) with (Some x1).
  change ([y0; y1] !! 0%nat) with (Some y0). change ([y0; y1] !! 1%nat) with (Some y1).
  rewrite (from_parsed _ _ Hx0), (from_parsed _ _ Hx1). cbn [cbind].
  destruct (String.eqb initiator (alice state)), (String.eqb initiator (bob state));
    rewrite ?(from_parsed _ _ Hy0), ?(from_parsed _ _ Hy1); cbn [cbind]; reflexivity.
Qed.

(** X15.  Reconciling a transfer balance with the channel balance of its
    asset keeps the participants of the channel balance and moves each
    amount by the share of its participant: the first transfer amount for
    the initiator, the second for the other one.  A create takes the shares
    out of the channel, any other type puts them in. *)
Theorem getUpdatedChannelBalance_moves_shares (type : UpdateType) (assetId : string)
    (balanceToReconcile existing : Balance) (state : FullChannelState) (initiator : string)
    (idx : nat) (x0 x1 y0 y1 : string) (e0 e1 t0 t1 : Z) :
  findIndexFrom 0 (assetIds state) assetId = Normal (Some idx) ->
  balances state !! idx = Some existing ->
  amount existing = [x0; x1] ->
  amount balanceToReconcile = [y0; y1] ->
  BigNumber.parse x0 = Some e0 -> BigNumber.parse x1 = Some e1 ->
  BigNumber.parse y0 = Some t0 -> BigNumber.parse y1 = Some t1 ->
  exists r,
    getUpdatedChannelBalance type assetId balanceToReconcile state initiator = Normal r
    /\ to r = to existing
    /\ BigNumber.parse <$> amount r
       = [Some (if decide (type = create)
                then e0 - share initiator (alice state) t0 t1
                else e0 + share initiator (alice state) t0 t1);
          Some (if decide (type = create)
                then e1 - share initiator (bob state) t0 t1
                else e1 + share initiator (bob state) t0 t1)].
Proof.
  intros Hidx Hexisting Hx Hy Hx0 Hx1 Hy0 Hy1.
  eexists. split; [ | split ].
  - eapply getUpdatedChannelBalance_amounts; eassumption.
  - reflexivity.
  - cbn [amount fmap list_fmap]. now rewrite !parse_toString.
Qed.

(** X16.  What a create takes out of a channel balance, a resolve of the
    same total puts back: when the initiator is one of two distinct
    participants, creating a transfer and then resolving it with a balance
    of the same total leaves the total of the channel balance where it was,
    however the resolve divides it. *)
Theorem create_then_resolve_keeps_total (assetId : string)
    (created resolved existing : Balance) (state : FullChannelState) (initiator : string)
    (idx : nat) (x0 x1 y0 y1 z0 z1 : string) (e0 e1 t0 t1 u0 u1 : Z) :
  findIndexFrom 0 (assetIds state) assetId = Normal (Some idx) ->
  balances state !! idx = Some existing ->
  alice state <> bob state ->
  initiator = alice state \/ initiator = bob state ->
  amount existing = [x0; x1] -> amount created = [y0; y1] -> amount resolved = [z0; z1] ->
  BigNumber.parse x0 = Some e0 -> BigNumber.parse x1 = Some e1 ->
  BigNumber.parse y0 = Some t0 -> BigNumber.parse y1 = Some t1 ->
  BigNumber.parse z0 = Some u0 -> BigNumber.parse z1 = Some u1 ->
  t0 + t1 = u0 + u1 ->
  exists afterCreate afterResolve a0 a1,
    getUpdatedChannelBalance create assetId created state initiator = Normal afterCreate
    /\ getUpdatedChannelBalance resolve assetId resolved
         (ChannelBalance.withBalances state (<[idx := afterCreate]> (balances state)))
         initiator = Normal afterResolve
    /\ to afterResolve = to existing
    /\ BigNumber.parse <$> amount afterResolve = [Some a0; Some a1]
    /\ a0 + a1 = e0 + e1.
Proof.
  intros Hidx Hexisting Hdistinct Hrole Hx Hy Hz Hx0 Hx1 Hy0 Hy1 Hz0 Hz1 Htotal.
  pose proof (getUpdatedChannelBalance_amounts create assetId created existing state
                initiator idx x0 x1 y0 y1 e0 e1 t0 t1
                Hidx Hexisting Hx Hy Hx0 Hx1 Hy0 Hy1) as Hcreate.
  eexists _, _, _, _. split; [ exact Hcreate | ].
  split; [ | split; [ | split ] ].
  - eapply (getUpdatedChannelBalance_amounts resolve assetId resolved)
      with (idx := idx) (y0 := z0) (y1 := z1) (t0 := u0) (t1 := u1);
      cbn [ChannelBalance.withBalances assetIds balances alice bob amount to].
    + exact Hidx.
    + apply list_lookup_insert_eq. eapply lookup_lt_Some; eassumption.
    + reflexivity.
    + exact Hz.
    + apply parse_toString.
    + apply parse_toString.
    + exact Hz0.
    + exact Hz1.
  - reflexivity.
  - cbn [amount fmap list_fmap]. rewrite !parse_toString. reflexivity.
  - cbn [ChannelBalance.withBalances alice bob].
    destruct (decide (create = create)) as [_|Hne]; [ | now destruct Hne ].
    destruct (decide (resolve = create)) as [Heq|_]; [ discriminate Heq | ].
    destruct Hrole as [-> | ->].
    + rewrite String.eqb_refl.
      apply String.eqb_neq in Hdistinct. rewrite Hdistinct. lia.
    + rewrite String.eqb_refl.
      assert (String.eqb (bob state) (alice state) = false) as ->
        by (apply String.eqb_neq; congruence).
      lia.
Qed.

End ChannelBalanceFacts.

(** ** utils.ts: mergeAssetIds on a channel without duplicates *)

Lemma js_set_end {A} (arr : JsArray A) (idx : nat) (v : option A) :
  length arr = idx -> js_set arr idx v = (arr ++ [v])%list.
Proof.
  intros <-. unfold js_set. rewrite Nat.ltb_irrefl, Nat.sub_diag. reflexivity.
Qed.

Lemma filter_nothing {A} (f : A -> bool) (l : list A) :
  (forall x, In x l -> f x = false) -> List.filter f l = [].
Proof.
  induction l as [|x l IH]; intros Hall; [ reflexivity | ].
  cbn [List.filter]. rewrite (Hall x (or_introl eq_refl)).
  apply IH. intros y Hy. apply Hall. now right.
Qed.

Lemma duplicatesOf_none (ids : list string) (asset : string) (idx : nat) :
  NoDup (toLowerCase <$> ids) ->
  ids !! idx = Some asset ->
  Utils.duplicatesOf ids asset idx = [].
Proof.
  intros Hnodup Hasset. unfold Utils.duplicatesOf.
  rewrite filter_nothing; [ reflexivity | ].
  intros [i b] Hin. cbn [fst snd].
  apply list_elem_of_In, elem_of_lookup_imap_1 in Hin.
  destruct Hin as (j & c & Heq & Hj). injection Heq as -> ->.
  destruct (String.eqb (toLowerCase c) (toLowerCase asset)) eqn:Hsame; [ | reflexivity ].
  apply String.eqb_eq in Hsame. cbn [andb].
  assert (j = idx) as ->.
  { eapply (NoDup_lookup _ _ _ (toLowerCase asset) Hnodup);
      rewrite list_lookup_fmap.
    - now rewrite Hj, <- Hsame.
    - now rewrite Hasset. }
  now rewrite Nat.eqb_refl.
Qed.

Section MergeWithoutDuplicates.
Variable getAddress : string -> Completion string.
Variable checksum : string -> string.
Variable channel : FullChannelState.

(** The arrays after the first [k] assets of a channel without duplicates. *)
Local Abbreviation copied k :=
  {| Utils.m_assetIds := (fun a => Some (checksum a)) <$> take k (assetIds channel);
     Utils.m_processedDepositsA := (fun i => processedDepositsA channel !! i) <$> seq 0 k;
     Utils.m_processedDepositsB := (fun i => processedDepositsB channel !! i) <$> seq 0 k;
     Utils.m_balances := (fun i => balances channel !! i) <$> seq 0 k;
     Utils.m_defundNonces := (fun i => defundNonces channel !! i) <$> seq 0 k |}.

Lemma mergeStep_copies (asset : string) (k : nat) :
  NoDup (toLowerCase <$> assetIds channel) ->
  assetIds channel !! k = Some asset ->
  getAddress asset = Normal (checksum asset) ->
  Utils.mergeStep getAddress channel (copied k) asset k = Normal (copied (S k)).
Proof.
  intros Hnodup Hasset Hsum. unfold Utils.mergeStep.
  rewrite (duplicatesOf_none _ _ _ Hnodup Hasset), Hsum.
  cbn [cbind length Nat.eqb Utils.m_assetIds Utils.m_processedDepositsA
       Utils.m_processedDepositsB Utils.m_balances Utils.m_defundNonces].
  rewrite !js_set_end.
  - rewrite (take_S_r _ _ _ Hasset), seq_S, !fmap_app. reflexivity.
  - now rewrite length_fmap, length_seq.
  - now rewrite length_fmap, length_seq.
  - now rewrite length_fmap, length_seq.
  - now rewrite length_fmap, length_seq.
  - rewrite length_fmap, length_take. apply lookup_lt_Some in Hasset. lia.
Qed.

Lemma mergeLoop_copies (suffix : list string) :
  forall prefix : list string,
  assetIds channel = (prefix ++ suffix)%list ->
  NoDup (toLowerCase <$> assetIds channel) ->
  (forall a, a ∈ assetIds channel -> getAddress a = Normal (checksum a)) ->
  Utils.js_reduce_from (Utils.mergeStep getAddress channel) (length prefix) suffix
    (copied (length prefix))
  = Normal (copied (length (assetIds channel))).
Proof.
  induction suffix as [|asset suffix IH]; intros prefix Hids Hnodup Hsum.
  - cbn [Utils.js_reduce_from]. rewrite Hids, app_nil_r. reflexivity.
  - cbn [Utils.js_reduce_from].
    assert (assetIds channel !! length prefix = Some asset) as Hasset.
    { rewrite Hids. now rewrite list_lookup_middle. }
    rewrite (mergeStep_copies asset (length prefix) Hnodup Hasset).
    + cbn [cbind].
      replace (S (length prefix)) with (length (prefix ++ [asset])%list)
        by (rewrite length_app; cbn; lia).
      apply IH; [ | exact Hnodup | exact Hsum ].
      now rewrite <- app_assoc.
    + apply Hsum. eapply list_elem_of_lookup_2. exact Hasset.
Qed.

(** X17.  On a channel in which no two asset ids are the same up to case,
    merging changes nothing but the spelling of the asset ids: the asset
    ids come back checksummed and in their order, and every other array
    holds, at each index of an asset, the channel's own entry at that
    index (none where the channel's array is shorter). *)
Theorem mergeAssetIds_without_duplicates :
  NoDup (toLowerCase <$> assetIds channel) ->
  (forall a, a ∈ assetIds channel -> getAddress a = Normal (checksum a)) ->
  Utils.mergeAssetIds getAddress channel
  = Normal (Utils.mkMergedChannel channel
      {| Utils.m_assetIds := (fun a => Some (checksum a)) <$> assetIds channel;
         Utils.m_processedDepositsA :=
           (fun i => processedDepositsA channel !! i) <$> seq 0 (length (assetIds channel));
         Utils.m_processedDepositsB :=
           (fun i => processedDepositsB channel !! i) <$> seq 0 (length (assetIds channel));
         Utils.m_balances :=
           (fun i => balances channel !! i) <$> seq 0 (length (assetIds channel));
         Utils.m_defundNonces :=
           (fun i => defundNonces channel !! i) <$> seq 0 (length (assetIds channel)) |}).
Proof.
  intros Hnodup Hsum. unfold Utils.mergeAssetIds, Utils.js_reduce.
  pose proof (mergeLoop_copies (assetIds channel) [] eq_refl Hnodup Hsum) as Hloop.
  change (length (@nil string)) with 0%nat in Hloop.
  rewrite take_0 in Hloop. cbn [seq fmap list_fmap] in Hloop.
  rewrite Hloop. cbn [cbind]. now rewrite firstn_all.
Qed.

End MergeWithoutDuplicates.

(** ** ethReader.ts: reads inside reads *)

Lemma afterCalls_add {W A} (f : Eff W A) (a b : nat) :
  forall w : W,
  EthReader.afterCalls (a + b) f w = EthReader.afterCalls b f (EthReader.afterCalls a f w).
Proof.
  induction a as [|a IH]; intros w; [ reflexivity | ].
  cbn [Nat.add EthReader.afterCalls]. apply IH.
Qed.

Lemma afterCalls_ext {W A B} (f : Eff W A) (g : Eff W B) (n : nat) :
  (forall w, snd (f w) = snd (g w)) ->
  forall w : W, EthReader.afterCalls n f w = EthReader.afterCalls n g w.
Proof.
  intros Hsame. induction n as [|n IH]; intros w; [ reflexivity | ].
  cbn [EthReader.afterCalls]. rewrite Hsame. apply IH.
Qed.

Lemma afterCalls_mul {W A B} (outer : Eff W A) (inner : Eff W B) (k n : nat) :
  (forall w, snd (outer w) = EthReader.afterCalls k inner w) ->
  forall w : W, EthReader.afterCalls n outer w = EthReader.afterCalls (n * k) inner w.
Proof.
  intros Hstep. induction n as [|n IH]; intros w; [ reflexivity | ].
  cbn [EthReader.afterCalls Nat.mul]. rewrite afterCalls_add, Hstep. apply IH.
Qed.

Section NestedReads.
Context {W : Type}.
Variable tbl : ChainErrorTable.
Variable ETH_READER_MAX_RETRIES : Z.
Variable chainProviders : gmap Z (EthReader.JsonRpcProvider W).

Local Abbreviation retryWrapper := (EthReader.retryWrapper tbl ETH_READER_MAX_RETRIES chainProviders).
Local Abbreviation getCode := (EthReader.getCode tbl ETH_READER_MAX_RETRIES chainProviders).
Local Abbreviation getTotalDepositedA :=
  (EthReader.getTotalDepositedA tbl ETH_READER_MAX_RETRIES chainProviders).
Local Abbreviation getTotalDepositedB :=
  (EthReader.getTotalDepositedB tbl ETH_READER_MAX_RETRIES chainProviders).
Local Abbreviation attempts := (Z.to_nat (Z.max 1 ETH_READER_MAX_RETRIES)).

Lemma retryLoop_all_fail {T} (target : Eff W (Result T ChainError)) (todo : nat) :
  (forall w, exists e, fst (target w) = Normal (Fail e)) ->
  forall (e0 : ChainError) (errors : list string) (w : W),
  exists e errors',
    EthReader.retryLoop todo target (Fail e0) errors w
    = (Normal (Fail e, errors'), EthReader.afterCalls todo target w).
Proof.
  intros Hfail. induction todo as [|todo IH]; intros e0 errors w.
  - exists e0, errors. reflexivity.
  - cbn [EthReader.retryLoop EthReader.afterCalls]. unfold ebind.
    destruct (Hfail w) as [e He]. destruct (target w) as [c w1]. cbn [fst snd] in *.
    subst c. apply IH.
Qed.

(** A wrapped call that fails whenever it is made is made
    [max 1 ETH_READER_MAX_RETRIES] times and ends in the error of the
    wrapper. *)
Lemma retryWrapper_all_fail {T} (chainId : Z) (provider : EthReader.JsonRpcProvider W)
    (targetMethod : EthReader.JsonRpcProvider W -> Eff W (Result T ChainError)) :
  chainProviders !! chainId = Some provider ->
  (forall w, exists e, fst (targetMethod provider w) = Normal (Fail e)) ->
  forall w : W,
  exists errors,
    retryWrapper chainId targetMethod w
    = (Normal (Fail (newChainError tbl "Could not execute rpc method" errors)),
       EthReader.afterCalls attempts (targetMethod provider) w).
Proof.
  intros Hp Hfail w. unfold EthReader.retryWrapper. rewrite Hp. unfold ebind at 1.
  replace attempts with (S (Z.to_nat (ETH_READER_MAX_RETRIES - 1))) by lia.
  cbn [EthReader.afterCalls].
  destruct (Hfail w) as [e0 He0].
  destruct (targetMethod provider w) as [c w1]. cbn [fst snd] in *. subst c.
  destruct (retryLoop_all_fail (targetMethod provider)
              (Z.to_nat (ETH_READER_MAX_RETRIES - 1)) Hfail e0 [ce_message e0] w1)
    as (e & errors & Hloop).
  unfold ebind. rewrite Hloop. exists errors. reflexivity.
Qed.

(** X18.  A read that reads the code first retries a read that has already
    been retried: against a node whose code reads all throw, the total
    deposits of Alice and of Bob each fail with the error of the wrapper
    only after [max 1 ETH_READER_MAX_RETRIES] squared reads of the code. *)
Theorem failing_code_read_is_retried_squared (channelAddress assetId : string) (chainId : Z)
    (provider : EthReader.JsonRpcProvider W) (w : W) :
  chainProviders !! chainId = Some provider ->
  (forall w, exists e, fst (EthReader.provider_getCode provider channelAddress w) = Throw e) ->
  (exists errors,
     getTotalDepositedA channelAddress chainId assetId w
     = (Normal (Fail (newChainError tbl "Could not execute rpc method" errors)),
        EthReader.afterCalls (attempts * attempts)
          (EthReader.provider_getCode provider channelAddress) w))
  /\ (exists errors,
        getTotalDepositedB channelAddress chainId assetId w
        = (Normal (Fail (newChainError tbl "Could not execute rpc method" errors)),
           EthReader.afterCalls (attempts * attempts)
             (EthReader.provider_getCode provider channelAddress) w)).
Proof.
  intros Hp Hthrows.
  set (read := fun p : EthReader.JsonRpcProvider W =>
         ecatch (ebind (EthReader.provider_getCode p channelAddress)
                       (fun code => eret (Ok code : Result string ChainError)))
                (fun e => eret (Fail (caught e)))).
  assert (forall w, exists e, fst (read provider w) = Normal (Fail e)) as Hread.
  { intros w0. unfold read, ecatch, ebind, eret.
    destruct (Hthrows w0) as [e He].
    destruct (EthReader.provider_getCode provider channelAddress w0) as [c w1].
    cbn [fst] in He. subst c. eauto. }
  assert (forall w, snd (read provider w)
                    = snd (EthReader.provider_getCode provider channelAddress w)) as Hsnd.
  { intros w0. unfold read, ecatch, ebind, eret.
    destruct (EthReader.provider_getCode provider channelAddress w0) as [[c|e] w1];
      reflexivity. }
  assert (forall w, exists errors,
            getCode channelAddress chainId w
            = (Normal (Fail (newChainError tbl "Could not execute rpc method" errors)),
               EthReader.afterCalls attempts
                 (EthReader.provider_getCode provider channelAddress) w)) as Hcode.
  { intros w0.
    destruct (retryWrapper_all_fail chainId provider read Hp Hread w0) as [errors Hrun].
    exists errors. unfold EthReader.getCode. fold read. rewrite Hrun. f_equal.
    now apply afterCalls_ext. }
  assert (forall (T : Type)
                 (targetMethod : EthReader.JsonRpcProvider W -> Eff W (Result T ChainError)),
            (forall w, exists e,
                targetMethod provider w
                = (Normal (Fail e),
                   EthReader.afterCalls attempts
                     (EthReader.provider_getCode provider channelAddress) w)) ->
            exists errors,
              retryWrapper chainId targetMethod w
              = (Normal (Fail (newChainError tbl "Could not execute rpc method" errors)),
                 EthReader.afterCalls (attempts * attempts)
                   (EthReader.provider_getCode provider channelAddress) w)) as Houter.
  { intros T targetMethod Htarget.
    destruct (retryWrapper_all_fail chainId provider targetMethod Hp) with (w := w)
      as [errors Hrun].
    - intros w0. destruct (Htarget w0) as [e He]. exists e. now rewrite He.
    - exists errors. rewrite Hrun. f_equal.
      apply afterCalls_mul. intros w0. destruct (Htarget w0) as [e He]. now rewrite He. }
  split.
  - apply Houter. intros w0. destruct (Hcode w0) as [errors Hrun].
    eexists. unfold ebind. rewrite Hrun. reflexivity.
  - apply Houter. intros w0. destruct (Hcode w0) as [errors Hrun].
    eexists. unfold ebind. rewrite Hrun. reflexivity.
Qed.

Lemma retryLoop_same_failure {T} (target : Eff W (Result T ChainError)) (todo : nat)
    (m : string) :
  (forall w, exists e, fst (target w) = Normal (Fail e) /\ ce_message e = m) ->
  forall (e0 : ChainError) (errors : list string) (w : W),
  exists e w',
    EthReader.retryLoop todo target (Fail e0) errors w
    = (Normal (Fail e, (errors ++ repeat m todo)%list), w').
Proof.
  intros Hfail. induction todo as [|todo IH]; intros e0 errors w.
  - exists e0, w. cbn. now rewrite app_nil_r.
  - cbn [EthReader.retryLoop]. unfold ebind.
    destruct (Hfail w) as (e & He & Hm). destruct (target w) as [c w1].
    cbn [fst snd] in *. subst c.
    destruct (IH e (errors ++ [ce_message e])%list w1) as (e' & w' & Hloop).
    exists e', w'. rewrite Hloop, Hm, <- app_assoc. reflexivity.
Qed.

(** X27.  A dispute record without a defund nonce cannot be reported: for a
    deployed channel whose contract always answers with such a record, whose
    state hash is not the zero hash, every attempt throws while building the
    result, the throw is caught and retried, and the read fails with the
    error of the wrapper, which lists that one message once per attempt. *)
Theorem getChannelDispute_without_defundNonce
    (vectorChannel : string -> EthReader.JsonRpcProvider W ->
                     ChannelReads.VectorChannelContract W)
    (channelAddress : string) (chainId : Z) (provider : EthReader.JsonRpcProvider W)
    (code : string) (w : W) :
  chainProviders !! chainId = Some provider ->
  code <> "0x" ->
  (forall w, fst (getCode channelAddress chainId w) = Normal (Ok code)) ->
  (forall w, exists dispute,
      fst (ChannelReads.contract_getChannelDispute
             (vectorChannel channelAddress provider) w) = Normal dispute
      /\ ChannelReads.d_channelStateHash dispute <> ChannelReads.HashZero
      /\ ChannelReads.d_defundNonce dispute = None) ->
  fst (ChannelReads.getChannelDispute tbl ETH_READER_MAX_RETRIES chainProviders
         vectorChannel channelAddress chainId w)
  = Normal (Fail (newChainError tbl "Could not execute rpc method"
                    (repeat "Cannot read property 'toString' of undefined" attempts))).
Proof.
  intros Hp Hdeployed Hcode Hdispute.
  unfold ChannelReads.getChannelDispute.
  match goal with
  | |- fst (EthReader.retryWrapper _ _ _ _ ?f _) = _ => set (read := f)
  end.
  assert (forall w, exists e,
            fst (read provider w) = Normal (Fail e)
            /\ ce_message e = "Cannot read property 'toString' of undefined") as Hread.
  { intros w0. unfold read, ecatch, ebind, eret, ethrow.
    specialize (Hcode w0).
    destruct (getCode channelAddress chainId w0) as [c w1]. cbn [fst] in Hcode. subst c.
    apply String.eqb_neq in Hdeployed. rewrite Hdeployed.
    destruct (Hdispute w1) as (dispute & Hcall & Hhash & Hnonce).
    destruct (ChannelReads.contract_getChannelDispute _ w1) as [c w2].
    cbn [fst] in Hcall. subst c.
    apply String.eqb_neq in Hhash. rewrite Hhash, Hnonce.
    eexists. split; reflexivity. }
  unfold EthReader.retryWrapper. rewrite Hp. unfold ebind at 1.
  destruct (Hread w) as (e0 & He0 & Hm0).
  destruct (read provider w) as [c w1]. cbn [fst] in He0. subst c.
  destruct (retryLoop_same_failure (read provider)
              (Z.to_nat (ETH_READER_MAX_RETRIES - 1)) _ Hread e0 [ce_message e0] w1)
    as (e & w' & Hloop).
  unfold ebind. rewrite Hloop. unfold eret. cbn [fst]. rewrite Hm0.
  replace attempts with (S (Z.to_nat (ETH_READER_MAX_RETRIES - 1))) by lia.
  reflexivity.
Qed.

End NestedReads.

(** ** ethReader.ts: the transfer registry *)

Section RegistryFacts.
Context {W : Type}.
Variable tbl : ChainErrorTable.
Variable ETH_READER_MAX_RETRIES : Z.
Variable chainProviders : gmap Z (EthReader.JsonRpcProvider (Registry.Reader W)).
Variable TransferNotRegistered : string.
Variable tidy : string -> string.
Variable evmTransferDefinitions : string -> option (list Registry.RegisteredTransfer).
Variable registry_getTransferDefinitions :
  string -> EthReader.JsonRpcProvider (Registry.Reader W) ->
  Eff W (list Registry.RegisteredTransfer).

Local Abbreviation retryWrapper := (EthReader.retryWrapper tbl ETH_READER_MAX_RETRIES chainProviders).
Local Abbreviation loadRegistry :=
  (Registry.loadRegistry tbl ETH_READER_MAX_RETRIES chainProviders tidy
     evmTransferDefinitions registry_getTransferDefinitions).
Local Abbreviation registryOrLoad :=
  (Registry.registryOrLoad tbl ETH_READER_MAX_RETRIES chainProviders tidy
     evmTransferDefinitions registry_getTransferDefinitions).
Local Abbreviation getRegisteredTransferByName :=
  (Registry.getRegisteredTransferByName tbl ETH_READER_MAX_RETRIES chainProviders
     TransferNotRegistered tidy evmTransferDefinitions registry_getTransferDefinitions).
Local Abbreviation getRegisteredTransfers :=
  (Registry.getRegisteredTransfers tbl ETH_READER_MAX_RETRIES chainProviders tidy
     evmTransferDefinitions registry_getTransferDefinitions).
Local Abbreviation attempts := (Z.to_nat (Z.max 1 ETH_READER_MAX_RETRIES)).

Lemma retryLoop_ok_from_target {S T} (target : Eff S (Result T ChainError)) (todo : nat) :
  forall (e0 : ChainError) (errors errors' : list string) (v : T) (s s' : S),
  EthReader.retryLoop todo target (Fail e0) errors s = (Normal (Ok v, errors'), s') ->
  exists s0, target s0 = (Normal (Ok v), s').
Proof.
  induction todo as [|todo IH]; intros e0 errors errors' v s s' Hrun.
  - cbn in Hrun. unfold eret in Hrun. discriminate Hrun.
  - cbn [EthReader.retryLoop] in Hrun. unfold ebind in Hrun.
    destruct (target s) as [[[v1|e1]|e1] s1] eqn:Hcall.
    + unfold eret in Hrun. injection Hrun as <- _ <-. eauto.
    + eapply IH. exact Hrun.
    + discriminate Hrun.
Qed.

(** The value of a successful wrapped call is the value of one of its
    attempts, and the world is the one that attempt left. *)
Lemma retryWrapper_ok_from_target {S T} (providers : gmap Z (EthReader.JsonRpcProvider S))
    (chainId : Z) (targetMethod : EthReader.JsonRpcProvider S -> Eff S (Result T ChainError))
    (v : T) (s s' : S) :
  EthReader.retryWrapper tbl ETH_READER_MAX_RETRIES providers chainId targetMethod s
  = (Normal (Ok v), s') ->
  exists provider s0,
    providers !! chainId = Some provider
    /\ targetMethod provider s0 = (Normal (Ok v), s').
Proof.
  unfold EthReader.retryWrapper.
  destruct (providers !! chainId) as [provider|]; [ | unfold eret; intros H; discriminate H ].
  unfold ebind at 1.
  destruct (targetMethod provider s) as [[[v1|e1]|e1] s1] eqn:Hcall.
  - unfold eret. intros H. injection H as <- <-. eauto.
  - unfold ebind.
    destruct (EthReader.retryLoop _ _ _ _ s1) as [[[[v2|e2] errors]|ex] s2] eqn:Hloop;
      unfold eret; intros H; try discriminate H.
    injection H as <- <-.
    destruct (retryLoop_ok_from_target _ _ _ _ _ _ _ _ Hloop) as [s0 Hs0]. eauto.
  - intros H. discriminate H.
Qed.

Lemma loadRegistry_sets (transferRegistry : string) (chainId : Z) (bytecode : option string)
    (registry : list Registry.RegisteredTransfer) (s s' : Registry.Reader W) :
  loadRegistry transferRegistry chainId bytecode s = (Normal (Ok registry), s') ->
  Registry.transferRegistries s' !! chainId = Some registry.
Proof.
  intros Hrun. unfold Registry.loadRegistry in Hrun.
  apply retryWrapper_ok_from_target in Hrun. destruct Hrun as (provider & s0 & _ & Hrun).
  unfold ebind, ecatch, eret, Registry.setRegistry, Registry.onChain in Hrun.
  repeat split_call; close_run; cbn [Registry.transferRegistries];
    apply lookup_insert_eq.
Qed.

Lemma registryOrLoad_keeps (transferRegistry : string) (chainId : Z) (bytecode : option string)
    (registry : list Registry.RegisteredTransfer) (s s' : Registry.Reader W) :
  registryOrLoad transferRegistry chainId bytecode s = (Normal (Ok registry), s') ->
  Registry.transferRegistries s' !! chainId = Some registry.
Proof.
  unfold Registry.registryOrLoad, Registry.registryOf, ebind.
  destruct (Registry.transferRegistries s !! chainId) as [cached|] eqn:Hcached.
  - unfold eret. intros H. injection H as <- <-. exact Hcached.
  - apply loadRegistry_sets.
Qed.

(** X19.  A transfer found by name comes from the registry the reader holds
    for the chain when the call returns: a successful lookup has loaded the
    registry if it was not loaded, and the transfer it returns is an entry
    of it with the name asked for. *)
Theorem getRegisteredTransferByName_from_kept_registry (name transferRegistry : string)
    (chainId : Z) (bytecode : option string) (info : Registry.RegisteredTransfer)
    (s s' : Registry.Reader W) :
  getRegisteredTransferByName name transferRegistry chainId bytecode s
  = (Normal (Ok info), s') ->
  Registry.rt_name info = name
  /\ exists registry,
       Registry.transferRegistries s' !! chainId = Some registry
       /\ In info registry.
Proof.
  intros Hrun. unfold Registry.getRegisteredTransferByName in Hrun.
  apply retryWrapper_ok_from_target in Hrun. destruct Hrun as (provider & s0 & _ & Hrun).
  unfold ebind in Hrun.
  destruct (Registry.registryOrLoad _ _ _ _ _ _ _ _ _ s0) as [[[registry|e]|e] s1] eqn:Hload;
    try (unfold eret in Hrun; discriminate Hrun).
  destruct (find _ registry) as [found|] eqn:Hfind;
    unfold eret in Hrun; [ | discriminate Hrun ].
  injection Hrun as <- <-.
  apply find_some in Hfind. destruct Hfind as [Hin Hname].
  split; [ now apply String.eqb_eq | ].
  exists registry. split; [ | exact Hin ].
  eapply registryOrLoad_keeps. exact Hload.
Qed.

Lemma retryLoop_stuck {S T} (target : Eff S (Result T ChainError)) (e : ChainError) (s : S)
    (todo : nat) :
  target s = (Normal (Fail e), s) ->
  forall (e0 : ChainError) (errors : list string),
  exists e1,
    EthReader.retryLoop todo target (Fail e0) errors s
    = (Normal (Fail e1, (errors ++ replicate todo (ce_message e))%list), s).
Proof.
  intros Hcall. induction todo as [|todo IH]; intros e0 errors.
  - exists e0. cbn. now rewrite app_nil_r.
  - cbn [EthReader.retryLoop]. unfold ebind. rewrite Hcall.
    destruct (IH e (errors ++ [ce_message e])%list) as [e1 Hrun].
    exists e1. rewrite Hrun. now rewrite <- app_assoc.
Qed.

(** X20.  Once the registry of a chain is loaded, it answers every query
    for that chain without a call, whatever registry address and bytecode
    the query names: the list of transfers is the loaded one, a name in it
    is found, and a name that is not in it is looked up
    [max 1 ETH_READER_MAX_RETRIES] times and reported with the error of the
    wrapper, not with TransferNotRegistered. *)
Theorem loaded_registry_answers (transferRegistry : string) (chainId : Z)
    (bytecode : option string) (provider : EthReader.JsonRpcProvider (Registry.Reader W))
    (registry : list Registry.RegisteredTransfer) (s : Registry.Reader W) (name : string) :
  chainProviders !! chainId = Some provider ->
  Registry.transferRegistries s !! chainId = Some registry ->
  getRegisteredTransfers transferRegistry chainId bytecode s = (Normal (Ok registry), s)
  /\ match find (fun r => String.eqb (Registry.rt_name r) name) registry with
     | Some info =>
       getRegisteredTransferByName name transferRegistry chainId bytecode s
       = (Normal (Ok info), s)
     | None =>
       getRegisteredTransferByName name transferRegistry chainId bytecode s
       = (Normal (Fail (newChainError tbl "Could not execute rpc method"
                          (replicate attempts TransferNotRegistered))), s)
     end.
Proof.
  intros Hp Hcached.
  assert (registryOrLoad transferRegistry chainId bytecode s = (Normal (Ok registry), s))
    as Hload.
  { unfold Registry.registryOrLoad, Registry.registryOf, ebind. now rewrite Hcached. }
  split.
  - unfold Registry.getRegisteredTransfers, EthReader.retryWrapper. rewrite Hp.
    unfold ebind at 1. unfold ebind at 1. rewrite Hload. reflexivity.
  - unfold Registry.getRegisteredTransferByName, EthReader.retryWrapper. rewrite Hp.
    destruct (find _ registry) as [info|] eqn:Hfind.
    + unfold ebind at 1. unfold ebind at 1. rewrite Hload, Hfind. reflexivity.
    + set (target := ebind (registryOrLoad transferRegistry chainId bytecode) _).
      assert (target s = (Normal (Fail (newChainError tbl TransferNotRegistered [])), s))
        as Htarget.
      { unfold target, ebind. rewrite Hload, Hfind. reflexivity. }
      unfold ebind at 1. rewrite Htarget.
      destruct (retryLoop_stuck target _ s (Z.to_nat (ETH_READER_MAX_RETRIES - 1)) Htarget
                  (newChainError tbl TransferNotRegistered []) [TransferNotRegistered])
        as [e1 Hloop].
      cbn [newChainError ce_message] in Hloop |- *. unfold ebind. rewrite Hloop.
      unfold eret. do 3 f_equal.
      replace attempts with (S (Z.to_nat (ETH_READER_MAX_RETRIES - 1))) by lia.
      reflexivity.
Qed.

End RegistryFacts.

(** ** paramConverter.ts: withdrawals *)

Section WithdrawFacts.
Context {W E : Type}.
Variable getAddress : string -> Completion string.
Variable hashToSign : ParamConverter.WithdrawCommitment -> string.
Variable DEFAULT_FEE_EXPIRY : Z.
Variable DEFAULT_TRANSFER_TIMEOUT : Z.
Variable TransferNames_Withdraw : string.
Variable now : Eff W Z.
Variable getRegisteredTransferByName :
  string -> string -> Z -> Eff W (Result Registry.RegisteredTransfer ChainError).

Import ParamConverter.

Local Abbreviation convertWithdrawParams messaging :=
  (ParamConverter.convertWithdrawParams (E := E) getAddress hashToSign DEFAULT_FEE_EXPIRY
     DEFAULT_TRANSFER_TIMEOUT TransferNames_Withdraw now messaging
     getRegisteredTransferByName).

Ltac unfold_conversion H :=
  unfold ParamConverter.convertWithdrawParams, ebind, elift, ecatch, eret, ethrow in H;
  cbn [fst snd] in H.

(** X21.  A withdrawal that converts locks the whole amount and commits to
    the amount less the fee.  The recipient is not the zero address, Alice
    does not ask to submit herself, a withdrawal of "0" makes a call, and
    the fee is at most the amount; the transfer balance holds the amount as
    given for the checksummed recipient and "0" for the counterparty; the
    commitment that is signed, and the quote in the meta, carry the amount
    less the fee; the meta records the channel nonce and who submits,
    whatever meta was given. *)
Theorem convertWithdrawParams_commits_amount_less_fee
    (sendWithdrawalQuoteMessage :
       WithdrawalQuoteRequest -> string -> string -> Eff W (Result WithdrawalQuote E))
    (params : WithdrawParams) (signer : IChannelSigner W) (channel : FullChannelState)
    (chainAddresses : gmap Z ChainAddress) (r : CreateTransferParams) (w w' : W) :
  convertWithdrawParams sendWithdrawalQuoteMessage params signer channel chainAddresses w
  = (Normal (Ok r), w') ->
  exists (assetId recipient : string) (whole fee : Z) (quote : WithdrawalQuote),
    getAddress (w_assetId params) = Normal assetId
    /\ getAddress (w_recipient params) = Normal recipient
    /\ recipient <> EthReader.AddressZero
    /\ ~ (w_initiatorSubmits params = Some true /\ address signer = alice channel)
    /\ (w_amount params = "0" ->
        exists callTo, w_callTo params = Some callTo
                       /\ callTo <> "" /\ callTo <> EthReader.AddressZero)
    /\ BigNumber.parse (w_amount params) = Some whole
    /\ BigNumber.parse (ws_fee (transferInitialState r)) = Some fee
    /\ fee <= whole
    /\ ct_assetId r = assetId
    /\ ct_balance r
       = {| to := [recipient;
                   if String.eqb (alice channel) (address signer)
                   then bob channel else alice channel];
            amount := [w_amount params; "0"] |}
    /\ data (transferInitialState r)
       = hashToSign {| wc_channelAddress := channelAddress channel;
                       wc_alice := alice channel;
                       wc_bob := bob channel;
                       wc_recipient := w_recipient params;
                       wc_assetId := assetId;
                       wc_amount := BigNumber.toString (whole - fee);
                       wc_nonce := BigNumber.toString (nonce channel);
                       wc_callTo := w_callTo params;
                       wc_callData := w_callData params |}
    /\ ct_meta r !! "quote" = Some (MetaQuote quote)
    /\ BigNumber.parse (q_amount quote) = Some (whole - fee)
    /\ BigNumber.parse (q_fee quote) = Some fee
    /\ q_assetId quote = w_assetId params
    /\ ct_meta r !! "withdrawNonce" = Some (MetaText (BigNumber.toString (nonce channel)))
    /\ ct_meta r !! "initiatorSubmits"
       = Some (MetaBool (default false (w_initiatorSubmits params))).
Proof.
  intros Hrun. unfold_conversion Hrun.
  destruct (getAddress (w_assetId params)) as [assetId|e] eqn:HassetId;
    [ | discriminate Hrun ].
  destruct (getAddress (w_recipient params)) as [recipient|e] eqn:Hrecipient;
    [ | discriminate Hrun ].
  destruct (default false (w_initiatorSubmits params)
            && String.eqb (address signer) (alice channel)) eqn:Hsubmits;
    [ discriminate Hrun | ].
  destruct (String.eqb recipient EthReader.AddressZero) eqn:Hzero; [ discriminate Hrun | ].
  destruct (String.eqb (w_amount params) "0" && _) eqn:Hnoop; [ discriminate Hrun | ].
  assert (w_amount params = "0" ->
          exists callTo, w_callTo params = Some callTo
                         /\ callTo <> "" /\ callTo <> EthReader.AddressZero) as Hcall.
  { intros Hamount. rewrite Hamount in Hnoop. cbn [String.eqb Ascii.eqb Bool.eqb andb] in Hnoop.
    destruct (w_callTo params) as [callTo|]; [ | discriminate Hnoop ].
    exists callTo. cbn [truthy] in Hnoop.
    apply orb_false_elim in Hnoop. destruct Hnoop as [Hempty Haddr].
    apply negb_false_iff, negb_true_iff in Hempty.
    repeat split; now apply String.eqb_neq. }
  assert (~ (w_initiatorSubmits params = Some true /\ address signer = alice channel))
    as Hnot.
  { intros [Hs Ha]. rewrite Hs, Ha, String.eqb_refl in Hsubmits. discriminate Hsubmits. }
  apply String.eqb_neq in Hzero.
  clear Hnoop Hsubmits.
  repeat split_call; close_run.
  all: match goal with
       | Hfee : BigNumber.from (Some (q_fee ?q)) = Normal ?fee,
         Hwhole : BigNumber.from (Some (w_amount ?p)) = Normal ?whole,
         Hle : (?fee >? ?whole)%Z = false |- _ =>
         exists assetId, recipient, whole, fee,
           {| q_channelAddress := w_channelAddress p;
              q_amount := BigNumber.toString (whole - fee);
              q_assetId := w_assetId p;
              q_fee := q_fee q;
              q_expiry := q_expiry q;
              q_signature := q_signature q |};
         cbn [ct_assetId ct_balance ct_meta transferInitialState ws_fee data
              q_amount q_fee q_assetId];
         unfold BigNumber.from in Hfee, Hwhole;
         destruct (BigNumber.parse (q_fee q)) as [fee'|] eqn:Hparsefee;
           [ | discriminate Hfee ];
         destruct (BigNumber.parse (w_amount p)) as [whole'|] eqn:Hparsewhole;
           [ | discriminate Hwhole ];
         injection Hfee as ->; injection Hwhole as ->;
         rewrite Z.gtb_ltb in Hle; apply Z.ltb_ge in Hle
       end.
  all: repeat match goal with |- _ /\ _ => split end;
    try reflexivity; try assumption; try apply parse_toString; try lia.
  all: unfold Meta; repeat (rewrite lookup_insert_ne by done); apply lookup_insert_eq.
Qed.

(** X22.  A withdrawal is refused for the reason the error names, and the
    three refusals that need no quote come before anything is done.  With
    BobDoesntSubmitAlice the initiator was to submit and the signer is
    Alice; with WithdrawToZero the recipient checksums to the zero address;
    with NoOp the amount is "0" and there is no call; in these three cases
    the world is untouched: nothing was requested, signed or read.  With
    CouldNotGetQuote no quote was given and the signer, who is not Alice
    and does not submit, asked for one; with FeeGreaterThanAmount the fee
    of the quote in the error exceeds the amount. *)
Theorem convertWithdrawParams_refusals
    (sendWithdrawalQuoteMessage :
       WithdrawalQuoteRequest -> string -> string -> Eff W (Result WithdrawalQuote E))
    (params : WithdrawParams) (signer : IChannelSigner W) (channel : FullChannelState)
    (chainAddresses : gmap Z ChainAddress) (err : ConversionError E) (w w' : W) :
  convertWithdrawParams sendWithdrawalQuoteMessage params signer channel chainAddresses w
  = (Normal (Fail err), w') ->
  match pc_reason err with
  | ParameterConversionError.BobDoesntSubmitAlice =>
    w' = w /\ w_initiatorSubmits params = Some true /\ address signer = alice channel
  | ParameterConversionError.WithdrawToZero =>
    w' = w /\ getAddress (w_recipient params) = Normal EthReader.AddressZero
  | ParameterConversionError.NoOp =>
    w' = w /\ w_amount params = "0"
    /\ (truthy (w_callTo params) = false \/ w_callTo params = Some EthReader.AddressZero)
  | ParameterConversionError.CouldNotGetQuote =>
    w_quote params = None
    /\ publicIdentifier signer <> aliceIdentifier channel
    /\ w_initiatorSubmits params <> Some true
    /\ exists quoteError,
         sendWithdrawalQuoteMessage
           (mkWithdrawalQuoteRequest (channelAddress channel) (w_amount params)
              (w_assetId params))
           (aliceIdentifier channel) (publicIdentifier signer) w
         = (Normal (Fail quoteError), w')
  | ParameterConversionError.FeeGreaterThanAmount =>
    exists quote fee whole,
      pc_context err = WithQuote params quote
      /\ BigNumber.parse (q_fee quote) = Some fee
      /\ BigNumber.parse (w_amount params) = Some whole
      /\ whole < fee
  | _ => True
  end.
Proof.
  intros Hrun. unfold_conversion Hrun.
  destruct (getAddress (w_assetId params)) as [assetId|e] eqn:HassetId;
    [ | discriminate Hrun ].
  destruct (getAddress (w_recipient params)) as [recipient|e] eqn:Hrecipient;
    [ | discriminate Hrun ].
  destruct (default false (w_initiatorSubmits params)
            && String.eqb (address signer) (alice channel)) eqn:Hsubmits.
  { injection Hrun as <- <-. cbn [pc_reason].
    apply andb_prop in Hsubmits. destruct Hsubmits as [Hs Ha].
    apply String.eqb_eq in Ha.
    destruct (w_initiatorSubmits params) as [[|]|]; try discriminate Hs. auto. }
  destruct (String.eqb recipient EthReader.AddressZero) eqn:Hzero.
  { injection Hrun as <- <-. cbn [pc_reason].
    apply String.eqb_eq in Hzero. subst recipient. auto. }
  destruct (String.eqb (w_amount params) "0" && _) eqn:Hnoop.
  { injection Hrun as <- <-. cbn [pc_reason].
    apply andb_prop in Hnoop. destruct Hnoop as [Hamount Hcall].
    apply String.eqb_eq in Hamount.
    split; [ reflexivity | split; [ exact Hamount | ] ].
    apply orb_prop in Hcall. destruct Hcall as [Hcall|Hcall].
    - left. now apply negb_true_iff.
    - right. destruct (w_callTo params) as [callTo|]; [ | discriminate Hcall ].
      apply String.eqb_eq in Hcall. now subst callTo. }
  clear Hsubmits Hnoop Hzero.
  destruct (w_quote params) as [given|] eqn:Hgiven.
  - repeat split_call; close_run; cbn [pc_reason pc_context]; try exact I.
    all: match goal with
         | Hfee : BigNumber.from (Some (q_fee ?q)) = Normal ?fee,
           Hwhole : BigNumber.from (Some (w_amount ?p)) = Normal ?whole,
           Hgt : (?fee >? ?whole)%Z = true |- _ =>
           exists q, fee, whole;
           unfold BigNumber.from in Hfee, Hwhole;
           destruct (BigNumber.parse (q_fee q)) as [fee'|]; [ | discriminate Hfee ];
           destruct (BigNumber.parse (w_amount p)) as [whole'|]; [ | discriminate Hwhole ];
           injection Hfee as ->; injection Hwhole as ->;
           apply Z.gtb_gt in Hgt; repeat split; try reflexivity; lia
         end.
  - destruct (negb (String.eqb (publicIdentifier signer) (aliceIdentifier channel))
              && negb (default false (w_initiatorSubmits params))) eqn:Hasks.
    + apply andb_prop in Hasks. destruct Hasks as [Hbob Hself].
      apply negb_true_iff in Hbob, Hself. apply String.eqb_neq in Hbob.
      destruct (sendWithdrawalQuoteMessage _ _ _ w) as [[[quote|quoteError]|e] w1]
        eqn:Hquote.
      * repeat split_call; close_run; cbn [pc_reason pc_context]; try exact I.
        all: match goal with
             | Hfee : BigNumber.from (Some (q_fee ?q)) = Normal ?fee,
               Hwhole : BigNumber.from (Some (w_amount ?p)) = Normal ?whole,
               Hgt : (?fee >? ?whole)%Z = true |- _ =>
               exists q, fee, whole;
               unfold BigNumber.from in Hfee, Hwhole;
               destruct (BigNumber.parse (q_fee q)) as [fee'|]; [ | discriminate Hfee ];
               destruct (BigNumber.parse (w_amount p)) as [whole'|];
                 [ | discriminate Hwhole ];
               injection Hfee as ->; injection Hwhole as ->;
               apply Z.gtb_gt in Hgt; repeat split; try reflexivity; lia
             end.
      * injection Hrun as <- <-. cbn [pc_reason].
        repeat split; [ exact Hbob | | eauto ].
        intros Hs. rewrite Hs in Hself. discriminate Hself.
      * discriminate Hrun.
    + clear Hasks.
      repeat split_call; close_run; cbn [pc_reason pc_context]; try exact I.
      all: match goal with
           | Hfee : BigNumber.from (Some (q_fee ?q)) = Normal ?fee,
             Hwhole : BigNumber.from (Some (w_amount ?p)) = Normal ?whole,
             Hgt : (?fee >? ?whole)%Z = true |- _ =>
             exists q, fee, whole;
             unfold BigNumber.from in Hfee, Hwhole;
             destruct (BigNumber.parse (q_fee q)) as [fee'|]; [ | discriminate Hfee ];
             destruct (BigNumber.parse (w_amount p)) as [whole'|];
               [ | discriminate Hwhole ];
             injection Hfee as ->; injection Hwhole as ->;
             apply Z.gtb_gt in Hgt; repeat split; try reflexivity; lia
           end.
Qed.

(** X23.  Alice, and an initiator who submits the withdrawal, ask nobody
    for a quote when none is given: the conversion does not depend on the
    messaging service, and a withdrawal that converts carries no fee, so the
    quote in its meta has the fee "0" and the whole amount. *)
Theorem convertWithdrawParams_own_quote
    (messaging1 messaging2 :
       WithdrawalQuoteRequest -> string -> string -> Eff W (Result WithdrawalQuote E))
    (params : WithdrawParams) (signer : IChannelSigner W) (channel : FullChannelState)
    (chainAddresses : gmap Z ChainAddress) (w : W) :
  w_quote params = None ->
  publicIdentifier signer = aliceIdentifier channel \/ w_initiatorSubmits params = Some true ->
  convertWithdrawParams messaging1 params signer channel chainAddresses w
  = convertWithdrawParams messaging2 params signer channel chainAddresses w
  /\ forall r w',
       convertWithdrawParams messaging1 params signer channel chainAddresses w
       = (Normal (Ok r), w') ->
       ws_fee (transferInitialState r) = "0"
       /\ exists quote whole,
            ct_meta r !! "quote" = Some (MetaQuote quote)
            /\ q_fee quote = "0"
            /\ BigNumber.parse (w_amount params) = Some whole
            /\ BigNumber.parse (q_amount quote) = Some whole.
Proof.
  intros Hgiven Hself.
  assert (negb (String.eqb (publicIdentifier signer) (aliceIdentifier channel))
          && negb (default false (w_initiatorSubmits params)) = false) as Hasks.
  { destruct Hself as [Hid|Hs].
    - rewrite Hid, String.eqb_refl. reflexivity.
    - rewrite Hs. cbn. now rewrite andb_false_r. }
  split.
  - unfold ParamConverter.convertWithdrawParams. rewrite Hgiven, Hasks. reflexivity.
  - intros r w' Hrun. unfold_conversion Hrun. rewrite Hgiven, Hasks in Hrun.
    repeat split_call; close_run.
    all: match goal with
         | Hfee : BigNumber.from (Some (q_fee _)) = Normal ?fee,
           Hwhole : BigNumber.from (Some (w_amount ?p)) = Normal ?whole |- _ =>
           cbn [q_fee] in Hfee; vm_compute in Hfee; injection Hfee as <-;
           unfold BigNumber.from in Hwhole;
           destruct (BigNumber.parse (w_amount p)) as [whole'|] eqn:Hparse;
             [ | discriminate Hwhole ];
           injection Hwhole as ->
         end.
    all: cbn [transferInitialState ws_fee ct_meta]; (split; [ vm_compute; reflexivity | ]).
    all: eexists _, _; unfold Meta;
      (split; [ repeat (rewrite lookup_insert_ne by done); apply lookup_insert_eq | ]);
      cbn [q_fee q_amount];
      (split; [ reflexivity | ]); (split; [ reflexivity | ]);
      now rewrite Z.sub_0_r, parse_toString.
Qed.

End WithdrawFacts.

(** ** The properties above on concrete runs *)

Lemma inbound_stale_update_witness :
  Sync.inbound Memory.memoryServices Memory.update5 None "inbox" (Memory.atNonce5 [], [])
  = (Normal (Fail (newInboundChannelUpdateError
                     (Inbound InboundChannelUpdateError.StaleUpdate)
                     (Some Memory.update5) (Some Memory.channel5) [])),
     (Memory.atNonce5 [],
      [Sync.GetChannelState "0xchannel"; Sync.GetActiveTransfers "0xchannel";
       Sync.RespondWithProtocolError "inbox"
         (newInboundChannelUpdateError (Inbound InboundChannelUpdateError.StaleUpdate)
            (Some Memory.update5) (Some Memory.channel5) [])])).
Proof.
  apply (inbound_stale_update Memory.memoryServices Memory.update5 None "inbox"
           Memory.channel5 [] (Memory.atNonce5 []) (Memory.atNonce5 [])
           (Memory.atNonce5 []) (Memory.atNonce5 []) eq_refl eq_refl eq_refl).
  cbn. lia.
Defined.

Lemma inbound_restore_needed_witness :
  Sync.inbound Memory.memoryServices Scenarios.update8 None "inbox" (Memory.atNonce5 [], [])
  = (Normal (Fail (newInboundChannelUpdateError
                     (Inbound InboundChannelUpdateError.RestoreNeeded)
                     (Some Scenarios.update8) (Some Memory.channel5)
                     [("counterpartyLatestUpdate", CtxUpdate None);
                      ("ourLatestNonce", CtxNonce 5)])),
     (Memory.atNonce5 [],
      [Sync.GetChannelState "0xchannel"; Sync.GetActiveTransfers "0xchannel";
       Sync.RespondWithProtocolError "inbox"
         (newInboundChannelUpdateError (Inbound InboundChannelUpdateError.RestoreNeeded)
            (Some Scenarios.update8) (Some Memory.channel5)
            [("counterpartyLatestUpdate", CtxUpdate None);
             ("ourLatestNonce", CtxNonce 5)])])).
Proof.
  apply (inbound_restore_needed Memory.memoryServices Scenarios.update8 None "inbox"
           (Some Memory.channel5) [] (Memory.atNonce5 []) (Memory.atNonce5 [])
           (Memory.atNonce5 []) (Memory.atNonce5 []) eq_refl eq_refl eq_refl).
  cbn. lia.
Defined.

Lemma inbound_stale_channel_witness :
  Sync.inbound Memory.memoryServices Memory.update7 None "inbox" (Memory.atNonce5 [], [])
  = (Normal (Fail (newInboundChannelUpdateError
                     (Inbound InboundChannelUpdateError.StaleChannel)
                     (Some Memory.update7) (Some Memory.channel5) [])),
     (Memory.atNonce5 [],
      [Sync.GetChannelState "0xchannel"; Sync.GetActiveTransfers "0xchannel";
       Sync.RespondWithProtocolError "inbox"
         (newInboundChannelUpdateError (Inbound InboundChannelUpdateError.StaleChannel)
            (Some Memory.update7) (Some Memory.channel5) [])])).
Proof.
  apply (inbound_stale_channel Memory.memoryServices Memory.update7 "inbox"
           (Some Memory.channel5) [] (Memory.atNonce5 []) (Memory.atNonce5 [])
           (Memory.atNonce5 []) (Memory.atNonce5 []) eq_refl eq_refl eq_refl).
  reflexivity.
Defined.

Lemma inbound_answers_once_witness :
  match Memory.inboundBehindByOne with
  | (Normal (Ok r), (_, log)) =>
    (exists previous,
       last log = Some (Sync.RespondToProtocolMessage "inbox"
                          (latestUpdate (Sync.updatedChannel r)) previous))
    /\ Log.count Log.isRespond log = 1%nat
  | _ => False
  end.
Proof.
  destruct Memory.inboundBehindByOne as [[[r|e]|e] [w' log]] eqn:Hrun;
    try (vm_compute in Hrun; discriminate Hrun).
  exact (inbound_answers_once Memory.memoryServices Memory.update7 (Some Memory.update6)
           "inbox" _ _ _ _ Hrun).
Defined.

Lemma inbound_saves_validated_states_witness :
  match Memory.inboundSingleSignedSync with
  | (Normal (Fail _), (_, log)) =>
    Log.savesFollowSync None log = true
    /\ (Log.count Log.isSave log <= Log.count Log.isInboundValidation log <= 2)%nat
    /\ (Log.count Log.isSave log <= 1)%nat
    /\ ((Log.count Log.isInboundValidation log <= 1)%nat ->
        Log.count Log.isSave log = 0%nat)
  | _ => False
  end.
Proof.
  destruct Memory.inboundSingleSignedSync as [[[r|e]|e] [w' log]] eqn:Hrun;
    try (vm_compute in Hrun; discriminate Hrun).
  exact (inbound_saves_validated_states Memory.memoryServices Memory.update7
           (Some Memory.update6SingleSigned) "inbox" _ _ _ _ Hrun).
Defined.

Lemma inbound_behind_by_one_witness :
  exists synced s,
    Sync.syncState Memory.memoryServices Memory.update6 (Some Memory.channel5) []
      (Sync.inboundSyncError (Some Memory.update6) (Some Memory.channel5))
      (Memory.atNonce5 [],
       [Sync.GetChannelState "0xchannel"; Sync.GetActiveTransfers "0xchannel"])
    = (Normal (Ok synced), s)
    /\ Memory.inboundBehindByOne
       = Sync.inbound_apply Memory.memoryServices Memory.update7 "inbox"
           (Some (Sync.updatedChannel synced)) (Sync.updatedActiveTransfers synced) s.
Proof.
  destruct (Sync.syncState Memory.memoryServices Memory.update6 (Some Memory.channel5) []
              (Sync.inboundSyncError (Some Memory.update6) (Some Memory.channel5))
              (Memory.atNonce5 [],
               [Sync.GetChannelState "0xchannel"; Sync.GetActiveTransfers "0xchannel"]))
    as [[[synced|e]|e] s] eqn:Hsync; try (vm_compute in Hsync; discriminate Hsync).
  exists synced, s. split; [ reflexivity | ].
  exact (inbound_behind_by_one Memory.memoryServices Memory.update7 Memory.update6 "inbox"
           (Some Memory.channel5) [] synced (Memory.atNonce5 []) (Memory.atNonce5 [])
           (Memory.atNonce5 []) s eq_refl eq_refl eq_refl Hsync).
Defined.

Lemma syncState_applies_double_signed_only_witness :
  match Scenarios.syncDoubleSigned with
  | (Normal (Ok synced), s') =>
    type Memory.update6 <> setup
    /\ truthy (aliceSignature Memory.update6) = true
    /\ truthy (bobSignature Memory.update6) = true
    /\ snd s' = ([] ++
                 [Sync.ValidateAndApplyInboundUpdate Memory.update6 (Some Memory.channel5) [];
                  Sync.SaveChannelState (Sync.updatedChannel synced)
                    (Sync.updatedTransfer synced)])%list
  | _ => False
  end.
Proof.
  destruct Scenarios.syncDoubleSigned as [[[synced|e]|e] s'] eqn:Hrun;
    try (vm_compute in Hrun; discriminate Hrun).
  exact (syncState_applies_double_signed_only Memory.memoryServices Memory.update6
           (Some Memory.channel5) []
           (Sync.inboundSyncError (Some Memory.update6) (Some Memory.channel5))
           synced (Memory.atNonce5 [], []) s' (fun msg => eq_refl) Hrun).
Defined.

Lemma syncStateAndRecreateUpdate_without_state_witness :
  Sync.syncStateAndRecreateUpdate Memory.memoryServices (Memory.staleUpdate Memory.update7)
    Memory.depositParams None [] (Memory.emptyStore, [])
  = (Throw (TypeError "Cannot read property 'nonce' of undefined"),
     (Memory.emptyStore, [])).
Proof.
  apply (syncStateAndRecreateUpdate_without_state Memory.memoryServices
           Memory.depositParams [] (Memory.staleUpdate Memory.update7) Memory.update7
           (Memory.emptyStore, []) eq_refl).
  cbn. lia.
Defined.

Lemma outbound_reply_errors_witness :
  fst Scenarios.outboundNoAnswer
  = Normal (Fail (newOutboundChannelUpdateError
                    OutboundChannelUpdateError.CounterpartyOffline
                    Memory.depositParams (Some Memory.channel5)
                    [("counterpartyError", CtxMessage (Messaging MessagingError.Timeout))]))
  /\ Log.count Log.isSend (snd (snd Scenarios.outboundNoAnswer)) = 1%nat
  /\ Log.count Log.isSave (snd (snd Scenarios.outboundNoAnswer)) = 0%nat.
Proof.
  pose proof (outbound_reply_errors Memory.memoryServices Memory.depositParams
                (Some Memory.channel5) [] _ (Memory.atNonce5 []) _ _ _ (Memory.atNonce5 [])
                eq_refl eq_refl eq_refl) as [Herror _].
  unfold Scenarios.outboundNoAnswer.
  rewrite (Herror Memory.timeoutError eq_refl) by discriminate.
  split; [ reflexivity | ]. split; reflexivity.
Defined.

Lemma retryWrapper_attempts_witness :
  exists n, (1 <= n <= Z.to_nat (Z.max 1 5))%nat
    /\ snd (EthReader.retryWrapper Examples.exampleTable 5 (Examples.providers1337 10)
              1337 Examples2.alwaysFailing 0%nat)
       = EthReader.afterCalls n (Examples2.alwaysFailing (Examples.undeployed 10)) 0%nat.
Proof.
  exact (retryWrapper_attempts Examples.exampleTable 5 (Examples.providers1337 10) 1337
           (Examples.undeployed 10) Examples2.alwaysFailing 0%nat eq_refl).
Defined.

Lemma retryWrapper_wraps_failures_witness :
  match EthReader.retryWrapper Examples.exampleTable 5 (Examples.providers1337 10) 1337
          Examples2.alwaysFailing 0%nat with
  | (Normal (Fail e), w') =>
    ce_message e = "Could not execute rpc method"
    /\ canRetry e = false
    /\ length (ce_errors e) = 5%nat
    /\ w' = 5%nat
  | _ => False
  end.
Proof.
  destruct (EthReader.retryWrapper Examples.exampleTable 5 (Examples.providers1337 10) 1337
              Examples2.alwaysFailing 0%nat) as [[[v|e]|e] w'] eqn:Hrun;
    try (vm_compute in Hrun; discriminate Hrun).
  exact (retryWrapper_wraps_failures Examples.exampleTable 5 (Examples.providers1337 10)
           1337 Examples2.alwaysFailing e 0%nat w' Hrun).
Defined.

Lemma undeployed_channel_reads_witness :
  ChannelReads.getChannelDispute Examples.exampleTable 5 (Examples.providers1337 10)
    (fun _ _ => Examples2.quietChannel) "0xchannel" 1337 0%nat
  = (Normal (Ok None), 1%nat)
  /\ ChannelReads.getWithdrawalTransactionRecord Examples.exampleTable 5
       (Examples.providers1337 10) (fun _ _ => Examples2.quietChannel)
       Examples2.withdrawOne "0xchannel" 1337 0%nat
     = (Normal (Ok false), 1%nat).
Proof.
  exact (undeployed_channel_reads Examples.exampleTable 5 (Examples.providers1337 10)
           (fun _ _ => Examples2.quietChannel) "0xchannel" 1337 Examples2.withdrawOne
           0%nat 1%nat eq_refl).
Defined.

Lemma getChannelDispute_reports_witness :
  ChannelReads.getChannelDispute Examples.exampleTable 5 Examples4.deployed1337
    (fun _ _ => Examples2.quietChannel) "0xchannel" 1337 0%nat
  = (Normal (Ok None), 2%nat)
  /\ exists d,
       ChannelReads.getChannelDispute Examples.exampleTable 5 Examples4.deployed1337
         (fun _ _ => Examples5.disputed) "0xchannel" 1337 0%nat
       = (Normal (Ok (Some d)), 2%nat)
       /\ ChannelReads.channelStateHash d
          = "0x00000000000000000000000000000000000000000000000000000000000000aa"
       /\ BigNumber.parse (ChannelReads.cd_nonce d) = Some 7
       /\ BigNumber.parse (ChannelReads.defundNonce d) = Some 2.
Proof.
  split.
  - exact (proj1 (getChannelDispute_reports Examples.exampleTable 5
                    Examples4.deployed1337 (fun _ _ => Examples2.quietChannel)
                    "0xchannel" 1337 Examples4.deployed "0x6080"
                    (ChannelReads.mkOnchainDispute ChannelReads.HashZero 0 "0x" 0 0
                       (Some 0))
                    0%nat 1%nat 2%nat eq_refl eq_refl ltac:(discriminate) eq_refl)
             eq_refl).
  - destruct (getChannelDispute_reports Examples.exampleTable 5 Examples4.deployed1337
                (fun _ _ => Examples5.disputed) "0xchannel" 1337 Examples4.deployed
                "0x6080"
                (ChannelReads.mkOnchainDispute
                   "0x00000000000000000000000000000000000000000000000000000000000000aa"
                   7 ChannelReads.HashZero 1700 1800 (Some 2))
                0%nat 1%nat 2%nat eq_refl eq_refl ltac:(discriminate) eq_refl)
      as [_ Hreported].
    destruct (Hreported ltac:(discriminate) 2 eq_refl)
      as (d & Hrun & Hhash & _ & Hnonce & _ & _ & Hdefund).
    exists d. repeat split; assumption.
Defined.

Lemma getChannelDispute_without_defundNonce_witness :
  fst (ChannelReads.getChannelDispute Examples.exampleTable 5 Examples4.deployed1337
         (fun _ _ => Examples5.disputedFiveFields) "0xchannel" 1337 0%nat)
  = Normal (Fail (newChainError Examples.exampleTable "Could not execute rpc method"
                    (repeat "Cannot read property 'toString' of undefined" 5))).
Proof.
  apply (getChannelDispute_without_defundNonce Examples.exampleTable 5
           Examples4.deployed1337 (fun _ _ => Examples5.disputedFiveFields)
           "0xchannel" 1337 Examples4.deployed "0x6080" 0%nat eq_refl).
  - discriminate.
  - intros n. reflexivity.
  - intros n. eexists. split; [ reflexivity | ]. split; [ discriminate | reflexivity ].
Defined.

Lemma sendTxWithRetries_returns_submission_witness :
  match EthService.sendTxWithRetries Examples.exampleTable Examples.silentStore 1 3
          "0xchannel" 1337 "deposit" Examples2.refusedOnce 0%nat with
  | (Normal (Some r), w') =>
    (exists w0,
       EthService.sendTxAndParseResponse Examples.exampleTable Examples.silentStore
         "0xchannel" 1337 "deposit" Examples2.refusedOnce w0 = (Normal r, w'))
    /\ match r with Ok _ => True | Fail error => canRetry error = false end
  | _ => False
  end.
Proof.
  destruct (EthService.sendTxWithRetries Examples.exampleTable Examples.silentStore 1 3
              "0xchannel" 1337 "deposit" Examples2.refusedOnce 0%nat)
    as [[[r|]|e] w'] eqn:Hrun; try (vm_compute in Hrun; discriminate Hrun).
  exact (sendTxWithRetries_returns_submission Examples.exampleTable Examples.silentStore 1 3
           "0xchannel" 1337 "deposit" Examples2.refusedOnce r 0%nat w' Hrun).
Defined.

Lemma getUpdatedChannelBalance_unknown_asset_witness :
  ChannelBalance.getUpdatedChannelBalance Examples.sameSpelling create "0x1111"
    (Examples.balanceOf "3" "0") Examples2.twoAssets "0xalice"
  = Throw (ErrorObj "Asset id not found in channel 0x1111" false).
Proof.
  apply (getUpdatedChannelBalance_unknown_asset Examples.sameSpelling create "0x1111"
           "0x1111" (Examples.balanceOf "3" "0") Examples2.twoAssets "0xalice" eq_refl).
  intros a Ha.
  apply elem_of_cons in Ha. destruct Ha as [-> | Ha].
  - eexists. split; [ reflexivity | discriminate ].
  - apply elem_of_cons in Ha. destruct Ha as [-> | Ha].
    + eexists. split; [ reflexivity | discriminate ].
    + apply elem_of_nil in Ha. destruct Ha.
Defined.

Lemma getUpdatedChannelBalance_moves_shares_witness :
  exists r,
    ChannelBalance.getUpdatedChannelBalance Examples.sameSpelling create Examples.tokenLower
      (Examples.balanceOf "3" "0") Examples2.twoAssets "0xalice" = Normal r
    /\ to r = ["0xalice"; "0xbob"]
    /\ BigNumber.parse <$> amount r = [Some 7; Some 5].
Proof.
  exact (getUpdatedChannelBalance_moves_shares Examples.sameSpelling create
           Examples.tokenLower (Examples.balanceOf "3" "0") (Examples.balanceOf "10" "5")
           Examples2.twoAssets "0xalice" 0%nat "10" "5" "3" "0" 10 5 3 0
           eq_refl eq_refl eq_refl eq_refl eq_refl eq_refl eq_refl eq_refl).
Defined.

Lemma create_then_resolve_keeps_total_witness :
  exists afterCreate afterResolve a0 a1,
    ChannelBalance.getUpdatedChannelBalance Examples.sameSpelling create Examples.tokenLower
      (Examples.balanceOf "3" "0") Examples2.twoAssets "0xalice" = Normal afterCreate
    /\ ChannelBalance.getUpdatedChannelBalance Examples.sameSpelling resolve
         Examples.tokenLower (Examples.balanceOf "1" "2")
         (ChannelBalance.withBalances Examples2.twoAssets
            (<[0%nat := afterCreate]> (balances Examples2.twoAssets)))
         "0xalice" = Normal afterResolve
    /\ to afterResolve = ["0xalice"; "0xbob"]
    /\ BigNumber.parse <$> amount afterResolve = [Some a0; Some a1]
    /\ a0 + a1 = 10 + 5.
Proof.
  exact (create_then_resolve_keeps_total Examples.sameSpelling Examples.tokenLower
           (Examples.balanceOf "3" "0") (Examples.balanceOf "1" "2")
           (Examples.balanceOf "10" "5") Examples2.twoAssets "0xalice" 0%nat
           "10" "5" "3" "0" "1" "2" 10 5 3 0 1 2
           eq_refl eq_refl ltac:(discriminate) (or_introl eq_refl)
           eq_refl eq_refl eq_refl eq_refl eq_refl eq_refl eq_refl eq_refl eq_refl
           eq_refl).
Defined.

Lemma mergeAssetIds_without_duplicates_witness :
  Utils.mergeAssetIds Examples.sameSpelling Examples2.twoAssets
  = Normal (Utils.mkMergedChannel Examples2.twoAssets
      {| Utils.m_assetIds := [Some Examples.tokenLower; Some EthReader.AddressZero];
         Utils.m_processedDepositsA := [Some "10"; Some "7"];
         Utils.m_processedDepositsB := [Some "5"; Some "0"];
         Utils.m_balances := [Some (Examples.balanceOf "10" "5");
                              Some (Examples.balanceOf "7" "0")];
         Utils.m_defundNonces := [Some "1"; Some "2"] |}).
Proof.
  apply (mergeAssetIds_without_duplicates Examples.sameSpelling toLowerCase
           Examples2.twoAssets).
  - apply (bool_decide_unpack _). vm_compute. reflexivity.
  - intros a _. reflexivity.
Defined.

Lemma failing_code_read_is_retried_squared_witness :
  (exists errors,
     EthReader.getTotalDepositedA Examples.exampleTable 5 Examples3.unreachable1337
       "0xchannel" 1337 EthReader.AddressZero 0%nat
     = (Normal (Fail (newChainError Examples.exampleTable "Could not execute rpc method"
                        errors)),
        EthReader.afterCalls (Z.to_nat (Z.max 1 5) * Z.to_nat (Z.max 1 5))
          (EthReader.provider_getCode Examples3.unreachable "0xchannel") 0%nat))
  /\ EthReader.afterCalls (Z.to_nat (Z.max 1 5) * Z.to_nat (Z.max 1 5))
       (EthReader.provider_getCode Examples3.unreachable "0xchannel") 0%nat = 25%nat.
Proof.
  split; [ | reflexivity ].
  exact (proj1 (failing_code_read_is_retried_squared Examples.exampleTable 5
                  Examples3.unreachable1337 "0xchannel" EthReader.AddressZero 1337
                  Examples3.unreachable 0%nat eq_refl
                  (fun w => ex_intro _ _ eq_refl))).
Defined.

Lemma getRegisteredTransferByName_from_kept_registry_witness :
  match Examples4.firstLookup with
  | (Normal (Ok info), s') =>
    Registry.rt_name info = "Withdraw"
    /\ exists registry,
         Registry.transferRegistries s' !! 1337 = Some registry /\ In info registry
  | _ => False
  end.
Proof.
  destruct Examples4.firstLookup as [[[info|e]|e] s'] eqn:Hrun;
    try (vm_compute in Hrun; discriminate Hrun).
  exact (getRegisteredTransferByName_from_kept_registry Examples.exampleTable 5
           Examples3.readers1337 "Transfer not registered" (fun s => s) Examples3.noEvm
           Examples3.twoTransfers "Withdraw" "0xregistry" 1337 None info Examples3.fresh s'
           Hrun).
Defined.

Lemma loaded_registry_answers_witness :
  Registry.getRegisteredTransfers Examples.exampleTable 5 Examples3.readers1337
    (fun s => s) Examples3.noEvm Examples3.twoTransfers "0xother" 1337 None Examples3.loaded
  = (Normal (Ok [Examples3.withdrawTransfer; Examples3.hashlockTransfer]), Examples3.loaded)
  /\ Registry.getRegisteredTransferByName Examples.exampleTable 5 Examples3.readers1337
       "Transfer not registered" (fun s => s) Examples3.noEvm Examples3.twoTransfers
       "Deposit" "0xother" 1337 None Examples3.loaded
     = (Normal (Fail (newChainError Examples.exampleTable "Could not execute rpc method"
                        (replicate (Z.to_nat (Z.max 1 5)) "Transfer not registered"))),
        Examples3.loaded).
Proof.
  exact (loaded_registry_answers Examples.exampleTable 5 Examples3.readers1337
           "Transfer not registered" (fun s => s) Examples3.noEvm Examples3.twoTransfers
           "0xother" 1337 None Examples3.idle
           [Examples3.withdrawTransfer; Examples3.hashlockTransfer] Examples3.loaded
           "Deposit" eq_refl eq_refl).
Defined.


Lemma convertWithdrawParams_commits_amount_less_fee_witness :
  match Examples4.convertFor Examples3.quoteThree Examples3.withdrawTen with
  | (Normal (Ok r), _) =>
    exists whole fee quote,
      BigNumber.parse "10" = Some whole
      /\ BigNumber.parse (ParamConverter.ws_fee (ParamConverter.transferInitialState r))
         = Some fee
      /\ fee <= whole
      /\ ParamConverter.ct_meta r !! "quote" = Some (ParamConverter.MetaQuote quote)
      /\ BigNumber.parse (ParamConverter.q_amount quote) = Some (whole - fee)
  | _ => False
  end.
Proof.
  destruct (Examples4.convertFor Examples3.quoteThree Examples3.withdrawTen)
    as [[[r|err]|e] w'] eqn:Hrun; try (vm_compute in Hrun; discriminate Hrun).
  destruct (convertWithdrawParams_commits_amount_less_fee Examples.sameSpelling
              Examples3.amountAsHash 86400000 8640 "Withdraw" Examples3.clock
              Examples3.withdrawRegistered Examples3.quoteThree Examples3.withdrawTen
              Examples3.bobSigner Examples2.twoAssets Examples3.addresses1337 r 0%nat w'
              Hrun)
    as (assetId & recipient & whole & fee & quote & _ & _ & _ & _ & _ & Hwhole & Hfee
        & Hle & _ & _ & _ & Hquote & Hamount & _).
  exists whole, fee, quote. repeat split; assumption.
Defined.

Lemma convertWithdrawParams_refusals_witness :
  Examples4.convertFor Examples3.quoteThree Examples4.withdrawToZero
  = (Normal (Fail (ParamConverter.mkConversionError
                     ParamConverter.ParameterConversionError.WithdrawToZero
                     "0xchannel" "bob-id"
                     (ParamConverter.WithParams Examples4.withdrawToZero))), 0%nat)
  /\ Examples.sameSpelling (ParamConverter.w_recipient Examples4.withdrawToZero)
     = Normal EthReader.AddressZero.
Proof.
  split; [ reflexivity | ].
  exact (proj2 (convertWithdrawParams_refusals Examples.sameSpelling
                  Examples3.amountAsHash 86400000 8640 "Withdraw" Examples3.clock
                  Examples3.withdrawRegistered Examples3.quoteThree
                  Examples4.withdrawToZero Examples3.bobSigner Examples2.twoAssets
                  Examples3.addresses1337
                  (ParamConverter.mkConversionError
                     ParamConverter.ParameterConversionError.WithdrawToZero
                     "0xchannel" "bob-id"
                     (ParamConverter.WithParams Examples4.withdrawToZero))
                  0%nat 0%nat eq_refl)).
Defined.

Lemma convertWithdrawParams_own_quote_witness :
  Examples4.convertFor Examples3.quoteThree Examples4.withdrawSubmitted
  = Examples4.convertFor Examples4.noQuote Examples4.withdrawSubmitted.
Proof.
  exact (proj1 (convertWithdrawParams_own_quote Examples.sameSpelling
                  Examples3.amountAsHash 86400000 8640 "Withdraw" Examples3.clock
                  Examples3.withdrawRegistered Examples3.quoteThree Examples4.noQuote
                  Examples4.withdrawSubmitted Examples3.bobSigner Examples2.twoAssets
                  Examples3.addresses1337 0%nat eq_refl (or_intror eq_refl))).
Defined.
